(** * Zalanko voice-shopping client: a shallow embedding of the React hooks

    The development follows the TypeScript sources of the frontend:

    - [utils/pricing.ts]                     — module [Pricing];
    - the JavaScript values the hooks handle — module [JS];
    - [hooks/useProductManagement],
      [hooks/useShoppingFeatures],
      [hooks/useVirtualTryOn],
      [hooks/useToolResponseHandler],
      [hooks/useVoiceInterface] and the component that wires them
                                             — module [Client];
    - [App.tsx], the same client written as one component
                                             — module [Monolith];
    - a few frames to run the client on      — module [Samples].

    React state is modelled by explicit state passing: every callback is a
    computation over the record of all [useState] cells, run to completion
    against the state committed by the previous callback. *)

From stdpp Require Import gmap strings list pretty.

Set Warnings "-register-all".

(* ===================================================================== *)
(** * utils/pricing.ts *)
(* ===================================================================== *)

Module Pricing.

(** [salePrice: number | null | undefined]. *)
Inductive Nullable (A : Type) : Type :=
  | Undefined
  | Null
  | Value (a : A).
Arguments Undefined {A}.
Arguments Null {A}.
Arguments Value {A} a.

(** The loose comparison [x != null]: false for both [null] and
    [undefined], true for every number. *)
Definition neq_null {A} (x : Nullable A) : bool :=
  match x with
  | Undefined | Null => false
  | Value _ => true
  end.

Section WithNumber.
(** [calculatePricing] performs no arithmetic: it only selects one of its
    arguments. The carrier of JavaScript numbers is therefore kept
    abstract. *)
Variable number : Type.

(** [interface PricingInfo]; [originalPrice?: number] is [None] when the
    field holds [undefined]. *)
Record PricingInfo : Type := {
  currentPrice : number;
  hasDiscount : bool;
  originalPrice : option number
}.

(** The non-null assertion [salePrice!] is erased by the compiler; it is
    only evaluated under [hasDiscount], where [salePrice] is a number. *)
Definition calculatePricing
    (price : number) (salePrice : Nullable number) (onSale : bool)
    : PricingInfo :=
  let hasDiscount := onSale && neq_null salePrice in
  let currentPrice :=
    if hasDiscount
    then match salePrice with Value sp => sp | _ => price end
    else price in
  {| currentPrice := currentPrice;
     hasDiscount := hasDiscount;
     originalPrice := if hasDiscount then Some price else None |}.
End WithNumber.

Arguments currentPrice {number} _.
Arguments hasDiscount {number} _.
Arguments originalPrice {number} _.
Arguments calculatePricing {number} _ _ _.

End Pricing.

(* ===================================================================== *)
(** * JavaScript values as the hooks see them *)
(* ===================================================================== *)

Module JS.

(** What [JSON.parse] returns, extended with [undefined], the result of
    reading a property that is not there. Objects are finite maps from
    property names to values, so two objects with the same properties are
    equal whatever the order in which the properties were written. *)
Inductive value (number : Type) : Type :=
  | JUndefined
  | JNull
  | JBool (b : bool)
  | JNum (n : number)
  | JStr (s : string)
  | JArr (items : list (value number))
  | JObj (fields : gmap string (value number)).
Arguments JUndefined {number}.
Arguments JNull {number}.
Arguments JBool {number} b.
Arguments JNum {number} n.
Arguments JStr {number} s.
Arguments JArr {number} items.
Arguments JObj {number} fields.

(** The part of the JavaScript runtime the hooks rely on and that is not
    code of the application. Numbers are IEEE doubles; the hooks only test
    them for zero, for being positive, and for equality, so the carrier is
    abstract. *)
Class Runtime : Type := {
  number : Type;
  number_eq_dec :: EqDecision number;
  (** [n] is [+0] or [-0] ([NaN] never comes out of [JSON.parse]). *)
  number_is_zero : number -> bool;
  (** [n > 0]. *)
  number_gt_zero : number -> bool;
  (** [v > 0] for a string, an array or an object [v], which the runtime
      first converts to a number. *)
  coerce_gt_zero : value number -> bool;
  (** The conversion a template literal applies to an interpolated value
      that is not a string. *)
  ToString : value number -> string;
  (** [JSON.parse]; [None] stands for a [SyntaxError]. *)
  JSON_parse : string -> option (value number)
}.

(** Exceptions the modelled fragment can raise. *)
Inductive Exn : Type :=
  | TypeError
  | SyntaxError
  | Error (msg : string).

Inductive Completion (A : Type) : Type :=
  | Normal (a : A)
  | Throw (e : Exn).
Arguments Normal {A} a.
Arguments Throw {A} e.

(** The values of the runtime at hand. *)
Abbreviation val := (value number).

Section WithRuntime.
Context `{Runtime}.

Fixpoint value_eq_dec (a b : val) {struct a} : Decision (a = b).
Proof.
  refine (match a, b with
          | JUndefined, JUndefined => left eq_refl
          | JNull, JNull => left eq_refl
          | JBool x, JBool y => cast_if (decide (x = y))
          | JNum x, JNum y => cast_if (decide (x = y))
          | JStr x, JStr y => cast_if (decide (x = y))
          | JArr x, JArr y => cast_if (@list_eq_dec _ value_eq_dec x y)
          | JObj x, JObj y =>
              cast_if (@gmap_eq_dec _ _ _ _ value_eq_dec x y)
          | _, _ => right _
          end); congruence.
Defined.
#[global] Instance value_eq : EqDecision val := value_eq_dec.

(** lodash [isEqual]: deep equality. On values built by [JSON.parse] it
    compares primitives by value, arrays element by element and objects
    property by property, which is equality of the values above. *)
Definition isEqual (a b : val) : bool := bool_decide (a = b).

(** ToBoolean, as applied by [if (x)] and [x && ...]. *)
Definition truthy (v : val) : bool :=
  match v with
  | JUndefined | JNull => false
  | JBool b => b
  | JNum n => negb (number_is_zero n)
  | JStr s => negb (bool_decide (s = ""))
  | JArr _ | JObj _ => true
  end.

(** [typeof v === "string"]. *)
Definition is_string (v : val) : bool :=
  match v with JStr _ => true | _ => false end.

(** [a === b]. Primitives are compared by value. Arrays and objects are
    compared by identity: the values compared by the hooks always come
    from two different calls of [JSON.parse], hence are never the same
    object. [Array.prototype.includes] compares the same way on these
    values. *)
Definition strict_eq (a b : val) : bool :=
  match a, b with
  | JUndefined, JUndefined => true
  | JNull, JNull => true
  | JBool x, JBool y => bool_decide (x = y)
  | JNum x, JNum y => bool_decide (x = y)
  | JStr x, JStr y => bool_decide (x = y)
  | _, _ => false
  end.

Definition includes (l : list val) (x : val) : bool :=
  existsb (fun y => strict_eq y x) l.

(** [v.k], for the property names the hooks read: none of them is a
    built-in property of a string, an array, a number or a boolean, so
    those yield [undefined]. Reading a property of [null] or [undefined]
    is a [TypeError]. *)
Definition get_prop (v : val) (k : string) : Completion val :=
  match v with
  | JUndefined | JNull => Throw TypeError
  | JObj fields => Normal (default JUndefined (fields !! k))
  | JBool _ | JNum _ | JStr _ | JArr _ => Normal JUndefined
  end.

(** [x > 0] for an arbitrary [x]. *)
Definition gt_zero (x : val) : bool :=
  match x with
  | JUndefined | JNull => false
  | JBool b => b
  | JNum n => number_gt_zero n
  | JStr _ | JArr _ | JObj _ => coerce_gt_zero x
  end.

(** [v.length > 0]. *)
Definition length_gt_zero (v : val) : Completion bool :=
  match v with
  | JUndefined | JNull => Throw TypeError
  | JArr items => Normal (negb (bool_decide (items = [])))
  | JStr s => Normal (negb (bool_decide (s = "")))
  | JObj fields => Normal (gt_zero (default JUndefined (fields !! "length")))
  | JBool _ | JNum _ => Normal false
  end.

(** [v[0]]. *)
Definition index0 (v : val) : Completion val :=
  match v with
  | JUndefined | JNull => Throw TypeError
  | JArr items => Normal (default JUndefined (head items))
  | JStr (String c _) => Normal (JStr (String c ""))
  | JStr EmptyString => Normal JUndefined
  | JObj fields => Normal (default JUndefined (fields !! "0"))
  | JBool _ | JNum _ => Normal JUndefined
  end.

(** The loop of [Array.prototype.find] with a callback that may throw. *)
Fixpoint find_first (p : val -> Completion bool) (items : list val)
    : Completion val :=
  match items with
  | [] => Normal JUndefined
  | x :: rest =>
      match p x with
      | Throw e => Throw e
      | Normal true => Normal x
      | Normal false => find_first p rest
      end
  end.

(** [v.find(p)]: only arrays have a [find] method; calling the property
    of anything else is a [TypeError]. *)
Definition array_find (p : val -> Completion bool) (v : val)
    : Completion val :=
  match v with
  | JArr items => find_first p items
  | _ => Throw TypeError
  end.

(** [s.startsWith(p)]; a [TypeError] when [s] is not a string. *)
Definition startsWith (s : val) (p : string) : Completion bool :=
  match s with
  | JStr str => Normal (String.prefix p str)
  | _ => Throw TypeError
  end.

(** The string a template literal builds from [v]. *)
Definition interpolate (v : val) : string :=
  match v with
  | JStr s => s
  | _ => ToString v
  end.
End WithRuntime.

End JS.

(* ===================================================================== *)
(** * The client: state, effects and the callback monad *)
(* ===================================================================== *)

Module Client.
Import JS.

(** The value of [new Date()], in milliseconds. *)
Definition Date : Type := Z.

(** Calls into the hooks the application builds on: [useRealTime]
    ([startSession], [addUserAudio], [inputAudioBufferClear], the commands
    [session.update], [input_audio_buffer.append] and
    [input_audio_buffer.clear] of the upstream channel), [useAudioRecorder]
    ([start], [stop]) and [useAudioPlayer] ([reset], [play], [stop]). *)
Inductive Call : Type :=
  | StartSession
  | AddUserAudio (base64 : string)
  | InputAudioBufferClear
  | StartAudioRecording
  | StopAudioRecording
  | ResetAudioPlayer
  | PlayAudio (delta : string)
  | StopAudioPlayer.

#[global] Instance Call_eq_dec : EqDecision Call.
Proof. solve_decision. Defined.

(** What a callback does to the outside world, in order. Console lines are
    recorded by their constant text; the pictograph that opens a line in
    the sources and the values printed after it are left out. *)
Inductive Effect : Type :=
  | Invoke (c : Call)
  | ConsoleLog (line : string)
  | ConsoleError (line : string)
  | Uncaught (e : Exn).

(** [ExtensionMiddleTierToolResponse]. *)
Record Message : Type := {
  previous_item_id : string;
  tool_name : string;
  tool_result : string
}.

Section WithRuntime.
Context `{Runtime}.

(** The object literal stored by [setActiveContact]. *)
Record Contact : Type := {
  listingId : val;
  email : val;
  contactTimestamp : Date;
  initialMessage : val
}.

(** The object literal stored by [setTryOnResult]. *)
Record TryOnImage : Type := {
  imageUrl : val;
  timestamp : Date
}.

(** The [useState] cells of [useProductManagement] that the modelled
    callbacks touch. The cells are typed [Listing[]] and [string | null] in
    the sources but receive whatever the parsed tool result holds. *)
Record ProductState : Type := {
  listings : val;
  highlightedListingId : val
}.

(** The [useState] cells of [useShoppingFeatures]. Only strings reach
    [favorites] and [page]; [cartItems] receives [result.product_id]
    unchecked. *)
Record ShoppingState : Type := {
  favorites : list string;
  cartItems : list val;
  page : string
}.

(** The [useState] cells of [useVirtualTryOn]; [None] is [null]. *)
Record TryOnState : Type := {
  showTryOnModal : bool;
  tryOnProduct : val;
  isGeneratingTryOn : bool;
  tryOnResult : option TryOnImage
}.

(** All the state behind one rendering of [App]. *)
Record AppState : Type := {
  product : ProductState;
  shopping : ShoppingState;
  tryOn : TryOnState;
  activeContact : option Contact;
  isRecording : bool
}.

Definition initialState : AppState :=
  {| product := {| listings := JArr []; highlightedListingId := JNull |};
     shopping := {| favorites := []; cartItems := []; page := "main" |};
     tryOn := {| showTryOnModal := false; tryOnProduct := JNull;
                 isGeneratingTryOn := false; tryOnResult := None |};
     activeContact := None;
     isRecording := false |}.

(** ** State updates *)

Definition with_product (f : ProductState -> ProductState) (s : AppState)
    : AppState :=
  {| product := f (product s); shopping := shopping s; tryOn := tryOn s;
     activeContact := activeContact s; isRecording := isRecording s |}.

Definition with_shopping (f : ShoppingState -> ShoppingState) (s : AppState)
    : AppState :=
  {| product := product s; shopping := f (shopping s); tryOn := tryOn s;
     activeContact := activeContact s; isRecording := isRecording s |}.

Definition with_tryOn (f : TryOnState -> TryOnState) (s : AppState)
    : AppState :=
  {| product := product s; shopping := shopping s; tryOn := f (tryOn s);
     activeContact := activeContact s; isRecording := isRecording s |}.

Definition with_activeContact (c : option Contact) (s : AppState)
    : AppState :=
  {| product := product s; shopping := shopping s; tryOn := tryOn s;
     activeContact := c; isRecording := isRecording s |}.

Definition with_isRecording (b : bool) (s : AppState) : AppState :=
  {| product := product s; shopping := shopping s; tryOn := tryOn s;
     activeContact := activeContact s; isRecording := b |}.

(** ** The callback monad

    A callback runs from a state, leaves a state, performs effects in
    order, and either completes or throws. State updates requested before
    an exception are kept: React has already queued them. *)
Record Result (A : Type) : Type := {
  final : AppState;
  effects : list Effect;
  completion : Completion A
}.
Arguments final {A} _.
Arguments effects {A} _.
Arguments completion {A} _.

Definition M (A : Type) : Type := AppState -> Result A.

Definition ret {A} (a : A) : M A :=
  fun s => {| final := s; effects := []; completion := Normal a |}.

Definition bind {A B} (m : M A) (k : A -> M B) : M B :=
  fun s =>
    match m s with
    | {| final := s1; effects := out1; completion := Normal a |} =>
        match k a s1 with
        | {| final := s2; effects := out2; completion := c |} =>
            {| final := s2; effects := out1 ++ out2; completion := c |}
        end
    | {| final := s1; effects := out1; completion := Throw e |} =>
        {| final := s1; effects := out1; completion := Throw e |}
    end.

Definition throw {A} (e : Exn) : M A :=
  fun s => {| final := s; effects := []; completion := Throw e |}.

(** [try { m } catch (e) { handler }]. *)
Definition try_catch {A} (m : M A) (handler : Exn -> M A) : M A :=
  fun s =>
    match m s with
    | {| final := s1; effects := out1; completion := Normal a |} =>
        {| final := s1; effects := out1; completion := Normal a |}
    | {| final := s1; effects := out1; completion := Throw e |} =>
        match handler e s1 with
        | {| final := s2; effects := out2; completion := c |} =>
            {| final := s2; effects := out1 ++ out2; completion := c |}
        end
    end.

(** [try { m } finally { fin }], for a [fin] that does not throw. *)
Definition try_finally {A} (m : M A) (fin : M unit) : M A :=
  fun s =>
    match m s with
    | {| final := s1; effects := out1; completion := c |} =>
        match fin s1 with
        | {| final := s2; effects := out2; completion := _ |} =>
            {| final := s2; effects := out1 ++ out2; completion := c |}
        end
    end.

Definition lift {A} (c : Completion A) : M A :=
  match c with
  | Normal a => ret a
  | Throw e => throw e
  end.

Definition modify (f : AppState -> AppState) : M unit :=
  fun s => {| final := f s; effects := []; completion := Normal tt |}.

Definition emit (e : Effect) : M unit :=
  fun s => {| final := s; effects := [e]; completion := Normal tt |}.

Definition log (line : string) : M unit := emit (ConsoleLog line).
Definition log_error (line : string) : M unit := emit (ConsoleError line).

#[global] Instance M_ret : MRet M := @ret.
#[global] Instance M_bind : MBind M := fun A B k m => bind m k.

(** ** The [useState] setters *)

Definition setListings (v : val) : M unit :=
  modify (with_product (fun p =>
    {| listings := v; highlightedListingId := highlightedListingId p |})).

Definition setHighlightedListingId (v : val) : M unit :=
  modify (with_product (fun p =>
    {| listings := listings p; highlightedListingId := v |})).

Definition setFavorites (f : list string -> list string) : M unit :=
  modify (with_shopping (fun sh =>
    {| favorites := f (favorites sh); cartItems := cartItems sh;
       page := page sh |})).

Definition setCartItems (f : list val -> list val) : M unit :=
  modify (with_shopping (fun sh =>
    {| favorites := favorites sh; cartItems := f (cartItems sh);
       page := page sh |})).

Definition setPage (destination : string) : M unit :=
  modify (with_shopping (fun sh =>
    {| favorites := favorites sh; cartItems := cartItems sh;
       page := destination |})).

Definition setShowTryOnModal (b : bool) : M unit :=
  modify (with_tryOn (fun t =>
    {| showTryOnModal := b; tryOnProduct := tryOnProduct t;
       isGeneratingTryOn := isGeneratingTryOn t;
       tryOnResult := tryOnResult t |})).

Definition setTryOnProduct (v : val) : M unit :=
  modify (with_tryOn (fun t =>
    {| showTryOnModal := showTryOnModal t; tryOnProduct := v;
       isGeneratingTryOn := isGeneratingTryOn t;
       tryOnResult := tryOnResult t |})).

Definition setIsGeneratingTryOn (b : bool) : M unit :=
  modify (with_tryOn (fun t =>
    {| showTryOnModal := showTryOnModal t; tryOnProduct := tryOnProduct t;
       isGeneratingTryOn := b; tryOnResult := tryOnResult t |})).

Definition setTryOnResult (r : option TryOnImage) : M unit :=
  modify (with_tryOn (fun t =>
    {| showTryOnModal := showTryOnModal t; tryOnProduct := tryOnProduct t;
       isGeneratingTryOn := isGeneratingTryOn t; tryOnResult := r |})).

Definition setActiveContact (c : Contact) : M unit :=
  modify (with_activeContact (Some c)).

Definition setIsRecording (b : bool) : M unit :=
  modify (with_isRecording b).

(* ===================================================================== *)
(** * The hooks

    A callback is a closure created by one rendering of the component. What
    it reads from a state variable is the value of that rendering, passed
    below as [render]; what it writes goes through the setters. *)
(* ===================================================================== *)

(** ** hooks/useProductManagement *)

(** [updateListings], exported as [setListings]. *)
Definition updateListings (render : AppState) (newListings : val) : M unit :=
  if negb (isEqual (listings (product render)) newListings) then
    setListings newListings;;
    nonempty ← lift (length_gt_zero newListings);
    if nonempty : bool then
      first ← lift (index0 newListings);
      id ← lift (get_prop first "id");
      setHighlightedListingId id
    else
      setHighlightedListingId JNull
  else
    mret tt.

(** [highlightProduct], exported as [setHighlightedListingId]. *)
Definition highlightProduct (productId : val) : M unit :=
  log "HIGHLIGHTING PRODUCT:";;
  setHighlightedListingId productId.

(** ** hooks/useShoppingFeatures *)

Definition handleAddToCart (render : AppState) (listingId : val) : M unit :=
  if negb (includes (cartItems (shopping render)) listingId) then
    setCartItems (fun prev => prev ++ [listingId]);;
    log "Added to cart:"
  else
    mret tt.

Definition removeFromCart (listingId : val) : M unit :=
  setCartItems (fun prev =>
    List.filter (fun id => negb (strict_eq id listingId)) prev);;
  log "Removed from cart:".

Definition clearCart : M unit :=
  setCartItems (fun _ => []);;
  log "Cart cleared".

(** The function [toggleFavorite] hands to [setFavorites]. *)
Definition toggledFavorites (listingId : string) (prev : list string)
    : list string :=
  if bool_decide (listingId ∈ prev)
  then filter (fun item => item ≠ listingId) prev
  else prev ++ [listingId].

Definition toggleFavorite (listingId : string) : M unit :=
  fun s =>
    ((if bool_decide (listingId ∈ favorites (shopping s))
      then log "Removed from favorites:"
      else log "Added to favorites:");;
     setFavorites (toggledFavorites listingId)) s.

Definition clearFavorites : M unit :=
  setFavorites (fun _ => []);;
  log "Favorites cleared".

Definition navigateTo (destination : string) : M unit :=
  setPage destination;;
  log "Navigated to:".

(** ** hooks/useVirtualTryOn *)

(** [listings.find(l => l.id === productId)]. *)
Definition find_listing (productId : val) (listings : val) : Completion val :=
  array_find
    (fun l =>
       match get_prop l "id" with
       | Normal id => Normal (strict_eq id productId)
       | Throw e => Throw e
       end)
    listings.

Definition handleTryOn (listingId : val) (listings : val) : M unit :=
  product ← lift (find_listing listingId listings);
  if truthy product then
    setTryOnProduct product;;
    setShowTryOnModal true;;
    setTryOnResult None;;
    log "Opening try-on modal for:"
  else
    mret tt.

(** What the request to the try-on backend comes to: [fetch] rejects, or
    resolves to a response with its [ok] flag, its [status], and the value
    [response.json()] resolves to ([None] when it rejects). *)
Inductive FetchOutcome : Type :=
  | FetchRejected
  | FetchResponse (ok : bool) (status : N) (body : option val).

(** [handleGenerateTryOn]. The function is [async]; what is modelled is its
    effect once its promise has settled, [now] being the clock when the
    result is stored. *)
Definition handleGenerateTryOn (productId personImageBase64 : string)
    (outcome : FetchOutcome) (now : Date) : M unit :=
  log "GENERATING VIRTUAL TRY-ON:";;
  log "Person image size:";;
  setIsGeneratingTryOn true;;
  try_finally
    (try_catch
       (log "Request details:";;
        try_catch
          (log "Calling backend URL:";;
           match outcome with
           | FetchRejected => throw (Error "Failed to fetch")
           | FetchResponse true _ body =>
               result ← match body with
                        | Some r => mret r
                        | None => throw SyntaxError
                        end;
               log "Backend response:";;
               tryon_image ← lift (get_prop result "tryon_image");
               if truthy tryon_image then
                 log "Generated virtual try-on image (base64)";;
                 setTryOnResult (Some
                   {| imageUrl :=
                        JStr ("data:image/png;base64,"
                              +:+ interpolate tryon_image);
                      timestamp := now |})
               else
                 image_url ← lift (get_prop result "image_url");
                 if truthy image_url then
                   http ← lift (startsWith image_url "http");
                   log "Generated image URL:";;
                   setTryOnResult (Some
                     {| imageUrl :=
                          if http : bool then image_url
                          else JStr ("http://localhost:8765"
                                     +:+ interpolate image_url);
                        timestamp := now |})
                 else
                   log "No image data in response"
           | FetchResponse false status _ =>
               log "Backend API not available, status:";;
               throw (Error ("HTTP " +:+ pretty status))
           end)
          (fun fetchError =>
             log "Direct API call failed, falling back to simulation:";;
             log "Simulated backend call with data";;
             setTryOnResult (Some
               {| imageUrl := JStr "/api/placeholder/400/600";
                  timestamp := now |});;
             log "Virtual try-on simulation completed"))
       (fun error => log_error "Virtual try-on failed:"))
    (setIsGeneratingTryOn false).

Definition handleTryOnResult (result : val) (now : Date) : M unit :=
  log "VIRTUAL TRY-ON RESULT:";;
  setIsGeneratingTryOn false;;
  image_url ← lift (get_prop result "image_url");
  if truthy image_url then
    setTryOnResult (Some {| imageUrl := image_url; timestamp := now |})
  else
    mret tt.

Definition handleTryOnError (errorMessage : val) : M unit :=
  log "VIRTUAL TRY-ON ERROR:";;
  setIsGeneratingTryOn false.

Definition handleTryOnRequest (productId : val) (listings : val) : M unit :=
  log "VIRTUAL TRY-ON REQUEST:";;
  product ← lift (find_listing productId listings);
  if truthy product then
    setTryOnProduct product;;
    setShowTryOnModal true;;
    setTryOnResult None
  else
    mret tt.

Definition handleVoiceTryOnModal (productId : val) (listings : val)
    : M unit :=
  log "VOICE TRY-ON: Opening modal for product";;
  product ← lift (find_listing productId listings);
  if truthy product then
    setTryOnProduct product;;
    setShowTryOnModal true;;
    setTryOnResult None;;
    log "Try-on modal opened for voice request"
  else
    mret tt.

Definition handleCloseTryOnModal : M unit :=
  setShowTryOnModal false;;
  setTryOnProduct JNull;;
  setTryOnResult None;;
  setIsGeneratingTryOn false;;
  log "Try-on modal closed".

(** ** hooks/useToolResponseHandler *)

(** [interface ToolResponseHandlerConfig]. *)
Record ToolResponseHandlerConfig : Type := {
  cfg_setListings : val -> M unit;
  cfg_setHighlightedListingId : val -> M unit;
  cfg_listings : val;
  cfg_handleAddToCart : val -> M unit;
  cfg_toggleFavorite : string -> M unit;
  cfg_navigateTo : string -> M unit;
  cfg_handleTryOnRequest : val -> val -> M unit;
  cfg_handleVoiceTryOnModal : val -> val -> M unit;
  cfg_handleTryOnResult : val -> M unit;
  cfg_handleTryOnError : val -> M unit;
  cfg_setActiveContact : Contact -> M unit
}.

(** [case "<name>":] of [switch (result.action)]. *)
Definition is_action (action : val) (name : string) : bool :=
  strict_eq action (JStr name).

(** The actions that have a [case] of their own. *)
Definition recognized_actions : list string :=
  [ "update_preferences"; "send_message"; "add_to_cart";
    "virtual_try_on_request"; "open_virtual_try_on_modal";
    "virtual_try_on_result"; "virtual_try_on_error" ].

(** [handleToolResponse]; [now] is the clock read by [new Date()]. *)
Definition handleToolResponse (config : ToolResponseHandlerConfig)
    (now : Date) (message : Message) : M unit :=
  log "TOOL RESPONSE:";;
  result ← match JSON_parse (tool_result message) with
           | Some r => mret r
           | None => throw SyntaxError
           end;
  log "PARSED RESULT:";;
  (* Product search results *)
  products ← lift (get_prop result "products");
  if truthy products then
    cfg_setListings config products
  else
  (* Product highlighting *)
  id ← lift (get_prop result "id");
  if is_string id then
    cfg_setHighlightedListingId config id
  else
  (* Action-based responses *)
  action ← lift (get_prop result "action");
  (if is_action action "update_preferences" then
     log "Preferences updated:"
   else if is_action action "send_message" then
     listing_id ← lift (get_prop result "listing_id");
     contact ← lift (get_prop result "contact");
     text ← lift (get_prop result "message");
     cfg_setActiveContact config
       {| listingId := listing_id; email := contact;
          contactTimestamp := now; initialMessage := text |};;
     cfg_navigateTo config "messages"
   else if is_action action "add_to_cart" then
     log "CART ACTION: Adding to cart";;
     product_id ← lift (get_prop result "product_id");
     cfg_handleAddToCart config product_id
   else if is_action action "virtual_try_on_request" then
     product_id ← lift (get_prop result "product_id");
     cfg_handleTryOnRequest config product_id (cfg_listings config)
   else if is_action action "open_virtual_try_on_modal" then
     product_id ← lift (get_prop result "product_id");
     cfg_handleVoiceTryOnModal config product_id (cfg_listings config)
   else if is_action action "virtual_try_on_result" then
     cfg_handleTryOnResult config result
   else if is_action action "virtual_try_on_error" then
     error ← lift (get_prop result "error");
     cfg_handleTryOnError config error
   else
     log "Unknown tool response action:");;
  (* Handle navigation *)
  navigate_to ← lift (get_prop result "navigate_to");
  match navigate_to with
  | JStr destination => cfg_navigateTo config destination
  | _ => mret tt
  end;;
  (* Handle favorites *)
  favorite_id ← lift (get_prop result "favorite_id");
  match favorite_id with
  | JStr listingId =>
      log "FAVORITES ACTION: Toggling favorite for";;
      cfg_toggleFavorite config listingId
  | _ => mret tt
  end.

(** ** hooks/useVoiceInterface *)

(** [interface VoiceInterfaceConfig]. *)
Record VoiceInterfaceConfig : Type := {
  onToolResponse : option (Message -> M unit)
}.

(** A call into [useRealTime], [useAudioRecorder] or [useAudioPlayer];
    [fails c] tells whether that call raises (or rejects). *)
Definition call (fails : Call -> bool) (c : Call) : M unit :=
  emit (Invoke c);;
  if fails c then throw (Error "collaborator failure") else mret tt.

Definition onReceivedResponseAudioDelta (fails : Call -> bool)
    (render : AppState) (delta : string) : M unit :=
  (* Play AI response audio only when recording *)
  if isRecording render then call fails (PlayAudio delta) else mret tt.

Definition onReceivedInputAudioBufferSpeechStarted (fails : Call -> bool)
    : M unit :=
  (* Stop playing audio when user starts speaking *)
  call fails StopAudioPlayer.

Definition onReceivedExtensionMiddleTierToolResponse
    (config : VoiceInterfaceConfig) (message : Message) : M unit :=
  log "Voice: Tool response received:";;
  match onToolResponse config with
  | Some forward => forward message
  | None => mret tt
  end.

(** [useAudioRecorder({ onAudioRecorded: addUserAudio })]. *)
Definition onAudioRecorded (fails : Call -> bool) (base64 : string)
    : M unit :=
  call fails (AddUserAudio base64).

(** [onToggleListening]. The calls of the [catch] block are made later than
    those of the [try] block and may fare differently: they have a failure
    oracle of their own. *)
Definition onToggleListening (fails cleanup_fails : Call -> bool)
    (render : AppState) : M unit :=
  try_catch
    (if negb (isRecording render) then
       log "Voice: Starting recording session";;
       call fails StartSession;;
       call fails StartAudioRecording;;
       call fails ResetAudioPlayer;;
       setIsRecording true;;
       log "Voice: Recording started successfully"
     else
       log "Voice: Stopping recording session";;
       call fails StopAudioRecording;;
       call fails StopAudioPlayer;;
       call fails InputAudioBufferClear;;
       setIsRecording false;;
       log "Voice: Recording stopped successfully")
    (fun error =>
       log_error "Voice: Error toggling recording:";;
       setIsRecording false;;
       try_catch
         (call cleanup_fails StopAudioRecording;;
          call cleanup_fails StopAudioPlayer;;
          call cleanup_fails InputAudioBufferClear)
         (fun cleanupError => log_error "Voice: Error during cleanup:")).

(* ===================================================================== *)
(** * App: the hooks wired together *)
(* ===================================================================== *)

(** What the outside world decides while one callback runs. *)
Record Environment : Type := {
  fails : Call -> bool;
  cleanup_fails : Call -> bool;
  now : Date
}.

(** The configuration [App] passes to [useToolResponseHandler]. *)
Definition toolResponseConfig (env : Environment) (render : AppState)
    : ToolResponseHandlerConfig :=
  {| cfg_setListings := updateListings render;
     cfg_setHighlightedListingId := highlightProduct;
     cfg_listings := listings (product render);
     cfg_handleAddToCart := handleAddToCart render;
     cfg_toggleFavorite := toggleFavorite;
     cfg_navigateTo := navigateTo;
     cfg_handleTryOnRequest := handleTryOnRequest;
     cfg_handleVoiceTryOnModal := handleVoiceTryOnModal;
     cfg_handleTryOnResult := fun result => handleTryOnResult result (now env);
     cfg_handleTryOnError := handleTryOnError;
     cfg_setActiveContact := setActiveContact |}.

(** The configuration [App] passes to [useVoiceInterface]. *)
Definition voiceConfig (env : Environment) (render : AppState)
    : VoiceInterfaceConfig :=
  {| onToolResponse :=
       Some (handleToolResponse (toolResponseConfig env render) (now env)) |}.

(** What can happen to the client: a frame or a socket event reported by
    [useRealTime], a chunk of audio from the recorder, or the user acting
    on the page. The page passes the [id] of a listing, a string by the
    type [Listing]; only tool results bring in values of any type. *)
Inductive Event : Type :=
  | WebSocketOpen
  | WebSocketClose
  | WebSocketError
  | ReceivedError
  | ReceivedResponseAudioDelta (delta : string)
  | ReceivedInputAudioBufferSpeechStarted
  | ReceivedExtensionMiddleTierToolResponse (message : Message)
  | AudioRecorded (base64 : string)
  | ClickToggleListening
  | ClickNavigate (destination : string)
  | ClickAddToCart (listingId : string)
  | ClickRemoveFromCart (listingId : string)
  | ClickToggleFavorite (listingId : string)
  | ClickTryOn (listingId : string)
  | ClickGenerateTryOn (productId personImageBase64 : string)
      (outcome : FetchOutcome)
  | ClickCloseTryOnModal.

(** The callback [App], rendered with [render], runs on an event. *)
Definition callback (env : Environment) (render : AppState) (e : Event)
    : M unit :=
  match e with
  | WebSocketOpen => log "Voice: WebSocket connection opened"
  | WebSocketClose => log "Voice: WebSocket connection closed"
  | WebSocketError => log_error "Voice: WebSocket error:"
  | ReceivedError => log_error "Voice: Received error:"
  | ReceivedResponseAudioDelta delta =>
      onReceivedResponseAudioDelta (fails env) render delta
  | ReceivedInputAudioBufferSpeechStarted =>
      onReceivedInputAudioBufferSpeechStarted (fails env)
  | ReceivedExtensionMiddleTierToolResponse message =>
      onReceivedExtensionMiddleTierToolResponse (voiceConfig env render)
        message
  | AudioRecorded base64 => onAudioRecorded (fails env) base64
  | ClickToggleListening =>
      onToggleListening (fails env) (cleanup_fails env) render
  | ClickNavigate destination => navigateTo destination
  | ClickAddToCart listingId => handleAddToCart render (JStr listingId)
  | ClickRemoveFromCart listingId => removeFromCart (JStr listingId)
  | ClickToggleFavorite listingId => toggleFavorite listingId
  | ClickTryOn listingId =>
      handleTryOn (JStr listingId) (listings (product render))
  | ClickGenerateTryOn productId personImageBase64 outcome =>
      handleGenerateTryOn productId personImageBase64 outcome (now env)
  | ClickCloseTryOnModal => handleCloseTryOnModal
  end.

(** One event: the callback of the current rendering runs from the current
    state. An exception nobody catches is reported and the client goes on
    with the state updates requested so far. *)
Definition step_with {E : Type}
    (callback : Environment -> AppState -> E -> M unit)
    (env : Environment) (e : E) (s : AppState) : AppState * list Effect :=
  match callback env s e s with
  | {| final := s'; effects := out; completion := Normal _ |} => (s', out)
  | {| final := s'; effects := out; completion := Throw exn |} =>
      (s', out ++ [Uncaught exn])
  end.

(** A run: the component is rendered again between two events. *)
Fixpoint run_with {E : Type}
    (callback : Environment -> AppState -> E -> M unit)
    (env : Environment) (events : list E) (s : AppState)
    : AppState * list Effect :=
  match events with
  | [] => (s, [])
  | e :: rest =>
      let '(s1, out1) := step_with callback env e s in
      let '(s2, out2) := run_with callback env rest s1 in
      (s2, out1 ++ out2)
  end.

Definition step : Environment -> Event -> AppState -> AppState * list Effect :=
  step_with callback.

Definition run
    : Environment -> list Event -> AppState -> AppState * list Effect :=
  run_with callback.

(** The calls made to the collaborating hooks, in order. *)
Definition calls (out : list Effect) : list Call :=
  omap (fun eff => match eff with Invoke c => Some c | _ => None end) out.

(** The audio deltas handed to the player, in order. *)
Definition played (out : list Effect) : list string :=
  omap (fun eff =>
          match eff with Invoke (PlayAudio d) => Some d | _ => None end)
       out.

(** The loop of [listings.filter(l => favorites.includes(l.id))]. *)
Fixpoint filter_favorites (favs : list string) (ls : list val)
    : Completion (list val) :=
  match ls with
  | [] => Normal []
  | l :: rest =>
      match get_prop l "id" with
      | Throw e => Throw e
      | Normal id =>
          match filter_favorites favs rest with
          | Throw e => Throw e
          | Normal kept =>
              Normal (match id with
                      | JStr i => if bool_decide (i ∈ favs)
                                  then l :: kept else kept
                      | _ => kept
                      end)
          end
      end
  end.

(** [displayedListings]: what the catalogue page shows. *)
Definition displayedListings (s : AppState) : Completion val :=
  if bool_decide (page (shopping s) = "favorites") then
    match listings (product s) with
    | JArr items =>
        match filter_favorites (favorites (shopping s)) items with
        | Normal kept => Normal (JArr kept)
        | Throw e => Throw e
        end
    | _ => Throw TypeError
    end
  else Normal (listings (product s)).

End WithRuntime.

Arguments final {_ _} _.
Arguments effects {_ _} _.
Arguments completion {_ _} _.
Arguments Build_Result {_ _} _ _ _.

(** ** Vocabulary for the properties *)
Section Vocabulary.
Context `{Runtime}.

(** The value of [result.k], [undefined] included, for a [result] whose
    properties can be read. *)
Definition field (result : val) (k : string) : val :=
  match get_prop result k with
  | Normal v => v
  | Throw _ => JUndefined
  end.

(** [result] is an object, or a primitive other than [null] and
    [undefined], and holds no property named [k]. *)
Definition lacks (result : val) (k : string) : Prop :=
  get_prop result k = Normal JUndefined.

(** [result.action] matches none of the [case] labels. *)
Definition unrecognized_action (result : val) : bool :=
  negb (existsb (is_action (field result "action")) recognized_actions).

(** A value kept by reference: an array or an object. *)
Definition is_reference (v : val) : bool :=
  match v with
  | JArr _ | JObj _ => true
  | _ => false
  end.

Definition toolResponse (message : Message) : Event :=
  ReceivedExtensionMiddleTierToolResponse message.

(** [handleToolResponse] gets to [case "add_to_cart":] on [result]. *)
Definition reaches_add_to_cart (result : val) : bool :=
  negb (truthy (field result "products"))
  && negb (is_string (field result "id"))
  && is_action (field result "action") "add_to_cart".

(** The handler of [App.tsx] gets to its [add_to_cart] branch on
    [result]. *)
Definition monolith_reaches_add_to_cart (result : val) : bool :=
  negb (truthy (field result "products"))
  && negb (is_string (field result "id"))
  && negb (is_string (field result "favorite_id"))
  && is_action (field result "action") "add_to_cart".

(** The cart, as a part of the state. *)
Definition cart (s : AppState) : list val := cartItems (shopping s).

(** The cart [handleAddToCart], rendered with the cart [cart], leaves when
    it runs from that same cart. *)
Definition cart_with (listingId : val) (cart : list val) : list val :=
  if includes cart listingId then cart else cart ++ [listingId].

(** Reading the calls made after a speech-started event: an
    [inputAudioBufferClear] is met before any [addUserAudio]. *)
Fixpoint cleared_before_append (cs : list Call) : bool :=
  match cs with
  | [] => false
  | InputAudioBufferClear :: _ => true
  | AddUserAudio _ :: _ => false
  | _ :: rest => cleared_before_append rest
  end.

(** The backend call of the try-on did not succeed: [fetch] rejected, or
    the response is not [ok]. *)
Definition backend_failed (outcome : FetchOutcome) : bool :=
  match outcome with
  | FetchRejected => true
  | FetchResponse ok _ _ => negb ok
  end.

(** The stand-in image of the simulated try-on. *)
Definition placeholder (clock : Date) : TryOnImage :=
  {| imageUrl := JStr "/api/placeholder/400/600"; timestamp := clock |}.

(** A [console.log] line, as opposed to [console.error], a call or an
    uncaught exception. *)
Definition is_plain_log (eff : Effect) : Prop :=
  match eff with
  | ConsoleLog _ => True
  | _ => False
  end.

(** The callback [m] leaves the part [proj] of the state as it was,
    whether it completes or throws. *)
Definition preserves {X A : Type} (proj : AppState -> X) (m : M A) : Prop :=
  forall s, proj (final (m s)) = proj s.

(** Every effect of the callback [m] satisfies [P]. *)
Definition emits_only {A : Type} (P : Effect -> Prop) (m : M A) : Prop :=
  forall s, Forall P (effects (m s)).

(** Console output, the only effect that is not a call to a collaborating
    hook. *)
Definition is_console (eff : Effect) : Prop :=
  match eff with
  | ConsoleLog _ | ConsoleError _ => True
  | Invoke _ | Uncaught _ => False
  end.

End Vocabulary.

(** A runtime to evaluate the client on examples: integers for numbers,
    and a parser given by its graph. *)
Definition example_runtime (parse : string -> option (value Z)) : Runtime :=
  {| number := Z;
     number_eq_dec := Z.eq_dec;
     number_is_zero := fun n => bool_decide (n = 0%Z);
     number_gt_zero := fun n => bool_decide (0 < n)%Z;
     coerce_gt_zero := fun _ => false;
     ToString := fun _ => "[object Object]";
     JSON_parse := parse |}.

(** An environment in which no collaborator fails. *)
Definition calm (clock : Date) : Environment :=
  {| fails := fun _ => false; cleanup_fails := fun _ => false;
     now := clock |}.

End Client.

(* ===================================================================== *)
(** * App.tsx: the same client written as one component *)
(* ===================================================================== *)

Module Monolith.
Import JS Client.

Section WithRuntime.
Context `{Runtime}.

Definition onReceivedResponseAudioDelta (fails : Call -> bool)
    (render : AppState) (delta : string) : M unit :=
  (* isRecording && playAudio(message.delta) *)
  if isRecording render then call fails (PlayAudio delta) else mret tt.

Definition onReceivedInputAudioBufferSpeechStarted (fails : Call -> bool)
    : M unit :=
  call fails StopAudioPlayer.

Definition handleAddToCart (render : AppState) (listingId : val) : M unit :=
  if negb (includes (cartItems (shopping render)) listingId) then
    setCartItems (fun prev => prev ++ [listingId])
  else
    mret tt.

(** The [favorite_id] branch; the function handed to [setFavorites] is the
    one of [useShoppingFeatures], with other console lines. *)
Definition toggleFavorite (listingId : string) : M unit :=
  fun s =>
    ((if bool_decide (listingId ∈ favorites (shopping s))
      then log "FAVORITES: Removing from favorites"
      else log "FAVORITES: Adding to favorites");;
     setFavorites (toggledFavorites listingId)) s.

(** [onReceivedExtensionMiddleTierToolResponse]: one chain of
    [if ... else if ...]. The [products] branch is, word for word, the body
    of [updateListings]. *)
Definition onReceivedExtensionMiddleTierToolResponse (render : AppState)
    (now : Date) (message : Message) : M unit :=
  log "TOOL RESPONSE:";;
  result ← match JSON_parse (tool_result message) with
           | Some r => mret r
           | None => throw SyntaxError
           end;
  log "PARSED RESULT:";;
  action ← lift (get_prop result "action");
  if is_action action "update_preferences" then
    log "Preferences updated:"
  else
  products ← lift (get_prop result "products");
  if truthy products then
    updateListings render products
  else if is_action action "send_message" then
    listing_id ← lift (get_prop result "listing_id");
    contact ← lift (get_prop result "contact");
    text ← lift (get_prop result "message");
    setActiveContact
      {| listingId := listing_id; email := contact;
         contactTimestamp := now; initialMessage := text |};;
    setPage "messages"
  else
  id ← lift (get_prop result "id");
  if is_string id then
    log "HIGHLIGHTING PRODUCT:";;
    setHighlightedListingId id
  else
  favorite_id ← lift (get_prop result "favorite_id");
  match favorite_id with
  | JStr listingId =>
      log "FAVORITES ACTION: Toggling favorite for";;
      toggleFavorite listingId
  | _ =>
  if is_action action "add_to_cart" then
    log "CART ACTION: Adding to cart";;
    product_id ← lift (get_prop result "product_id");
    handleAddToCart render product_id
  else
  navigate_to ← lift (get_prop result "navigate_to");
  match navigate_to with
  | JStr destination => setPage destination
  | _ =>
  if is_action action "virtual_try_on_request" then
    log "VIRTUAL TRY-ON REQUEST:";;
    product_id ← lift (get_prop result "product_id");
    found ← lift (find_listing product_id (listings (product render)));
    if truthy found then
      setTryOnProduct found;;
      setShowTryOnModal true;;
      setTryOnResult None
    else
      mret tt
  else if is_action action "virtual_try_on_result" then
    log "VIRTUAL TRY-ON RESULT:";;
    setIsGeneratingTryOn false;;
    image_url ← lift (get_prop result "image_url");
    if truthy image_url then
      setTryOnResult (Some {| imageUrl := image_url; timestamp := now |})
    else
      mret tt
  else if is_action action "virtual_try_on_error" then
    log "VIRTUAL TRY-ON ERROR:";;
    setIsGeneratingTryOn false
  else
    mret tt
  end
  end.

(** [onToggleListening]: no [try], an exception of a collaborator leaves
    the callback. *)
Definition onToggleListening (fails : Call -> bool) (render : AppState)
    : M unit :=
  if negb (isRecording render) then
    call fails StartSession;;
    call fails StartAudioRecording;;
    call fails ResetAudioPlayer;;
    setIsRecording true
  else
    call fails StopAudioRecording;;
    call fails StopAudioPlayer;;
    call fails InputAudioBufferClear;;
    setIsRecording false.

Definition handleTryOn (render : AppState) (listingId : val) : M unit :=
  found ← lift (find_listing listingId (listings (product render)));
  if truthy found then
    setTryOnProduct found;;
    setShowTryOnModal true;;
    setTryOnResult None
  else
    mret tt.

Definition handleGenerateTryOn (productId personImageBase64 : string)
    (outcome : FetchOutcome) (now : Date) : M unit :=
  log "GENERATING VIRTUAL TRY-ON:";;
  log "Person image size:";;
  setIsGeneratingTryOn true;;
  try_finally
    (try_catch
       (log "Sending virtual try-on request to backend...";;
        log "Request details:";;
        try_catch
          (log "Calling backend URL:";;
           match outcome with
           | FetchRejected => throw (Error "Failed to fetch")
           | FetchResponse true _ body =>
               result ← match body with
                        | Some r => mret r
                        | None => throw SyntaxError
                        end;
               log "Backend response:";;
               image_url ← lift (get_prop result "image_url");
               if truthy image_url then
                 http ← lift (startsWith image_url "http");
                 log "Generated image URL:";;
                 setTryOnResult (Some
                   {| imageUrl :=
                        if http : bool then image_url
                        else JStr ("http://localhost:8765"
                                   +:+ interpolate image_url);
                      timestamp := now |})
               else
                 log "No image URL in response"
           | FetchResponse false status _ =>
               log "Backend API not available, status:";;
               throw (Error ("HTTP " +:+ pretty status))
           end)
          (fun fetchError =>
             log "Direct API call failed, falling back to simulation:";;
             log "Simulated backend call with data:";;
             setTryOnResult (Some
               {| imageUrl := JStr "/api/placeholder/400/600";
                  timestamp := now |});;
             log "Virtual try-on simulation completed"))
       (fun error => log_error "Virtual try-on failed:"))
    (setIsGeneratingTryOn false).

Definition handleCloseTryOnModal : M unit :=
  setShowTryOnModal false;;
  setTryOnProduct JNull;;
  setTryOnResult None;;
  setIsGeneratingTryOn false.

(** The events of this component; the page has its own buttons. *)
Inductive Event : Type :=
  | WebSocketOpen
  | WebSocketClose
  | WebSocketError
  | ReceivedError
  | ReceivedResponseAudioDelta (delta : string)
  | ReceivedInputAudioBufferSpeechStarted
  | ReceivedExtensionMiddleTierToolResponse (message : Message)
  | AudioRecorded (base64 : string)
  | ClickToggleListening
  | ClickPage (destination : string)
  | ClickClearCart
  | ClickRemoveFromCart (itemId : string)
  | ClickClearFavorites
  | ClickRemoveFavorite (listingId : string)
  | ClickTryOn (listingId : string)
  | ClickAddToCart (listingId : string)
  | ClickGenerateTryOn (productId personImageBase64 : string)
      (outcome : FetchOutcome)
  | ClickCloseTryOnModal.

Definition callback (env : Environment) (render : AppState) (e : Event)
    : M unit :=
  match e with
  | WebSocketOpen => log "WebSocket connection opened"
  | WebSocketClose => log "WebSocket connection closed"
  | WebSocketError => log_error "WebSocket error:"
  | ReceivedError => log_error "error"
  | ReceivedResponseAudioDelta delta =>
      onReceivedResponseAudioDelta (fails env) render delta
  | ReceivedInputAudioBufferSpeechStarted =>
      onReceivedInputAudioBufferSpeechStarted (fails env)
  | ReceivedExtensionMiddleTierToolResponse message =>
      onReceivedExtensionMiddleTierToolResponse render (now env) message
  | AudioRecorded base64 => onAudioRecorded (fails env) base64
  | ClickToggleListening => onToggleListening (fails env) render
  | ClickPage destination => setPage destination
  | ClickClearCart => setCartItems (fun _ => [])
  | ClickRemoveFromCart itemId =>
      setCartItems (fun prev =>
        List.filter (fun id => negb (strict_eq id (JStr itemId))) prev)
  | ClickClearFavorites => setFavorites (fun _ => [])
  | ClickRemoveFavorite listingId =>
      setFavorites (fun prev => filter (fun id => id ≠ listingId) prev)
  | ClickTryOn listingId => handleTryOn render (JStr listingId)
  | ClickAddToCart listingId => handleAddToCart render (JStr listingId)
  | ClickGenerateTryOn productId personImageBase64 outcome =>
      handleGenerateTryOn productId personImageBase64 outcome (now env)
  | ClickCloseTryOnModal => handleCloseTryOnModal
  end.

Definition step : Environment -> Event -> AppState -> AppState * list Effect :=
  step_with callback.

Definition run
    : Environment -> list Event -> AppState -> AppState * list Effect :=
  run_with callback.

End WithRuntime.

End Monolith.

(* ===================================================================== *)
(** * Sample frames *)
(* ===================================================================== *)

Module Samples.
Import JS Client.

(** The double quote, and a JSON string literal. *)
Definition dq : string := String (Ascii.ascii_of_nat 34) "".
Definition quoted (s : string) : string := dq +:+ s +:+ dq.

(** [{"products":[{"id":"CLO001"},{"id":"CLO002"}]}] *)
Definition search_text : string :=
  "{" +:+ quoted "products" +:+ ":[{" +:+ quoted "id" +:+ ":"
  +:+ quoted "CLO001" +:+ "},{" +:+ quoted "id" +:+ ":"
  +:+ quoted "CLO002" +:+ "}]}".
Definition search_items : list (value Z) :=
  [ JObj {[ "id" := JStr "CLO001" ]}; JObj {[ "id" := JStr "CLO002" ]} ].
Definition search_result : value Z :=
  JObj {[ "products" := JArr search_items ]}.

(** [{"products":null,"navigate_to":"cart"}] *)
Definition null_products_text : string :=
  "{" +:+ quoted "products" +:+ ":null," +:+ quoted "navigate_to" +:+ ":"
  +:+ quoted "cart" +:+ "}".
Definition null_products_result : value Z :=
  JObj {[ "products" := JNull; "navigate_to" := JStr "cart" ]}.

(** [{"action":"add_to_cart","product_id":"CLO001"}] *)
Definition add_to_cart_text : string :=
  "{" +:+ quoted "action" +:+ ":" +:+ quoted "add_to_cart" +:+ ","
  +:+ quoted "product_id" +:+ ":" +:+ quoted "CLO001" +:+ "}".
Definition add_to_cart_result : value Z :=
  JObj {[ "action" := JStr "add_to_cart"; "product_id" := JStr "CLO001" ]}.

(** [{"favorite_id":"CLO001"}] *)
Definition favorite_text : string :=
  "{" +:+ quoted "favorite_id" +:+ ":" +:+ quoted "CLO001" +:+ "}".
Definition favorite_result : value Z :=
  JObj {[ "favorite_id" := JStr "CLO001" ]}.

(** [{"status":"ok"}] *)
Definition status_text : string :=
  "{" +:+ quoted "status" +:+ ":" +:+ quoted "ok" +:+ "}".
Definition status_result : value Z :=
  JObj {[ "status" := JStr "ok" ]}.

(** The parser on the sample texts. *)
Definition parse_sample (text : string) : option (value Z) :=
  snd <$> List.find (fun entry => bool_decide (entry.1 = text))
            [ (search_text, search_result);
              (null_products_text, null_products_result);
              (add_to_cart_text, add_to_cart_result);
              (favorite_text, favorite_result);
              (status_text, status_result) ].

Definition sample_runtime : Runtime := example_runtime parse_sample.

(** A clock reading, and the environment in which nothing fails at that
    time. *)
Definition noon : Date := 43200000%Z.
Definition quiet_world : Environment := calm noon.

Definition frame (name text : string) : Message :=
  {| previous_item_id := "item_1"; tool_name := name; tool_result := text |}.

(** The client of the sample runtime once the user has started
    listening. *)
Definition listening : @AppState sample_runtime :=
  with_isRecording true initialState.

(** A client with two favourites. *)
Definition two_favorites : @AppState sample_runtime :=
  with_shopping (fun sh =>
    {| favorites := ["CLO001"; "CLO002"]; cartItems := cartItems sh;
       page := page sh |}) initialState.

End Samples.

(* ===================================================================== *)
(** * Reading runs *)
(* ===================================================================== *)

Module Traces.
Import JS Client.

(** What the voice side of the client reacts to, whichever component
    implements it. *)
Inductive VoiceEvent : Type :=
  | Delta (delta : string)
  | SpeechStarted
  | Recorded (base64 : string)
  | Toggle.

Section WithRuntime.
Context `{Runtime}.

Definition hook_event (v : VoiceEvent) : Event :=
  match v with
  | Delta d => ReceivedResponseAudioDelta d
  | SpeechStarted => ReceivedInputAudioBufferSpeechStarted
  | Recorded b => AudioRecorded b
  | Toggle => ClickToggleListening
  end.

Definition monolith_event (v : VoiceEvent) : Monolith.Event :=
  match v with
  | Delta d => Monolith.ReceivedResponseAudioDelta d
  | SpeechStarted => Monolith.ReceivedInputAudioBufferSpeechStarted
  | Recorded b => Monolith.AudioRecorded b
  | Toggle => Monolith.ClickToggleListening
  end.

(** The audio deltas among the events, in order of arrival. *)
Definition deltas_of (events : list Event) : list string :=
  omap (fun e => match e with
                 | ReceivedResponseAudioDelta d => Some d
                 | _ => None
                 end) events.

(** The chunks the recorder produced, in order. *)
Definition chunks_of (events : list Event) : list string :=
  omap (fun e => match e with
                 | AudioRecorded b => Some b
                 | _ => None
                 end) events.

(** The chunks handed to [addUserAudio], in order. *)
Definition forwarded (out : list Effect) : list string :=
  omap (fun c => match c with AddUserAudio b => Some b | _ => None end)
       (calls out).

(** The exceptions that escaped a callback. *)
Definition uncaught (out : list Effect) : list Exn :=
  omap (fun eff => match eff with Uncaught e => Some e | _ => None end) out.

(** A value whose properties can be read: anything but [null] and
    [undefined]. *)
Definition readable (v : val) : bool :=
  match v with
  | JUndefined | JNull => false
  | _ => true
  end.

(** What [handleGenerateTryOn] leaves alone: everything but the
    generating flag and the try-on result. *)
Definition around_try_on_result (s : AppState) :=
  (product s, shopping s, showTryOnModal (tryOn s), tryOnProduct (tryOn s),
   activeContact s, isRecording s).

(** A record of the listings that [find] passes over when it looks for
    [id]: its properties can be read and its [id] is another value. *)
Definition other_record (id : string) (record : val) : Prop :=
  readable record = true /\ field record "id" <> JStr id.

(** The callback [m] keeps the property [I] of the state, whether it
    completes or throws. *)
Definition maintains {A : Type} (I : AppState -> Prop) (m : M A) : Prop :=
  forall s, I s -> I (final (m s)).

(** No id is listed twice among the favourites. *)
Definition favorites_unique (s : AppState) : Prop :=
  NoDup (favorites (shopping s)).

(** An effect other than handing a delta to the player. *)
Definition not_play (eff : Effect) : Prop :=
  match eff with
  | Invoke (PlayAudio _) => False
  | _ => True
  end.

(** An effect other than forwarding a chunk upstream. *)
Definition not_append (eff : Effect) : Prop :=
  match eff with
  | Invoke (AddUserAudio _) => False
  | _ => True
  end.

(** [favorites.includes(l.id)] for a record [l] whose properties can be
    read. *)
Definition is_favorite (favs : list string) (l : val) : bool :=
  match field l "id" with
  | JStr i => bool_decide (i ∈ favs)
  | _ => false
  end.

(** [id !== listingId], the test of [removeFromCart]. *)
Definition other_than (listingId : val) (id : val) : bool :=
  negb (strict_eq id listingId).

(** No two entries of the cart are [===] to each other. *)
Fixpoint distinct (items : list val) : Prop :=
  match items with
  | [] => True
  | x :: rest => includes rest x = false /\ distinct rest
  end.

End WithRuntime.

End Traces.

(* ===================================================================== *)
(** * More sample frames, backend answers and states *)
(* ===================================================================== *)

Module Payloads.
Import JS Client Samples.

(** [{"id":"CLO002","navigate_to":"cart","favorite_id":"CLO001"}] *)
Definition highlight_text : string :=
  "{" +:+ quoted "id" +:+ ":" +:+ quoted "CLO002" +:+ ","
  +:+ quoted "navigate_to" +:+ ":" +:+ quoted "cart" +:+ ","
  +:+ quoted "favorite_id" +:+ ":" +:+ quoted "CLO001" +:+ "}".
Definition highlight_result : value Z :=
  JObj {[ "id" := JStr "CLO002"; "navigate_to" := JStr "cart";
          "favorite_id" := JStr "CLO001" ]}.

(** [{"products":[null,{"id":"CLO002"}]}] *)
Definition broken_search_text : string :=
  "{" +:+ quoted "products" +:+ ":[null,{" +:+ quoted "id" +:+ ":"
  +:+ quoted "CLO002" +:+ "}]}".
Definition broken_search_result : value Z :=
  JObj {[ "products" := JArr [JNull; JObj {[ "id" := JStr "CLO002" ]}] ]}.

(** [{"action":"add_to_cart","product_id":"CLO001","favorite_id":"CLO002"}] *)
Definition cart_and_favorite_text : string :=
  "{" +:+ quoted "action" +:+ ":" +:+ quoted "add_to_cart" +:+ ","
  +:+ quoted "product_id" +:+ ":" +:+ quoted "CLO001" +:+ ","
  +:+ quoted "favorite_id" +:+ ":" +:+ quoted "CLO002" +:+ "}".
Definition cart_and_favorite_result : value Z :=
  JObj {[ "action" := JStr "add_to_cart"; "product_id" := JStr "CLO001";
          "favorite_id" := JStr "CLO002" ]}.

(** [{"action":"send_message","listing_id":"CLO001",
      "contact":"seller@example.com","message":"Is it available?",
      "navigate_to":"cart"}] *)
Definition send_message_text : string :=
  "{" +:+ quoted "action" +:+ ":" +:+ quoted "send_message" +:+ ","
  +:+ quoted "listing_id" +:+ ":" +:+ quoted "CLO001" +:+ ","
  +:+ quoted "contact" +:+ ":" +:+ quoted "seller@example.com" +:+ ","
  +:+ quoted "message" +:+ ":" +:+ quoted "Is it available?" +:+ ","
  +:+ quoted "navigate_to" +:+ ":" +:+ quoted "cart" +:+ "}".
Definition send_message_result : value Z :=
  JObj {[ "action" := JStr "send_message"; "listing_id" := JStr "CLO001";
          "contact" := JStr "seller@example.com";
          "message" := JStr "Is it available?";
          "navigate_to" := JStr "cart" ]}.

(** [{"action":"virtual_try_on_result",
      "image_url":"/static/tryon/1.png"}] *)
Definition try_on_result_text : string :=
  "{" +:+ quoted "action" +:+ ":" +:+ quoted "virtual_try_on_result" +:+ ","
  +:+ quoted "image_url" +:+ ":" +:+ quoted "/static/tryon/1.png" +:+ "}".
Definition try_on_result : value Z :=
  JObj {[ "action" := JStr "virtual_try_on_result";
          "image_url" := JStr "/static/tryon/1.png" ]}.

(** [{"action":"virtual_try_on_request","product_id":"CLO002"}] *)
Definition try_on_request_text : string :=
  "{" +:+ quoted "action" +:+ ":" +:+ quoted "virtual_try_on_request" +:+ ","
  +:+ quoted "product_id" +:+ ":" +:+ quoted "CLO002" +:+ "}".
Definition try_on_request : value Z :=
  JObj {[ "action" := JStr "virtual_try_on_request";
          "product_id" := JStr "CLO002" ]}.

(** [null] *)
Definition null_text : string := "null".

(** A text that is not JSON. *)
Definition truncated_text : string := "{" +:+ quoted "products" +:+ ":[".

(** The parser on these texts and on the ones above. *)
Definition parse_payload (text : string) : option (value Z) :=
  match List.find (fun entry => bool_decide (entry.1 = text))
          [ (highlight_text, highlight_result);
            (broken_search_text, broken_search_result);
            (cart_and_favorite_text, cart_and_favorite_result);
            (send_message_text, send_message_result);
            (try_on_result_text, try_on_result);
            (try_on_request_text, try_on_request);
            (null_text, JNull) ] with
  | Some entry => Some entry.2
  | None => parse_sample text
  end.

Definition payload_runtime : Runtime := example_runtime parse_payload.

(** Answers of the try-on backend. *)
Definition base64_answer : value Z :=
  JObj {[ "tryon_image" := JStr "iVBORw0KGgo=";
          "image_url" := JStr "/static/tryon/1.png" ]}.
Definition base64_only_answer : value Z :=
  JObj {[ "tryon_image" := JStr "iVBORw0KGgo=" ]}.
Definition relative_url_answer : value Z :=
  JObj {[ "image_url" := JStr "/static/tryon/1.png" ]}.
Definition empty_answer : value Z :=
  JObj {[ "status" := JStr "done" ]}.

(** The player cannot be stopped. *)
Definition player_stuck : Environment :=
  {| fails := fun c => bool_decide (c = StopAudioPlayer);
     cleanup_fails := fun _ => false;
     now := noon |}.

(** The client with the two records of the sample search on display, the
    user having picked the second one. *)
Definition on_display : @AppState payload_runtime :=
  with_product (fun _ =>
    @Build_ProductState payload_runtime (JArr search_items) (JStr "CLO002"))
    initialState.

(** The same client on the favourites page, the second record being a
    favourite. *)
Definition favorites_page : @AppState payload_runtime :=
  with_shopping (fun sh =>
    {| favorites := ["CLO002"; "CLO007"]; cartItems := cartItems sh;
       page := "favorites" |}) on_display.

(** A session: the user listens, the assistant speaks and is interrupted,
    a product goes to the cart twice and is taken out, a favourite is
    toggled by voice and by hand. *)
Definition session : list (@Event payload_runtime) :=
  [ ClickToggleListening;
    AudioRecorded "AAAA";
    ReceivedResponseAudioDelta "BBBB";
    ReceivedExtensionMiddleTierToolResponse (frame "search" search_text);
    ReceivedExtensionMiddleTierToolResponse
      (frame "add_to_cart" cart_and_favorite_text);
    ClickAddToCart "CLO001";
    ClickAddToCart "CLO002";
    ClickToggleFavorite "CLO001";
    ReceivedInputAudioBufferSpeechStarted;
    AudioRecorded "CCCC";
    ReceivedExtensionMiddleTierToolResponse
      (frame "manage_wishlist" favorite_text);
    ClickRemoveFromCart "CLO001";
    ReceivedResponseAudioDelta "DDDD";
    ClickToggleListening ].

Definition monolith_session : list (@Monolith.Event payload_runtime) :=
  [ Monolith.ClickToggleListening;
    Monolith.ReceivedExtensionMiddleTierToolResponse
      (frame "add_to_cart" cart_and_favorite_text);
    Monolith.ClickAddToCart "CLO001";
    Monolith.ClickAddToCart "CLO002";
    Monolith.ReceivedExtensionMiddleTierToolResponse
      (frame "manage_wishlist" favorite_text);
    Monolith.ClickRemoveFromCart "CLO001";
    Monolith.ClickRemoveFavorite "CLO002";
    Monolith.ClickToggleListening ].

(** The same session without the presses of the listening button. *)
Definition hands_free : list (@Event payload_runtime) :=
  List.filter (fun e => match e with
                        | ClickToggleListening => false
                        | _ => true
                        end) session.

(** What the voice side sees of a conversation. *)
Definition conversation : list Traces.VoiceEvent :=
  [ Traces.Toggle; Traces.Recorded "AAAA"; Traces.Delta "BBBB";
    Traces.Delta "CCCC"; Traces.SpeechStarted; Traces.Recorded "DDDD";
    Traces.Delta "EEEE"; Traces.Toggle; Traces.Delta "FFFF" ].

End Payloads.

(* ===================================================================== *)
(** * Properties *)
(* ===================================================================== *)

Import JS Client Samples Traces Payloads.

(** ** Pricing *)

(** C8. [calculatePricing] reports a discount exactly when the item is on
    sale and carries a sale price that is neither [null] nor [undefined];
    then the current price is the sale price and the original price is the
    list price; otherwise the current price is the list price and there is
    no original price. *)
Theorem calculatePricing_cases {number : Type}
    (price : number) (salePrice : Pricing.Nullable number) (onSale : bool) :
  let info := Pricing.calculatePricing price salePrice onSale in
  (Pricing.hasDiscount info = true <->
     onSale = true /\ salePrice <> Pricing.Null
     /\ salePrice <> Pricing.Undefined)
  /\ match salePrice with
     | Pricing.Value sp =>
         if onSale
         then Pricing.currentPrice info = sp
              /\ Pricing.originalPrice info = Some price
         else Pricing.currentPrice info = price
              /\ Pricing.originalPrice info = None
     | _ => Pricing.currentPrice info = price
            /\ Pricing.originalPrice info = None
     end.
Proof.
  destruct salePrice, onSale; cbn; intuition congruence.
Qed.

(** ** Reasoning about callbacks *)

Section Properties.
Context `{Runtime}.

Lemma get_prop_field (result : val) (k0 : string) (v0 : val) :
  get_prop result k0 = Normal v0 ->
  forall k, get_prop result k = Normal (field result k).
Proof.
  intros Hk0 k. unfold field.
  destruct result; cbn in *; try discriminate; reflexivity.
Qed.

Lemma strict_eq_JStr (v : val) (s : string) :
  strict_eq v (JStr s) = true <-> v = JStr s.
Proof.
  destruct v; cbn; try (split; [discriminate | intros [=]]).
  rewrite bool_decide_eq_true. split; congruence.
Qed.

Lemma is_action_exclusive (v : val) (a b : string) :
  is_action v a = true -> a <> b -> is_action v b = false.
Proof.
  unfold is_action. intros Ha Hab. apply strict_eq_JStr in Ha. subst v.
  cbn. apply bool_decide_eq_false_2. exact Hab.
Qed.

(** Unfolds one layer of the callback monad. *)
Ltac run_callback :=
  unfold mbind, mret, M_bind, M_ret;
  cbn [bind ret throw lift modify emit log log_error
       final effects completion app try_catch try_finally].

(** *** The state a sequence of steps ends in *)

Lemma final_bind_ret {A B} (a : A) (k : A -> M B) (s : AppState) :
  final ((mret a ≫= k) s) = final (k a s).
Proof. run_callback. destruct (k a s); reflexivity. Qed.

Lemma final_bind_emit {B} (eff : Effect) (k : unit -> M B) (s : AppState) :
  final ((emit eff ≫= k) s) = final (k tt s).
Proof. run_callback. destruct (k tt s); reflexivity. Qed.

Lemma final_bind_log {B} (line : string) (k : unit -> M B) (s : AppState) :
  final ((log line ≫= k) s) = final (k tt s).
Proof. apply final_bind_emit. Qed.

Lemma final_bind_modify {B} (f : AppState -> AppState) (k : unit -> M B)
    (s : AppState) :
  final ((modify f ≫= k) s) = final (k tt (f s)).
Proof. run_callback. destruct (k tt (f s)); reflexivity. Qed.

Lemma final_bind_lift_Normal {A B} (a : A) (k : A -> M B) (s : AppState) :
  final ((lift (Normal a) ≫= k) s) = final (k a s).
Proof. run_callback. destruct (k a s); reflexivity. Qed.

Lemma final_bind_lift_Throw {A B} (e : Exn) (k : A -> M B) (s : AppState) :
  final ((lift (Throw e) ≫= k) s) = s.
Proof. reflexivity. Qed.

Lemma final_bind_throw {A B} (e : Exn) (k : A -> M B) (s : AppState) :
  final ((throw e ≫= k) s) = s.
Proof. reflexivity. Qed.

(** *** Frame rules *)

Section Frame.
Context {X : Type} (proj : AppState -> X).

Lemma preserves_ret {A} (a : A) : preserves proj (mret a).
Proof. intros s. reflexivity. Qed.

Lemma preserves_throw {A} (e : Exn) : preserves proj (throw (A := A) e).
Proof. intros s. reflexivity. Qed.

Lemma preserves_lift {A} (c : Completion A) : preserves proj (lift c).
Proof. intros s. destruct c; reflexivity. Qed.

Lemma preserves_emit (eff : Effect) : preserves proj (emit eff).
Proof. intros s. reflexivity. Qed.

Lemma preserves_bind {A B} (m : M A) (k : A -> M B) :
  preserves proj m -> (forall a, preserves proj (k a)) ->
  preserves proj (m ≫= k).
Proof.
  intros Hm Hk s. specialize (Hm s).
  unfold mbind, M_bind, bind.
  destruct (m s) as [s1 out1 [a|e]]; cbn in *; [|assumption].
  specialize (Hk a s1).
  destruct (k a s1) as [s2 out2 c]; cbn in *. congruence.
Qed.

Lemma preserves_try_catch {A} (m : M A) (handler : Exn -> M A) :
  preserves proj m -> (forall e, preserves proj (handler e)) ->
  preserves proj (try_catch m handler).
Proof.
  intros Hm Hh s. specialize (Hm s). unfold try_catch.
  destruct (m s) as [s1 out1 [a|e]]; cbn in *; [assumption|].
  specialize (Hh e s1).
  destruct (handler e s1) as [s2 out2 c]; cbn in *. congruence.
Qed.

Lemma preserves_try_finally {A} (m : M A) (fin : M unit) :
  preserves proj m -> preserves proj fin ->
  preserves proj (try_finally m fin).
Proof.
  intros Hm Hf s. specialize (Hm s). unfold try_finally.
  destruct (m s) as [s1 out1 c]; cbn in *.
  specialize (Hf s1).
  destruct (fin s1) as [s2 out2 c2]; cbn in *. congruence.
Qed.

Lemma preserves_call (fails : Call -> bool) (c : Call) :
  preserves proj (call fails c).
Proof. intros s. unfold call. run_callback. destruct (fails c); reflexivity. Qed.

Lemma toggleFavorite_preserves (listingId : string) :
  (forall f s, proj (final (setFavorites f s)) = proj s) ->
  preserves proj (toggleFavorite listingId).
Proof.
  intros Hproj s. unfold toggleFavorite.
  destruct (bool_decide _); rewrite final_bind_log; apply Hproj.
Qed.

Lemma monolith_toggleFavorite_preserves (listingId : string) :
  (forall f s, proj (final (setFavorites f s)) = proj s) ->
  preserves proj (Monolith.toggleFavorite listingId).
Proof.
  intros Hproj s. unfold Monolith.toggleFavorite.
  destruct (bool_decide _); rewrite final_bind_log; apply Hproj.
Qed.

End Frame.

(** Decomposes a frame goal along the structure of the callback; what is
    left are the state updates that touch the part in question. *)
Ltac frame_step :=
  match goal with
  | |- preserves _ (mret _) => apply preserves_ret
  | |- preserves _ (throw _) => apply preserves_throw
  | |- preserves _ (lift _) => apply preserves_lift
  | |- preserves _ (emit _) => apply preserves_emit
  | |- preserves _ (log _) => apply preserves_emit
  | |- preserves _ (log_error _) => apply preserves_emit
  | |- preserves _ (call _ _) => apply preserves_call
  | |- preserves _ (_ ≫= _) => apply preserves_bind; [|intros ?]
  | |- preserves _ (try_catch _ _) => apply preserves_try_catch; [|intros ?]
  | |- preserves _ (try_finally _ _) => apply preserves_try_finally
  | |- preserves _ (if ?b then _ else _) => destruct b
  | |- preserves _ (match ?v with _ => _ end) => destruct v
  | |- preserves _ (toggleFavorite _) =>
      apply toggleFavorite_preserves; intros ? ?; reflexivity
  | |- preserves _ (Monolith.toggleFavorite _) =>
      apply monolith_toggleFavorite_preserves; intros ? ?; reflexivity
  | |- preserves _ (modify _) => intros ?; reflexivity
  | |- preserves _ (setListings _) => intros ?; reflexivity
  | |- preserves _ (setHighlightedListingId _) => intros ?; reflexivity
  | |- preserves _ (setFavorites _) => intros ?; reflexivity
  | |- preserves _ (setCartItems _) => intros ?; reflexivity
  | |- preserves _ (setPage _) => intros ?; reflexivity
  | |- preserves _ (setShowTryOnModal _) => intros ?; reflexivity
  | |- preserves _ (setTryOnProduct _) => intros ?; reflexivity
  | |- preserves _ (setIsGeneratingTryOn _) => intros ?; reflexivity
  | |- preserves _ (setTryOnResult _) => intros ?; reflexivity
  | |- preserves _ (setActiveContact _) => intros ?; reflexivity
  | |- preserves _ (setIsRecording _) => intros ?; reflexivity
  end.

Ltac frame := repeat frame_step.

(** Closes [proj (final (m s)) = proj s] by the frame rules. *)
Ltac by_frame :=
  match goal with
  | |- ?proj (final (?m ?s)) = ?proj ?s =>
      refine ((_ : preserves proj m) s); frame
  end.

(** [updateListings] only writes the cells of [useProductManagement]. *)
Lemma updateListings_preserves {X} (proj : AppState -> X) render newListings :
  (forall f s, proj (with_product f s) = proj s) ->
  preserves proj (updateListings render newListings).
Proof.
  intros Hproj. unfold updateListings.
  frame; intros s; apply Hproj.
Qed.

Lemma step_with_final {E} (cb : Environment -> AppState -> E -> M unit)
    (env : Environment) (e : E) (s : AppState) :
  (step_with cb env e s).1 = final (cb env s e s).
Proof.
  unfold step_with. destruct (cb env s e s) as [s1 out [[]|exn]]; reflexivity.
Qed.

Lemma step_final (env : Environment) (e : Event) (s : AppState) :
  (step env e s).1 = final (callback env s e s).
Proof. apply step_with_final. Qed.

(** C6. A tool result with no [products] property, no string [id], an
    [action] that matches no [case], no string [navigate_to] and no string
    [favorite_id] is only logged. The handler of the hooks writes the line
    for an unknown action, the handler of [App.tsx] the two lines every
    result gets; both leave every state variable as it was and complete
    without an exception. *)
Theorem unrecognized_result_logged_and_dropped
    (env : Environment) (s : AppState) (message : Message) (result : val) :
  JSON_parse (tool_result message) = Some result ->
  lacks result "products" ->
  is_string (field result "id") = false ->
  unrecognized_action result = true ->
  is_string (field result "navigate_to") = false ->
  is_string (field result "favorite_id") = false ->
  step env (toolResponse message) s =
    (s, [ ConsoleLog "Voice: Tool response received:";
          ConsoleLog "TOOL RESPONSE:";
          ConsoleLog "PARSED RESULT:";
          ConsoleLog "Unknown tool response action:" ])
  /\ Monolith.step env
       (Monolith.ReceivedExtensionMiddleTierToolResponse message) s =
    (s, [ ConsoleLog "TOOL RESPONSE:"; ConsoleLog "PARSED RESULT:" ]).
Proof.
  intros Hparse Hproducts Hid Haction Hnav Hfav.
  pose proof (get_prop_field _ _ _ Hproducts) as Hget.
  unfold unrecognized_action, recognized_actions in Haction.
  cbn [existsb] in Haction.
  rewrite !negb_true_iff, !orb_false_iff in Haction.
  destruct Haction as (A1 & A2 & A3 & A4 & A5 & A6 & A7 & _).
  split.
  - unfold step, step_with, toolResponse, callback,
      onReceivedExtensionMiddleTierToolResponse, voiceConfig, onToolResponse,
      handleToolResponse.
    run_callback. rewrite Hparse. run_callback.
    rewrite Hproducts. run_callback. cbn [truthy].
    rewrite (Hget "id"). run_callback. rewrite Hid.
    rewrite (Hget "action"). run_callback.
    rewrite A1, A2, A3, A4, A5, A6, A7. run_callback.
    rewrite (Hget "navigate_to"). run_callback.
    destruct (field result "navigate_to") eqn:En; try discriminate Hnav;
      run_callback;
      rewrite (Hget "favorite_id"); run_callback;
      destruct (field result "favorite_id") eqn:Ef; try discriminate Hfav;
      reflexivity.
  - unfold Monolith.step, step_with, Monolith.callback,
      Monolith.onReceivedExtensionMiddleTierToolResponse.
    run_callback. rewrite Hparse. run_callback.
    rewrite (Hget "action"). run_callback. rewrite A1.
    rewrite Hproducts. run_callback. cbn [truthy]. rewrite A2.
    rewrite (Hget "id"). run_callback. rewrite Hid.
    rewrite (Hget "favorite_id"). run_callback.
    destruct (field result "favorite_id") eqn:Ef; try discriminate Hfav;
      rewrite A3; rewrite (Hget "navigate_to"); run_callback;
      destruct (field result "navigate_to") eqn:En; try discriminate Hnav;
      rewrite A4, A6, A7; reflexivity.
Qed.

(** ** Search results *)

Lemma updateListings_listings (s : AppState) (newListings : val) :
  listings (product (final (updateListings s newListings s))) = newListings.
Proof.
  unfold updateListings, isEqual.
  case_bool_decide as Heq; cbn [negb]; [exact Heq|].
  run_callback. unfold setListings at 1. run_callback.
  destruct (length_gt_zero newListings) as [[|]|e]; run_callback;
    try reflexivity.
  destruct (index0 newListings) as [first|e]; run_callback;
    try reflexivity.
  destruct (get_prop first "id") as [id|e]; run_callback; reflexivity.
Qed.

(** With a truthy [result.products] the handler does what
    [updateListings] does, and nothing after it. *)
Lemma toolResponse_products_final
    (env : Environment) (s : AppState) (message : Message) (result : val) :
  JSON_parse (tool_result message) = Some result ->
  truthy (field result "products") = true ->
  (step env (toolResponse message) s).1
  = final (updateListings s (field result "products") s).
Proof.
  intros Hparse Htruthy. rewrite step_final.
  assert (get_prop result "products" = Normal (field result "products"))
    as Hget.
  { unfold field in *. destruct (get_prop result "products"); [reflexivity|].
    discriminate Htruthy. }
  unfold toolResponse, callback, onReceivedExtensionMiddleTierToolResponse,
    voiceConfig, onToolResponse, handleToolResponse.
  run_callback. rewrite Hparse. run_callback. rewrite Hget. run_callback.
  rewrite Htruthy. cbn [cfg_setListings toolResponseConfig].
  destruct (updateListings s (field result "products") s) as [s1 out c].
  reflexivity.
Qed.

(** C3. When the parsed tool result holds an array under [products], the
    listing state after the handler is exactly that array, and so is what
    the catalogue displays on every page but the favourites page. *)
Theorem products_array_replaces_listings
    (env : Environment) (s : AppState) (message : Message)
    (result : val) (items : list val) :
  JSON_parse (tool_result message) = Some result ->
  get_prop result "products" = Normal (JArr items) ->
  let s' := (step env (toolResponse message) s).1 in
  listings (product s') = JArr items
  /\ (page (shopping s) <> "favorites" ->
      displayedListings s' = Normal (JArr items)).
Proof.
  intros Hparse Hproducts s'.
  assert (field result "products" = JArr items) as Hfield
    by (unfold field; rewrite Hproducts; reflexivity).
  assert (s' = final (updateListings s (JArr items) s)) as Hs'.
  { subst s'. rewrite <- Hfield.
    apply toolResponse_products_final; [assumption|].
    rewrite Hfield. reflexivity. }
  assert (listings (product s') = JArr items) as Hlistings
    by (rewrite Hs'; apply updateListings_listings).
  split; [exact Hlistings|].
  intros Hpage. unfold displayedListings.
  assert (shopping s' = shopping s) as ->.
  { rewrite Hs'.
    apply (updateListings_preserves shopping); reflexivity. }
  rewrite bool_decide_eq_false_2 by assumption.
  rewrite Hlistings. reflexivity.
Qed.

(** C9, as the code has it. When [result.products] is truthy the handler
    hands it to [updateListings] and returns: the listing state becomes
    that value, and cart, favourites, page, active contact, try-on state
    and recording flag stay as they were, whatever else the result
    holds. *)
Theorem truthy_products_returns_early
    (env : Environment) (s : AppState) (message : Message) (result : val) :
  JSON_parse (tool_result message) = Some result ->
  truthy (field result "products") = true ->
  let s' := (step env (toolResponse message) s).1 in
  listings (product s') = field result "products"
  /\ shopping s' = shopping s
  /\ tryOn s' = tryOn s
  /\ activeContact s' = activeContact s
  /\ isRecording s' = isRecording s.
Proof.
  intros Hparse Htruthy s'. subst s'.
  rewrite (toolResponse_products_final env s message result Hparse Htruthy).
  split; [apply updateListings_listings|].
  repeat split.
  - apply (updateListings_preserves shopping); reflexivity.
  - apply (updateListings_preserves tryOn); reflexivity.
  - apply (updateListings_preserves activeContact); reflexivity.
  - apply (updateListings_preserves isRecording); reflexivity.
Qed.

(** ** The cart *)

Lemma preserves_after {X A B} (proj : AppState -> X)
    (m : M A) (k : A -> M B) (s : AppState) :
  (forall a, preserves proj (k a)) ->
  proj (final ((m ≫= k) s)) = proj (final (m s)).
Proof.
  intros Hk. unfold mbind, M_bind, bind.
  destruct (m s) as [s1 out1 [a|e]]; cbn; [|reflexivity].
  specialize (Hk a s1). destruct (k a s1) as [s2 out2 c]. exact Hk.
Qed.

Lemma handleAddToCart_cart (s : AppState) (listingId : val) :
  cart (final (handleAddToCart s listingId s))
  = cart_with listingId (cart s).
Proof.
  unfold handleAddToCart, cart_with, cart.
  destruct (includes (cartItems (shopping s)) listingId); reflexivity.
Qed.

(** What a tool response does to the cart. *)
Lemma toolResponse_cart
    (env : Environment) (s : AppState) (message : Message) (result : val) :
  JSON_parse (tool_result message) = Some result ->
  cart (step env (toolResponse message) s).1
  = if reaches_add_to_cart result
    then cart_with (field result "product_id") (cart s)
    else cart s.
Proof.
  intros Hparse. rewrite step_final. unfold reaches_add_to_cart.
  unfold toolResponse, callback, onReceivedExtensionMiddleTierToolResponse.
  cbn [onToolResponse voiceConfig]. unfold handleToolResponse.
  rewrite Hparse.
  rewrite !final_bind_log, final_bind_ret, final_bind_log.
  destruct (get_prop result "products") as [products|e] eqn:Hproducts.
  2:{ rewrite final_bind_lift_Throw.
      destruct result; try discriminate Hproducts; reflexivity. }
  pose proof (get_prop_field _ _ _ Hproducts) as Hget.
  assert (field result "products" = products) as ->
    by (unfold field; rewrite Hproducts; reflexivity).
  rewrite final_bind_lift_Normal.
  destruct (truthy products); cbn [negb andb].
  { apply (updateListings_preserves cart); reflexivity. }
  rewrite (Hget "id"), final_bind_lift_Normal.
  destruct (is_string (field result "id")); cbn [negb andb].
  { cbn [cfg_setHighlightedListingId toolResponseConfig].
    unfold highlightProduct. by_frame. }
  rewrite (Hget "action"), final_bind_lift_Normal.
  rewrite (preserves_after cart).
  2:{ intros _.
      cbn [cfg_navigateTo cfg_toggleFavorite toolResponseConfig].
      unfold navigateTo. frame. }
  cbn [cfg_navigateTo cfg_setActiveContact cfg_handleAddToCart
       cfg_handleTryOnRequest cfg_handleVoiceTryOnModal
       cfg_handleTryOnResult cfg_handleTryOnError cfg_listings
       toolResponseConfig].
  destruct (is_action _ "update_preferences") eqn:E1.
  { rewrite (is_action_exclusive _ _ "add_to_cart" E1) by discriminate.
    by_frame. }
  destruct (is_action _ "send_message") eqn:E2.
  { rewrite (is_action_exclusive _ _ "add_to_cart" E2) by discriminate.
    unfold navigateTo. by_frame. }
  destruct (is_action _ "add_to_cart") eqn:E3.
  { rewrite final_bind_log, (Hget "product_id"), final_bind_lift_Normal.
    apply handleAddToCart_cart. }
  unfold handleTryOnRequest, handleVoiceTryOnModal, handleTryOnResult,
    handleTryOnError.
  repeat match goal with
         | |- context [if is_action ?a ?n then _ else _] =>
             destruct (is_action a n)
         end; by_frame.
Qed.


Lemma strict_eq_refl (v : val) :
  is_reference v = false -> strict_eq v v = true.
Proof.
  destruct v; cbn; intros Href; try reflexivity; try discriminate;
    apply bool_decide_eq_true_2; reflexivity.
Qed.

Lemma includes_app (l1 l2 : list val) (x : val) :
  includes (l1 ++ l2) x = includes l1 x || includes l2 x.
Proof. apply existsb_app. Qed.

Lemma cart_with_idempotent (listingId : val) (items : list val) :
  is_reference listingId = false ->
  cart_with listingId (cart_with listingId items)
  = cart_with listingId items.
Proof.
  intros Href. unfold cart_with at 2.
  destruct (includes items listingId) eqn:Hin; unfold cart_with.
  - rewrite Hin. reflexivity.
  - rewrite includes_app, Hin. cbn [includes existsb].
    rewrite (strict_eq_refl _ Href). reflexivity.
Qed.

Lemma monolith_handleAddToCart_cart (s : AppState) (listingId : val) :
  cart (final (Monolith.handleAddToCart s listingId s))
  = cart_with listingId (cart s).
Proof.
  unfold Monolith.handleAddToCart, cart_with, cart.
  destruct (includes (cartItems (shopping s)) listingId); reflexivity.
Qed.

(** What a tool response does to the cart of [App.tsx]. *)
Lemma monolith_toolResponse_cart
    (env : Environment) (s : AppState) (message : Message) (result : val) :
  JSON_parse (tool_result message) = Some result ->
  cart (Monolith.step env
          (Monolith.ReceivedExtensionMiddleTierToolResponse message) s).1
  = if monolith_reaches_add_to_cart result
    then cart_with (field result "product_id") (cart s)
    else cart s.
Proof.
  intros Hparse. unfold Monolith.step. rewrite step_with_final.
  unfold monolith_reaches_add_to_cart.
  unfold Monolith.callback, Monolith.onReceivedExtensionMiddleTierToolResponse.
  rewrite Hparse.
  rewrite final_bind_log, final_bind_ret, final_bind_log.
  destruct (get_prop result "action") as [action|e] eqn:Haction.
  2:{ rewrite final_bind_lift_Throw.
      destruct result; try discriminate Haction; reflexivity. }
  pose proof (get_prop_field _ _ _ Haction) as Hget.
  assert (action = field result "action") as ->
    by (unfold field; rewrite Haction; reflexivity).
  rewrite final_bind_lift_Normal.
  destruct (is_action _ "update_preferences") eqn:E1.
  { rewrite (is_action_exclusive _ _ "add_to_cart" E1) by discriminate.
    rewrite andb_false_r. by_frame. }
  rewrite (Hget "products"), final_bind_lift_Normal.
  destruct (truthy (field result "products")); cbn [negb andb].
  { apply (updateListings_preserves cart); reflexivity. }
  destruct (is_action _ "send_message") eqn:E2.
  { rewrite (is_action_exclusive _ _ "add_to_cart" E2) by discriminate.
    rewrite !andb_false_r. by_frame. }
  rewrite (Hget "id"), final_bind_lift_Normal.
  destruct (is_string (field result "id")); cbn [negb andb].
  { by_frame. }
  rewrite (Hget "favorite_id"), final_bind_lift_Normal.
  destruct (is_action _ "add_to_cart") eqn:E3.
  - destruct (field result "favorite_id"); cbn [is_string negb andb];
      try (rewrite final_bind_log, (Hget "product_id"),
             final_bind_lift_Normal;
           apply monolith_handleAddToCart_cart).
    by_frame.
  - rewrite andb_false_r.
    destruct (field result "favorite_id"); try by_frame;
      rewrite (Hget "navigate_to"), final_bind_lift_Normal;
      destruct (field result "navigate_to"); try by_frame;
      repeat match goal with
             | |- context [if is_action ?a ?n then _ else _] =>
                 destruct (is_action a n)
             end; by_frame.
Qed.

(** C5, as the code has it. A tool result whose [product_id] is a
    primitive value, delivered twice with a rendering in between, leaves
    the cart after the second delivery equal to the cart after the first:
    [handleAddToCart] skips an id the cart already holds. This holds for
    the hooks and for [App.tsx]. *)
Theorem cart_after_two_deliveries
    (env1 env2 : Environment) (s : AppState) (message : Message)
    (result : val) :
  JSON_parse (tool_result message) = Some result ->
  is_reference (field result "product_id") = false ->
  let s1 := (step env1 (toolResponse message) s).1 in
  let s2 := (step env2 (toolResponse message) s1).1 in
  let m1 := (Monolith.step env1
               (Monolith.ReceivedExtensionMiddleTierToolResponse message)
               s).1 in
  let m2 := (Monolith.step env2
               (Monolith.ReceivedExtensionMiddleTierToolResponse message)
               m1).1 in
  cartItems (shopping s2) = cartItems (shopping s1)
  /\ cartItems (shopping m2) = cartItems (shopping m1).
Proof.
  intros Hparse Href s1 s2 m1 m2. split.
  - change (cart s2 = cart s1). subst s1 s2.
    rewrite !(toolResponse_cart _ _ message result Hparse).
    destruct (reaches_add_to_cart result); [|reflexivity].
    apply cart_with_idempotent, Href.
  - change (cart m2 = cart m1). subst m1 m2.
    rewrite !(monolith_toolResponse_cart _ _ message result Hparse).
    destruct (monolith_reaches_add_to_cart result); [|reflexivity].
    apply cart_with_idempotent, Href.
Qed.

(** ** Favourites *)

Lemma toggleFavorite_favorites (listingId : string) (s : AppState) :
  favorites (shopping (final (toggleFavorite listingId s)))
  = toggledFavorites listingId (favorites (shopping s)).
Proof.
  unfold toggleFavorite.
  destruct (bool_decide _); rewrite final_bind_log; reflexivity.
Qed.

Lemma filter_ne_absent (listingId : string) (favs : list string) :
  listingId ∉ favs -> filter (fun item => item ≠ listingId) favs = favs.
Proof.
  intros Hnotin. induction favs as [|x favs IH]; [reflexivity|].
  rewrite not_elem_of_cons in Hnotin. destruct Hnotin as [Hne Hnotin].
  rewrite filter_cons_True by congruence. f_equal. apply IH, Hnotin.
Qed.

Lemma filter_ne_removes (listingId : string) (favs : list string) :
  listingId ∉ filter (fun item => item ≠ listingId) favs.
Proof. rewrite list_elem_of_filter. intros [Hne _]. apply Hne. reflexivity. Qed.

Lemma toggledFavorites_others (listingId : string) (favs : list string) :
  filter (fun item => item ≠ listingId) (toggledFavorites listingId favs)
  = filter (fun item => item ≠ listingId) favs.
Proof.
  unfold toggledFavorites. case_bool_decide as Hin.
  - apply filter_ne_absent, filter_ne_removes.
  - rewrite filter_app, filter_cons_False, filter_nil, app_nil_r by tauto.
    reflexivity.
Qed.

Lemma toggledFavorites_twice (listingId : string) (favs : list string) :
  toggledFavorites listingId (toggledFavorites listingId favs)
  = if bool_decide (listingId ∈ favs)
    then filter (fun item => item ≠ listingId) favs ++ [listingId]
    else favs.
Proof.
  unfold toggledFavorites at 2. case_bool_decide as Hin.
  - unfold toggledFavorites.
    rewrite bool_decide_eq_false_2 by apply filter_ne_removes. reflexivity.
  - unfold toggledFavorites.
    rewrite bool_decide_eq_true_2 by set_solver.
    rewrite filter_app, filter_cons_False, filter_nil, app_nil_r by tauto.
    apply filter_ne_absent, Hin.
Qed.

(** C10, as the code has it. One [toggleFavorite] flips the membership of
    the id (removing every occurrence, or appending it) and keeps the other
    entries in their order. Two in a row give back the members of the
    original list; the list itself comes back when the id was absent, and
    otherwise the id has moved to the end. The [favorite_id] branch of
    [App.tsx] changes the favourites in the same way. *)
Theorem toggleFavorite_once_and_twice (listingId : string) (s : AppState) :
  let favs := favorites (shopping s) in
  let s1 := final (toggleFavorite listingId s) in
  let s2 := final (toggleFavorite listingId s1) in
  favorites (shopping s1)
    = (if bool_decide (listingId ∈ favs)
       then filter (fun item => item ≠ listingId) favs
       else favs ++ [listingId])
  /\ (listingId ∈ favorites (shopping s1) <-> listingId ∉ favs)
  /\ filter (fun item => item ≠ listingId) (favorites (shopping s1))
     = filter (fun item => item ≠ listingId) favs
  /\ favorites (shopping s2)
     = (if bool_decide (listingId ∈ favs)
        then filter (fun item => item ≠ listingId) favs ++ [listingId]
        else favs)
  /\ (forall x, x ∈ favorites (shopping s2) <-> x ∈ favs)
  /\ favorites (shopping (final (Monolith.toggleFavorite listingId s)))
     = favorites (shopping s1).
Proof.
  intros favs s1 s2. subst s1 s2.
  rewrite !toggleFavorite_favorites. fold favs.
  split; [reflexivity|].
  split.
  { unfold toggledFavorites. case_bool_decide as Hin.
    - split; [intros Hin'; exfalso; revert Hin'; apply filter_ne_removes|].
      tauto.
    - split; [tauto|]. set_solver. }
  split; [apply toggledFavorites_others|].
  rewrite toggledFavorites_twice.
  split; [reflexivity|].
  split.
  { intros x. case_bool_decide as Hin; [|reflexivity].
    rewrite elem_of_app, list_elem_of_filter, list_elem_of_singleton.
    destruct (decide (x = listingId)) as [->|Hne]; tauto. }
  unfold Monolith.toggleFavorite.
  destruct (bool_decide _); rewrite final_bind_log; reflexivity.
Qed.

(** *** Rules for the effects of a callback *)

Section Emits.
Context (P : Effect -> Prop).

Lemma emits_ret {A} (a : A) : emits_only P (mret a).
Proof. intros s. constructor. Qed.

Lemma emits_throw {A} (e : Exn) : emits_only P (throw (A := A) e).
Proof. intros s. constructor. Qed.

Lemma emits_lift {A} (c : Completion A) : emits_only P (lift c).
Proof. intros s. destruct c; constructor. Qed.

Lemma emits_modify (f : AppState -> AppState) : emits_only P (modify f).
Proof. intros s. constructor. Qed.

Lemma emits_emit (eff : Effect) : P eff -> emits_only P (emit eff).
Proof. intros Heff s. repeat constructor. exact Heff. Qed.

Lemma emits_bind {A B} (m : M A) (k : A -> M B) :
  emits_only P m -> (forall a, emits_only P (k a)) ->
  emits_only P (m ≫= k).
Proof.
  intros Hm Hk s. specialize (Hm s). unfold mbind, M_bind, bind.
  destruct (m s) as [s1 out1 [a|e]]; cbn in *; [|assumption].
  specialize (Hk a s1). destruct (k a s1) as [s2 out2 c]; cbn in *.
  apply Forall_app. split; assumption.
Qed.

Lemma emits_try_catch {A} (m : M A) (handler : Exn -> M A) :
  emits_only P m -> (forall e, emits_only P (handler e)) ->
  emits_only P (try_catch m handler).
Proof.
  intros Hm Hh s. specialize (Hm s). unfold try_catch.
  destruct (m s) as [s1 out1 [a|e]]; cbn in *; [assumption|].
  specialize (Hh e s1). destruct (handler e s1) as [s2 out2 c]; cbn in *.
  apply Forall_app. split; assumption.
Qed.

Lemma emits_try_finally {A} (m : M A) (fin : M unit) :
  emits_only P m -> emits_only P fin -> emits_only P (try_finally m fin).
Proof.
  intros Hm Hf s. specialize (Hm s). unfold try_finally.
  destruct (m s) as [s1 out1 c]; cbn in *.
  specialize (Hf s1). destruct (fin s1) as [s2 out2 c2]; cbn in *.
  apply Forall_app. split; assumption.
Qed.

Lemma emits_toggleFavorite (listingId : string) :
  (forall line, P (ConsoleLog line)) ->
  emits_only P (toggleFavorite listingId).
Proof.
  intros Hlog s. unfold toggleFavorite.
  destruct (bool_decide _); repeat constructor; apply Hlog.
Qed.

Lemma monolith_emits_toggleFavorite (listingId : string) :
  (forall line, P (ConsoleLog line)) ->
  emits_only P (Monolith.toggleFavorite listingId).
Proof.
  intros Hlog s. unfold Monolith.toggleFavorite.
  destruct (bool_decide _); repeat constructor; apply Hlog.
Qed.

End Emits.

Ltac quiet_step :=
  match goal with
  | |- emits_only _ (mret _) => apply emits_ret
  | |- emits_only _ (throw _) => apply emits_throw
  | |- emits_only _ (lift _) => apply emits_lift
  | |- emits_only _ (log _) => apply emits_emit; exact I
  | |- emits_only _ (log_error _) => apply emits_emit; exact I
  | |- emits_only _ (_ ≫= _) => apply emits_bind; [|intros ?]
  | |- emits_only _ (try_catch _ _) => apply emits_try_catch; [|intros ?]
  | |- emits_only _ (try_finally _ _) => apply emits_try_finally
  | |- emits_only _ (if ?b then _ else _) => destruct b
  | |- emits_only _ (match ?v with _ => _ end) => destruct v
  | |- emits_only _ (toggleFavorite _) =>
      apply emits_toggleFavorite; intros ?; exact I
  | |- emits_only _ (Monolith.toggleFavorite _) =>
      apply monolith_emits_toggleFavorite; intros ?; exact I
  | |- emits_only _ (modify _) => apply emits_modify
  | |- emits_only _ (setListings _) => apply emits_modify
  | |- emits_only _ (setHighlightedListingId _) => apply emits_modify
  | |- emits_only _ (setFavorites _) => apply emits_modify
  | |- emits_only _ (setCartItems _) => apply emits_modify
  | |- emits_only _ (setPage _) => apply emits_modify
  | |- emits_only _ (setShowTryOnModal _) => apply emits_modify
  | |- emits_only _ (setTryOnProduct _) => apply emits_modify
  | |- emits_only _ (setIsGeneratingTryOn _) => apply emits_modify
  | |- emits_only _ (setTryOnResult _) => apply emits_modify
  | |- emits_only _ (setActiveContact _) => apply emits_modify
  | |- emits_only _ (setIsRecording _) => apply emits_modify
  end.

Ltac quiet := repeat quiet_step.

Lemma calls_console (out : list Effect) :
  Forall is_console out -> calls out = [].
Proof.
  induction 1 as [|eff out Heff _ IH]; [reflexivity|].
  destruct eff; try contradiction; exact IH.
Qed.

Lemma calls_step_with {E} (cb : Environment -> AppState -> E -> M unit)
    (env : Environment) (e : E) (s : AppState) :
  calls (step_with cb env e s).2 = calls (effects (cb env s e s)).
Proof.
  unfold step_with. destruct (cb env s e s) as [s1 out [[]|exn]];
    cbn [snd effects]; [reflexivity|].
  unfold calls. rewrite omap_app. apply app_nil_r.
Qed.

Lemma calls_step (env : Environment) (e : Event) (s : AppState) :
  calls (step env e s).2 = calls (effects (callback env s e s)).
Proof. apply calls_step_with. Qed.

(** The tool-response handler never calls into the voice hooks. *)
Lemma handleToolResponse_console
    (env : Environment) (render : AppState) (message : Message) :
  emits_only is_console
    (handleToolResponse (toolResponseConfig env render) (now env) message).
Proof.
  unfold handleToolResponse.
  cbn [cfg_setListings cfg_setHighlightedListingId cfg_listings
       cfg_handleAddToCart cfg_toggleFavorite cfg_navigateTo
       cfg_handleTryOnRequest cfg_handleVoiceTryOnModal
       cfg_handleTryOnResult cfg_handleTryOnError cfg_setActiveContact
       toolResponseConfig].
  unfold updateListings, highlightProduct, handleAddToCart, navigateTo,
    handleTryOnRequest, handleVoiceTryOnModal, handleTryOnResult,
    handleTryOnError.
  quiet.
Qed.

(** ** Voice: playback and the input buffer *)

Lemma step_audio_delta (env : Environment) (s : AppState) (delta : string) :
  isRecording s = true ->
  (step env (ReceivedResponseAudioDelta delta) s).1 = s
  /\ calls (step env (ReceivedResponseAudioDelta delta) s).2
     = [PlayAudio delta].
Proof.
  intros Hrec.
  unfold step, step_with, callback, onReceivedResponseAudioDelta, call.
  rewrite Hrec. run_callback. destruct (fails env (PlayAudio delta));
    split; reflexivity.
Qed.

Lemma step_speech_started (env : Environment) (s : AppState) :
  (step env ReceivedInputAudioBufferSpeechStarted s).1 = s
  /\ calls (step env ReceivedInputAudioBufferSpeechStarted s).2
     = [StopAudioPlayer].
Proof.
  unfold step, step_with, callback,
    onReceivedInputAudioBufferSpeechStarted, call.
  run_callback. destruct (fails env StopAudioPlayer); split; reflexivity.
Qed.

Lemma calls_app (out1 out2 : list Effect) :
  calls (out1 ++ out2) = calls out1 ++ calls out2.
Proof. apply omap_app. Qed.

Lemma run_with_cons {E} (cb : Environment -> AppState -> E -> M unit)
    (env : Environment) (e : E) (events : list E) (s : AppState) :
  run_with cb env (e :: events) s
  = ((run_with cb env events (step_with cb env e s).1).1,
     (step_with cb env e s).2
     ++ (run_with cb env events (step_with cb env e s).1).2).
Proof.
  cbn [run_with]. destruct (step_with cb env e s) as [s1 out1].
  cbn [fst snd]. destruct (run_with cb env events s1) as [s2 out2].
  reflexivity.
Qed.

Lemma run_cons (env : Environment) (e : Event) (events : list Event)
    (s : AppState) :
  run env (e :: events) s
  = ((run env events (step env e s).1).1,
     (step env e s).2 ++ (run env events (step env e s).1).2).
Proof. apply run_with_cons. Qed.

Lemma played_calls (out : list Effect) :
  played out
  = omap (fun c => match c with PlayAudio d => Some d | _ => None end)
         (calls out).
Proof.
  unfold played, calls.
  induction out as [|eff out IH]; [reflexivity|].
  destruct eff as [[]| | |]; cbn; rewrite ?IH; reflexivity.
Qed.

Lemma monolith_step_audio_delta
    (env : Environment) (s : AppState) (delta : string) :
  isRecording s = true ->
  (Monolith.step env (Monolith.ReceivedResponseAudioDelta delta) s).1 = s
  /\ calls (Monolith.step env (Monolith.ReceivedResponseAudioDelta delta)
              s).2
     = [PlayAudio delta].
Proof.
  intros Hrec.
  unfold Monolith.step, step_with, Monolith.callback,
    Monolith.onReceivedResponseAudioDelta, call.
  rewrite Hrec. run_callback. destruct (fails env (PlayAudio delta));
    split; reflexivity.
Qed.

Lemma monolith_step_speech_started (env : Environment) (s : AppState) :
  (Monolith.step env Monolith.ReceivedInputAudioBufferSpeechStarted s).1 = s
  /\ calls (Monolith.step env Monolith.ReceivedInputAudioBufferSpeechStarted
              s).2
     = [StopAudioPlayer].
Proof.
  unfold Monolith.step, step_with, Monolith.callback,
    Monolith.onReceivedInputAudioBufferSpeechStarted, call.
  run_callback. destruct (fails env StopAudioPlayer); split; reflexivity.
Qed.

(** C1, as the code has it. During a recording session every audio delta
    is handed to the player, the one that arrives after the speech-started
    event included; that event only stops the player in between. This
    holds for [useVoiceInterface] and for [App.tsx]. *)
Theorem delta_after_speech_started_is_played
    (env : Environment) (s : AppState) (d1 d2 d3 : string) :
  isRecording s = true ->
  let out := (run env [ ReceivedResponseAudioDelta d1;
                        ReceivedResponseAudioDelta d2;
                        ReceivedInputAudioBufferSpeechStarted;
                        ReceivedResponseAudioDelta d3 ] s).2 in
  let out' := (Monolith.run env
                 [ Monolith.ReceivedResponseAudioDelta d1;
                   Monolith.ReceivedResponseAudioDelta d2;
                   Monolith.ReceivedInputAudioBufferSpeechStarted;
                   Monolith.ReceivedResponseAudioDelta d3 ] s).2 in
  calls out = [PlayAudio d1; PlayAudio d2; StopAudioPlayer; PlayAudio d3]
  /\ played out = [d1; d2; d3]
  /\ calls out' = [PlayAudio d1; PlayAudio d2; StopAudioPlayer; PlayAudio d3]
  /\ played out' = [d1; d2; d3].
Proof.
  intros Hrec out out'.
  assert (calls out
          = [PlayAudio d1; PlayAudio d2; StopAudioPlayer; PlayAudio d3])
    as Hcalls.
  { subst out.
    destruct (step_audio_delta env s d1 Hrec) as [S1 C1].
    destruct (step_audio_delta env s d2 Hrec) as [S2 C2].
    destruct (step_speech_started env s) as [S3 C3].
    destruct (step_audio_delta env s d3 Hrec) as [S4 C4].
    rewrite !run_cons. unfold run. cbn [fst snd run_with].
    rewrite S1, S2, S3, !calls_app, C1, C2, C3, C4. reflexivity. }
  assert (calls out'
          = [PlayAudio d1; PlayAudio d2; StopAudioPlayer; PlayAudio d3])
    as Hcalls'.
  { subst out'.
    destruct (monolith_step_audio_delta env s d1 Hrec) as [S1 C1].
    destruct (monolith_step_audio_delta env s d2 Hrec) as [S2 C2].
    destruct (monolith_step_speech_started env s) as [S3 C3].
    destruct (monolith_step_audio_delta env s d3 Hrec) as [S4 C4].
    unfold Monolith.run, Monolith.step in *.
    rewrite !run_with_cons. cbn [fst snd run_with].
    rewrite S1, S2, S3, !calls_app, C1, C2, C3, C4. reflexivity. }
  repeat split; try assumption.
  - rewrite played_calls, Hcalls. reflexivity.
  - rewrite played_calls, Hcalls'. reflexivity.
Qed.

(** Refutes the membership of a call in a list of other calls. *)
Ltac not_among :=
  let Hin := fresh "Hin" in
  intros Hin;
  repeat (apply elem_of_cons in Hin as [Hin|Hin]; [discriminate Hin|]);
  apply elem_of_nil in Hin; exact Hin.

Lemma no_clear_from_console (s : AppState) (m : M unit) :
  emits_only is_console m ->
  InputAudioBufferClear ∈ calls (effects (m s)) -> False.
Proof.
  intros Hm. rewrite (calls_console _ (Hm s)). apply not_elem_of_nil.
Qed.

(** C2, as the code has it. On a speech-started event the client stops
    the audio player and does nothing else: no state changes and nothing is
    sent upstream. The only callback that issues [inputAudioBufferClear] is
    [onToggleListening]. This holds for the hooks and for [App.tsx]. *)
Theorem speech_started_only_stops_player
    (env : Environment) (s : AppState) (e : Event) (e' : Monolith.Event) :
  ((step env ReceivedInputAudioBufferSpeechStarted s).1 = s
   /\ calls (step env ReceivedInputAudioBufferSpeechStarted s).2
      = [StopAudioPlayer]
   /\ (InputAudioBufferClear ∈ calls (step env e s).2 ->
       e = ClickToggleListening))
  /\ ((Monolith.step env Monolith.ReceivedInputAudioBufferSpeechStarted s).1
      = s
      /\ calls (Monolith.step env
                  Monolith.ReceivedInputAudioBufferSpeechStarted s).2
         = [StopAudioPlayer]
      /\ (InputAudioBufferClear ∈ calls (Monolith.step env e' s).2 ->
          e' = Monolith.ClickToggleListening)).
Proof.
  split.
  - destruct (step_speech_started env s) as [Hstate Hcalls].
    split; [exact Hstate|]. split; [exact Hcalls|].
    rewrite calls_step.
    destruct e; cbn [callback]; try reflexivity; intros Hin; exfalso;
      revert Hin;
      try (apply no_clear_from_console;
           unfold navigateTo, handleAddToCart, removeFromCart, handleTryOn,
             handleGenerateTryOn, handleCloseTryOnModal;
           quiet; fail).
    + unfold onReceivedResponseAudioDelta, call.
      destruct (isRecording s); run_callback;
        [destruct (fails env _)|]; cbn; not_among.
    + unfold onReceivedInputAudioBufferSpeechStarted, call. run_callback.
      destruct (fails env _); cbn; not_among.
    + apply no_clear_from_console.
      unfold onReceivedExtensionMiddleTierToolResponse.
      cbn [onToolResponse voiceConfig].
      apply emits_bind; [quiet|intros _].
      apply handleToolResponse_console.
    + unfold onAudioRecorded, call. run_callback.
      destruct (fails env _); cbn; not_among.
  - destruct (monolith_step_speech_started env s) as [Hstate Hcalls].
    split; [exact Hstate|]. split; [exact Hcalls|].
    unfold Monolith.step. rewrite calls_step_with.
    destruct e'; cbn [Monolith.callback]; try reflexivity; intros Hin;
      exfalso; revert Hin;
      try (apply no_clear_from_console;
           unfold Monolith.onReceivedExtensionMiddleTierToolResponse,
             Monolith.handleAddToCart, Monolith.handleTryOn,
             Monolith.handleGenerateTryOn, Monolith.handleCloseTryOnModal,
             updateListings;
           quiet; fail).
    + unfold Monolith.onReceivedResponseAudioDelta, call.
      destruct (isRecording s); run_callback;
        [destruct (fails env _)|]; cbn; not_among.
    + unfold Monolith.onReceivedInputAudioBufferSpeechStarted, call.
      run_callback. destruct (fails env _); cbn; not_among.
    + unfold onAudioRecorded, call. run_callback.
      destruct (fails env _); cbn; not_among.
Qed.



(** ** Virtual try-on *)

(** C4, as the code has it. When the call to the try-on backend fails,
    [handleGenerateTryOn] stores the placeholder image as the try-on
    result, clears the generating flag, changes nothing else and reports
    nothing but [console.log] lines: no error reaches the user. This holds
    for [useVirtualTryOn] and for [App.tsx]. *)
Theorem failed_try_on_shows_placeholder
    (env : Environment) (s : AppState) (productId personImageBase64 : string)
    (outcome : FetchOutcome) :
  backend_failed outcome = true ->
  let shown := with_tryOn (fun t =>
                 {| showTryOnModal := showTryOnModal t;
                    tryOnProduct := tryOnProduct t;
                    isGeneratingTryOn := false;
                    tryOnResult := Some (placeholder (now env)) |}) s in
  let r := step env (ClickGenerateTryOn productId personImageBase64 outcome)
                s in
  let r' := Monolith.step env
              (Monolith.ClickGenerateTryOn productId personImageBase64
                 outcome) s in
  r.1 = shown /\ Forall is_plain_log r.2
  /\ r'.1 = shown /\ Forall is_plain_log r'.2.
Proof.
  intros Hfailed shown r r'. subst shown r r'.
  unfold step, Monolith.step, step_with, callback, Monolith.callback,
    handleGenerateTryOn, Monolith.handleGenerateTryOn, setIsGeneratingTryOn,
    setTryOnResult, placeholder.
  destruct outcome as [|[|] status body]; try discriminate Hfailed;
    run_callback; cbn [fst snd];
    destruct s as [? ? [] ? ?]; cbn;
    repeat split; repeat constructor.
Qed.

(* ===================================================================== *)
(** * Further properties of the callbacks *)
(* ===================================================================== *)

(** ** Listening on and off *)

(** X1. Starting and then stopping to listen, with every collaborator
    answering normally, brings the client back to the state it started
    from; on the way it opens the session, starts the recorder, resets the
    player, then stops the recorder, stops the player and clears the input
    buffer. This holds for [useVoiceInterface] and for [App.tsx]. *)
Theorem listening_round_trip (env : Environment) (s : AppState) :
  isRecording s = false ->
  (forall c, fails env c = false) ->
  let r := run env [ClickToggleListening; ClickToggleListening] s in
  let r' := Monolith.run env
              [Monolith.ClickToggleListening; Monolith.ClickToggleListening]
              s in
  let session := [ StartSession; StartAudioRecording; ResetAudioPlayer;
                   StopAudioRecording; StopAudioPlayer;
                   InputAudioBufferClear ] in
  r.1 = s /\ calls r.2 = session /\ uncaught r.2 = []
  /\ r'.1 = s /\ calls r'.2 = session /\ uncaught r'.2 = [].
Proof.
  intros Hrec Hcalm r r' session. subst r r' session.
  unfold run, Monolith.run. cbn [run_with].
  unfold step_with, callback, Monolith.callback, onToggleListening,
    Monolith.onToggleListening, call, setIsRecording.
  rewrite Hrec. run_callback. rewrite ?Hcalm. run_callback.
  cbn [with_isRecording isRecording negb].
  run_callback. rewrite ?Hcalm. run_callback.
  destruct s as [sp ss st sc sr]. cbn in Hrec. subst sr.
  repeat split.
Qed.

(** X2. [onToggleListening] of [useVoiceInterface] never lets an
    exception escape, whichever collaborator fails, and touches nothing but
    the recording flag. The client is recording afterwards exactly when it
    was not before and the session, the recorder and the player all
    started; any failure leaves it not recording. *)
Theorem toggle_listening_contains_failures (env : Environment) (s : AppState) :
  let r := step env ClickToggleListening s in
  uncaught r.2 = []
  /\ r.1 = with_isRecording
             (negb (isRecording s)
              && negb (fails env StartSession)
              && negb (fails env StartAudioRecording)
              && negb (fails env ResetAudioPlayer)) s.
Proof.
  intros r. subst r.
  unfold step, step_with, callback, onToggleListening, call, setIsRecording.
  destruct (isRecording s) eqn:Hrec; run_callback;
    repeat match goal with
           | |- context [fails env ?c] =>
               destruct (fails env c); run_callback
           | |- context [cleanup_fails env ?c] =>
               destruct (cleanup_fails env c); run_callback
           end;
    cbn; split; try reflexivity;
    destruct s as [sp ss st sc sr]; cbn in Hrec; subst sr; reflexivity.
Qed.

(** X3. [onToggleListening] of [App.tsx] has no [try]: when the client is
    recording and a collaborator fails, the calls after the failing one are
    not made, the exception escapes, and the client stays in the recording
    state. *)
Theorem monolith_toggle_failure_escapes (env : Environment) (s : AppState) :
  isRecording s = true ->
  let r := Monolith.step env Monolith.ClickToggleListening s in
  let ok := negb (fails env StopAudioRecording)
            && negb (fails env StopAudioPlayer)
            && negb (fails env InputAudioBufferClear) in
  r.1 = (if ok then with_isRecording false s else s)
  /\ length (uncaught r.2) = (if ok then 0 else 1)
  /\ calls r.2
     = StopAudioRecording
       :: (if fails env StopAudioRecording then []
           else StopAudioPlayer
                :: (if fails env StopAudioPlayer then []
                    else [InputAudioBufferClear])).
Proof.
  intros Hrec r ok. subst r ok.
  unfold Monolith.step, step_with, Monolith.callback,
    Monolith.onToggleListening, call, setIsRecording.
  rewrite Hrec. run_callback.
  repeat match goal with
         | |- context [fails env ?c] =>
             destruct (fails env c); run_callback
         end;
    cbn; repeat split.
Qed.

(** ** Audio in both directions *)

Lemma emits_call (P : Effect -> Prop) (fails : Call -> bool) (c : Call) :
  P (Invoke c) -> emits_only P (call fails c).
Proof.
  intros Hc s. unfold call. run_callback.
  destruct (fails c); repeat constructor; exact Hc.
Qed.

(** As [quiet], for callbacks that call collaborators too. *)
Ltac audible :=
  repeat first [ quiet_step | apply emits_call; exact I ].

Lemma played_nothing (out : list Effect) :
  Forall not_play out -> played out = [].
Proof.
  induction 1 as [|eff out Heff _ IH]; [reflexivity|].
  destruct eff as [[]| | |]; try contradiction; exact IH.
Qed.

Lemma forwarded_nothing (out : list Effect) :
  Forall not_append out -> forwarded out = [].
Proof.
  unfold forwarded, calls.
  induction 1 as [|eff out Heff _ IH]; [reflexivity|].
  destruct eff as [[]| | |]; try contradiction; exact IH.
Qed.

Lemma played_app (out1 out2 : list Effect) :
  played (out1 ++ out2) = played out1 ++ played out2.
Proof. apply omap_app. Qed.

Lemma forwarded_app (out1 out2 : list Effect) :
  forwarded (out1 ++ out2) = forwarded out1 ++ forwarded out2.
Proof. unfold forwarded. rewrite calls_app. apply omap_app. Qed.

Lemma step_effects (env : Environment) (e : Event) (s : AppState) :
  exists tail, (step env e s).2 = effects (callback env s e s) ++ tail
               /\ calls tail = [].
Proof.
  unfold step, step_with.
  destruct (callback env s e s) as [s1 out [[]|exn]]; cbn [snd effects].
  - exists []. rewrite app_nil_r. split; reflexivity.
  - exists [Uncaught exn]. split; reflexivity.
Qed.

(** The tool-response handler and the buttons of the page make no call to
    the voice hooks. *)
Lemma callback_console (env : Environment) (s : AppState) (e : Event) :
  match e with
  | ReceivedResponseAudioDelta _ | ReceivedInputAudioBufferSpeechStarted
  | AudioRecorded _ | ClickToggleListening => True
  | _ => emits_only is_console (callback env s e)
  end.
Proof.
  destruct e; cbn [callback]; try exact I;
    try (unfold navigateTo, handleAddToCart, removeFromCart, handleTryOn,
           handleGenerateTryOn, handleCloseTryOnModal; quiet; fail).
  unfold onReceivedExtensionMiddleTierToolResponse.
  cbn [onToolResponse voiceConfig].
  apply emits_bind; [quiet|intros _].
  apply handleToolResponse_console.
Qed.

Lemma console_not_play (out : list Effect) :
  Forall is_console out -> Forall not_play out.
Proof.
  intros Hconsole. eapply Forall_impl; [exact Hconsole|].
  intros []; cbn; tauto.
Qed.

Lemma console_not_append (out : list Effect) :
  Forall is_console out -> Forall not_append out.
Proof.
  intros Hconsole. eapply Forall_impl; [exact Hconsole|].
  intros []; cbn; tauto.
Qed.

Lemma step_played (env : Environment) (e : Event) (s : AppState) :
  played (step env e s).2
  = match e with
    | ReceivedResponseAudioDelta d => if isRecording s then [d] else []
    | _ => []
    end.
Proof.
  destruct (step_effects env e s) as (tail & -> & Htail).
  rewrite played_app, (played_calls tail), Htail, app_nil_r.
  pose proof (callback_console env s e) as Hconsole.
  destruct e; cbn [callback] in *;
    try (apply played_nothing, console_not_play, Hconsole).
  - unfold onReceivedResponseAudioDelta, call.
    destruct (isRecording s); run_callback; [|reflexivity].
    destruct (fails env _); reflexivity.
  - apply played_nothing.
    refine ((_ : emits_only not_play _) s).
    unfold onReceivedInputAudioBufferSpeechStarted. audible.
  - apply played_nothing.
    refine ((_ : emits_only not_play _) s). unfold onAudioRecorded. audible.
  - apply played_nothing.
    refine ((_ : emits_only not_play _) s). unfold onToggleListening.
    audible.
Qed.

Lemma step_forwarded (env : Environment) (e : Event) (s : AppState) :
  forwarded (step env e s).2
  = match e with
    | AudioRecorded b => [b]
    | _ => []
    end.
Proof.
  destruct (step_effects env e s) as (tail & -> & Htail).
  rewrite forwarded_app. unfold forwarded at 2. rewrite Htail, app_nil_r.
  pose proof (callback_console env s e) as Hconsole.
  destruct e; cbn [callback] in *;
    try (apply forwarded_nothing, console_not_append, Hconsole).
  - apply forwarded_nothing.
    refine ((_ : emits_only not_append _) s).
    unfold onReceivedResponseAudioDelta. audible.
  - apply forwarded_nothing.
    refine ((_ : emits_only not_append _) s).
    unfold onReceivedInputAudioBufferSpeechStarted. audible.
  - unfold onAudioRecorded, call. run_callback.
    destruct (fails env _); reflexivity.
  - apply forwarded_nothing.
    refine ((_ : emits_only not_append _) s). unfold onToggleListening.
    audible.
Qed.

Lemma step_keeps_recording (env : Environment) (e : Event) (s : AppState) :
  e <> ClickToggleListening ->
  isRecording (step env e s).1 = isRecording s.
Proof.
  intros Hne. rewrite step_final.
  destruct e; cbn [callback]; try contradiction;
    try (unfold onReceivedResponseAudioDelta,
           onReceivedInputAudioBufferSpeechStarted, onAudioRecorded,
           navigateTo, handleAddToCart, removeFromCart, handleTryOn,
           handleGenerateTryOn, handleCloseTryOnModal;
         by_frame; fail).
  unfold onReceivedExtensionMiddleTierToolResponse.
  cbn [onToolResponse voiceConfig]. unfold handleToolResponse.
  cbn [cfg_setListings cfg_setHighlightedListingId cfg_listings
       cfg_handleAddToCart cfg_toggleFavorite cfg_navigateTo
       cfg_handleTryOnRequest cfg_handleVoiceTryOnModal
       cfg_handleTryOnResult cfg_handleTryOnError cfg_setActiveContact
       toolResponseConfig].
  unfold updateListings, highlightProduct, handleAddToCart, navigateTo,
    handleTryOnRequest, handleVoiceTryOnModal, handleTryOnResult,
    handleTryOnError.
  by_frame.
Qed.

(** X4. As long as the user does not press the listening button the
    recording flag keeps its value, whatever frames arrive and whatever
    else the user does. While it is on, every audio delta is handed to the
    player once, in order of arrival; while it is off, none is. *)
Theorem deltas_played_in_order_while_recording
    (env : Environment) (events : list Event) (s : AppState) :
  ClickToggleListening ∉ events ->
  let r := run env events s in
  isRecording r.1 = isRecording s
  /\ played r.2 = (if isRecording s then deltas_of events else []).
Proof.
  intros Hno r. subst r. revert s.
  induction events as [|e events IH]; intros s.
  - cbn. destruct (isRecording s); split; reflexivity.
  - apply not_elem_of_cons in Hno as [Hne Hno].
    specialize (IH Hno (step env e s).1) as [IHrec IHplayed].
    rewrite run_cons. cbn [fst snd].
    rewrite IHrec, played_app, IHplayed, step_played.
    rewrite (step_keeps_recording env e s) by congruence.
    split; [reflexivity|].
    destruct e, (isRecording s); reflexivity.
Qed.

(** X5. Every chunk the recorder produces is handed to [addUserAudio],
    once and in order, and nothing else is: this holds for every run of
    the client, whatever the state, the failures and the other events. *)
Theorem recorded_chunks_forwarded_in_order
    (env : Environment) (events : list Event) (s : AppState) :
  forwarded (run env events s).2 = chunks_of events.
Proof.
  revert s. induction events as [|e events IH]; intros s; [reflexivity|].
  rewrite run_cons. cbn [fst snd].
  rewrite forwarded_app, IH, step_forwarded.
  destruct e; reflexivity.
Qed.

Lemma voice_step_agrees (env : Environment) (v : VoiceEvent) (s : AppState) :
  (forall c, fails env c = false) ->
  (step env (hook_event v) s).1 = (Monolith.step env (monolith_event v) s).1
  /\ calls (step env (hook_event v) s).2
     = calls (Monolith.step env (monolith_event v) s).2.
Proof.
  intros Hcalm.
  unfold step, Monolith.step, step_with.
  destruct v; cbn [hook_event monolith_event callback Monolith.callback];
    unfold onReceivedResponseAudioDelta,
      Monolith.onReceivedResponseAudioDelta,
      onReceivedInputAudioBufferSpeechStarted,
      Monolith.onReceivedInputAudioBufferSpeechStarted, onAudioRecorded,
      onToggleListening, Monolith.onToggleListening, call, setIsRecording;
    destruct (isRecording s); run_callback; rewrite ?Hcalm; run_callback;
    split; reflexivity.
Qed.

(** X6. On the voice side the hooks and [App.tsx] are the same client: fed
    the same audio deltas, speech-started events, recorder chunks and
    presses of the listening button, with every collaborator answering
    normally, they reach the same state and make the same calls in the
    same order. *)
Theorem hooks_and_monolith_agree_on_voice
    (env : Environment) (voice : list VoiceEvent) (s : AppState) :
  (forall c, fails env c = false) ->
  let r := run env (hook_event <$> voice) s in
  let r' := Monolith.run env (monolith_event <$> voice) s in
  r.1 = r'.1 /\ calls r.2 = calls r'.2.
Proof.
  intros Hcalm r r'. subst r r'. revert s.
  induction voice as [|v voice IH]; intros s; [split; reflexivity|].
  rewrite !fmap_cons. unfold Monolith.run. rewrite run_cons, run_with_cons.
  cbn [fst snd].
  destruct (voice_step_agrees env v s Hcalm) as [Hstate Hcalls].
  unfold Monolith.step in Hstate, Hcalls. rewrite <- Hstate.
  destruct (IH (step env (hook_event v) s).1) as [IHstate IHcalls].
  unfold Monolith.run in IHstate, IHcalls.
  split; [exact IHstate|].
  rewrite !calls_app, Hcalls, IHcalls. reflexivity.
Qed.

(** ** Tool responses: errors and early returns *)

(** X7. A tool result that cannot be parsed, or that is [null], makes the
    handler throw (a [SyntaxError], a [TypeError]) before it has changed
    anything: the exception escapes the callback and the state is as
    before. This holds for the hook handler and for [App.tsx]. *)
Theorem unreadable_result_throws
    (env : Environment) (s : AppState) (message : Message) (exn : Exn) :
  (JSON_parse (tool_result message) = None /\ exn = SyntaxError)
  \/ (JSON_parse (tool_result message) = Some JNull /\ exn = TypeError) ->
  let r := step env (toolResponse message) s in
  let r' := Monolith.step env
              (Monolith.ReceivedExtensionMiddleTierToolResponse message) s in
  r.1 = s /\ uncaught r.2 = [exn] /\ r'.1 = s /\ uncaught r'.2 = [exn].
Proof.
  intros Hcase r r'. subst r r'.
  unfold step, Monolith.step, step_with, toolResponse, callback,
    Monolith.callback, onReceivedExtensionMiddleTierToolResponse,
    Monolith.onReceivedExtensionMiddleTierToolResponse, voiceConfig,
    onToolResponse, handleToolResponse.
  destruct Hcase as [[-> ->]|[-> ->]]; run_callback; repeat split.
Qed.

(** X8. A tool result with a string [id] and no truthy [products] only
    moves the highlight: the hook handler returns right after, so an
    [action], a [navigate_to] or a [favorite_id] in the same result has no
    effect. *)
Theorem string_id_only_highlights
    (env : Environment) (s : AppState) (message : Message) (result : val)
    (id : string) :
  JSON_parse (tool_result message) = Some result ->
  truthy (field result "products") = false ->
  field result "id" = JStr id ->
  step env (toolResponse message) s
  = (with_product (fun p =>
       {| listings := listings p; highlightedListingId := JStr id |}) s,
     [ ConsoleLog "Voice: Tool response received:";
       ConsoleLog "TOOL RESPONSE:";
       ConsoleLog "PARSED RESULT:";
       ConsoleLog "HIGHLIGHTING PRODUCT:" ]).
Proof.
  intros Hparse Hproducts Hid.
  assert (exists v, get_prop result "id" = Normal v) as [v Hv].
  { unfold field in Hid. destruct (get_prop result "id"); [eauto|].
    discriminate Hid. }
  pose proof (get_prop_field _ _ _ Hv) as Hget.
  unfold step, step_with, toolResponse, callback,
    onReceivedExtensionMiddleTierToolResponse, voiceConfig, onToolResponse,
    handleToolResponse.
  run_callback. rewrite Hparse. run_callback.
  rewrite (Hget "products"). run_callback. rewrite Hproducts.
  rewrite (Hget "id"). run_callback. rewrite Hid.
  cbn [is_string cfg_setHighlightedListingId toolResponseConfig].
  unfold highlightProduct, setHighlightedListingId. run_callback.
  reflexivity.
Qed.

(** X9. A search result that is deep-equal to the listings on display
    changes nothing at all: the listings object is not replaced and the
    highlight stays where the user left it. *)
Theorem repeated_search_result_keeps_state
    (env : Environment) (s : AppState) (message : Message) (result : val) :
  JSON_parse (tool_result message) = Some result ->
  truthy (field result "products") = true ->
  field result "products" = listings (product s) ->
  step env (toolResponse message) s
  = (s, [ ConsoleLog "Voice: Tool response received:";
          ConsoleLog "TOOL RESPONSE:";
          ConsoleLog "PARSED RESULT:" ]).
Proof.
  intros Hparse Htruthy Hsame.
  assert (get_prop result "products" = Normal (field result "products"))
    as Hget.
  { unfold field in *. destruct (get_prop result "products"); [reflexivity|].
    discriminate Htruthy. }
  unfold step, step_with, toolResponse, callback,
    onReceivedExtensionMiddleTierToolResponse, voiceConfig, onToolResponse,
    handleToolResponse.
  run_callback. rewrite Hparse. run_callback.
  rewrite Hget. run_callback. rewrite Htruthy.
  cbn [cfg_setListings toolResponseConfig].
  unfold updateListings, isEqual.
  rewrite bool_decide_eq_true_2 by (symmetry; exact Hsame).
  reflexivity.
Qed.

(** X10. A search result that differs from the listings on display
    replaces them and moves the highlight to the [id] of its first record
    ([undefined] if that record has none), or to [null] when the result is
    empty. *)
Theorem new_search_result_highlights_first
    (env : Environment) (s : AppState) (message : Message) (result : val)
    (items : list val) :
  JSON_parse (tool_result message) = Some result ->
  field result "products" = JArr items ->
  listings (product s) <> JArr items ->
  Forall (fun record => readable record = true) items ->
  (step env (toolResponse message) s).1
  = with_product (fun _ =>
      {| listings := JArr items;
         highlightedListingId :=
           match items with
           | [] => JNull
           | first :: _ => field first "id"
           end |}) s.
Proof.
  intros Hparse Hproducts Hnew Hrecords.
  rewrite (toolResponse_products_final env s message result Hparse)
    by (rewrite Hproducts; reflexivity).
  rewrite Hproducts. unfold updateListings, isEqual.
  rewrite bool_decide_eq_false_2 by exact Hnew.
  cbn [negb]. unfold setListings, setHighlightedListingId.
  destruct items as [|first rest]; run_callback; [reflexivity|].
  apply Forall_cons in Hrecords as [Hfirst _].
  unfold field.
  destruct first; try discriminate Hfirst; reflexivity.
Qed.

(** X11. When the first record of a new search result is [null], reading
    its [id] throws after the listings have been replaced: the new
    listings are shown, the highlight keeps its old value, and a
    [TypeError] escapes the callback. *)
Theorem null_first_record_breaks_highlight
    (env : Environment) (s : AppState) (message : Message) (result : val)
    (rest : list val) :
  JSON_parse (tool_result message) = Some result ->
  field result "products" = JArr (JNull :: rest) ->
  listings (product s) <> JArr (JNull :: rest) ->
  let r := step env (toolResponse message) s in
  r.1 = with_product (fun p =>
          {| listings := JArr (JNull :: rest);
             highlightedListingId := highlightedListingId p |}) s
  /\ uncaught r.2 = [TypeError].
Proof.
  intros Hparse Hproducts Hnew r. subst r.
  assert (get_prop result "products" = Normal (JArr (JNull :: rest)))
    as Hget.
  { unfold field in Hproducts.
    destruct (get_prop result "products"); congruence. }
  unfold step, step_with, toolResponse, callback,
    onReceivedExtensionMiddleTierToolResponse, voiceConfig, onToolResponse,
    handleToolResponse.
  run_callback. rewrite Hparse. run_callback.
  rewrite Hget. run_callback. cbn [truthy cfg_setListings toolResponseConfig].
  unfold updateListings, isEqual.
  rewrite bool_decide_eq_false_2 by exact Hnew.
  cbn [negb]. unfold setListings. run_callback.
  split; reflexivity.
Qed.

(** ** Tool responses: what they do to cart, favourites and page *)

Lemma bind_assoc {A B C} (m : M A) (k1 : A -> M B) (k2 : B -> M C)
    (s : AppState) :
  ((m ≫= k1) ≫= k2) s = (m ≫= fun x => k1 x ≫= k2) s.
Proof.
  unfold mbind, M_bind, bind.
  destruct (m s) as [s1 out1 [a|e]]; [|reflexivity].
  destruct (k1 a s1) as [s2 out2 [b|e]]; [|reflexivity].
  destruct (k2 b s2) as [s3 out3 c]. rewrite app_assoc. reflexivity.
Qed.

(** Follows a callback through the steps that cannot fail. *)
Ltac walk :=
  repeat first [ rewrite bind_assoc
               | rewrite final_bind_log
               | rewrite final_bind_ret
               | rewrite final_bind_modify
               | rewrite final_bind_lift_Normal ].

Lemma cart_with_extends (listingId : val) (items : list val) :
  items `prefix_of` cart_with listingId items
  /\ length (cart_with listingId items) <= S (length items).
Proof.
  unfold cart_with. destruct (includes items listingId).
  - split; [reflexivity|lia].
  - split; [apply prefix_app_r; reflexivity|].
    rewrite length_app. cbn. lia.
Qed.

(** X12. A tool response never removes or reorders cart entries: the cart
    it leaves starts with the cart it found and is at most one entry
    longer. This holds for the hook handler and for [App.tsx], whatever
    the frame holds. *)
Theorem tool_response_only_appends_to_cart
    (env : Environment) (s : AppState) (message : Message) :
  let s' := (step env (toolResponse message) s).1 in
  let m' := (Monolith.step env
               (Monolith.ReceivedExtensionMiddleTierToolResponse message)
               s).1 in
  (cart s `prefix_of` cart s' /\ length (cart s') <= S (length (cart s)))
  /\ (cart s `prefix_of` cart m' /\ length (cart m') <= S (length (cart s))).
Proof.
  intros s' m'. subst s' m'.
  destruct (JSON_parse (tool_result message)) as [result|] eqn:Hparse.
  - rewrite (toolResponse_cart env s message result Hparse).
    rewrite (monolith_toolResponse_cart env s message result Hparse).
    destruct (reaches_add_to_cart result),
      (monolith_reaches_add_to_cart result);
      repeat split; try apply cart_with_extends; try reflexivity; lia.
  - unfold step, Monolith.step, step_with, toolResponse, callback,
      Monolith.callback, onReceivedExtensionMiddleTierToolResponse,
      Monolith.onReceivedExtensionMiddleTierToolResponse, voiceConfig,
      onToolResponse, handleToolResponse.
    rewrite Hparse. run_callback. cbn [fst].
    repeat split; try reflexivity; lia.
Qed.

Lemma monolith_toggleFavorite_favorites (listingId : string) (s : AppState) :
  favorites (shopping (final (Monolith.toggleFavorite listingId s)))
  = toggledFavorites listingId (favorites (shopping s)).
Proof.
  unfold Monolith.toggleFavorite.
  destruct (bool_decide _); rewrite final_bind_log; reflexivity.
Qed.

(** X13. In the hook handler an action does not exclude navigation and
    favourites: a result with [action: "add_to_cart"] and a string
    [favorite_id] both adds to the cart and toggles the favourite. In
    [App.tsx] the [favorite_id] branch comes first in the chain and the
    same result only toggles the favourite; the cart is left alone. *)
Theorem add_to_cart_with_favorite
    (env : Environment) (s : AppState) (message : Message) (result : val)
    (favorite : string) :
  JSON_parse (tool_result message) = Some result ->
  truthy (field result "products") = false ->
  is_string (field result "id") = false ->
  is_action (field result "action") "add_to_cart" = true ->
  field result "favorite_id" = JStr favorite ->
  let s' := (step env (toolResponse message) s).1 in
  let m' := (Monolith.step env
               (Monolith.ReceivedExtensionMiddleTierToolResponse message)
               s).1 in
  cart s' = cart_with (field result "product_id") (cart s)
  /\ favorites (shopping s')
     = toggledFavorites favorite (favorites (shopping s))
  /\ cart m' = cart s
  /\ favorites (shopping m')
     = toggledFavorites favorite (favorites (shopping s)).
Proof.
  intros Hparse Hproducts Hid Haction Hfav s' m'. subst s' m'.
  split.
  { rewrite (toolResponse_cart env s message result Hparse).
    unfold reaches_add_to_cart. rewrite Hproducts, Hid, Haction.
    reflexivity. }
  split; [|split].
  2:{ rewrite (monolith_toolResponse_cart env s message result Hparse).
      unfold monolith_reaches_add_to_cart. rewrite Hfav.
      cbn [is_string negb]. rewrite andb_false_r. reflexivity. }
  - assert (exists v, get_prop result "favorite_id" = Normal v) as [v Hv].
    { unfold field in Hfav. destruct (get_prop result "favorite_id");
        [eauto|discriminate Hfav]. }
    pose proof (get_prop_field _ _ _ Hv) as Hget.
    rewrite step_final.
    unfold toolResponse, callback, onReceivedExtensionMiddleTierToolResponse.
    cbn [onToolResponse voiceConfig]. unfold handleToolResponse.
    rewrite Hparse.
    rewrite !final_bind_log, final_bind_ret, final_bind_log.
    rewrite (Hget "products"), final_bind_lift_Normal, Hproducts.
    rewrite (Hget "id"), final_bind_lift_Normal, Hid.
    rewrite (Hget "action"), final_bind_lift_Normal.
    rewrite (is_action_exclusive _ _ "update_preferences" Haction)
      by discriminate.
    rewrite (is_action_exclusive _ _ "send_message" Haction) by discriminate.
    rewrite Haction.
    cbn [cfg_handleAddToCart cfg_navigateTo cfg_toggleFavorite
         toolResponseConfig].
    unfold handleAddToCart, navigateTo, setCartItems, setPage.
    walk. rewrite (Hget "product_id"). walk.
    destruct (includes (cartItems (shopping s)) (field result "product_id"));
      cbn [negb]; walk;
      rewrite (Hget "navigate_to"); walk;
      destruct (field result "navigate_to"); walk;
      rewrite (Hget "favorite_id"), Hfav; walk;
      rewrite toggleFavorite_favorites; reflexivity.
  - assert (exists v, get_prop result "favorite_id" = Normal v) as [v Hv].
    { unfold field in Hfav. destruct (get_prop result "favorite_id");
        [eauto|discriminate Hfav]. }
    pose proof (get_prop_field _ _ _ Hv) as Hget.
    unfold Monolith.step. rewrite step_with_final.
    unfold Monolith.callback,
      Monolith.onReceivedExtensionMiddleTierToolResponse.
    rewrite Hparse.
    rewrite final_bind_log, final_bind_ret, final_bind_log.
    rewrite (Hget "action"), final_bind_lift_Normal.
    rewrite (is_action_exclusive _ _ "update_preferences" Haction)
      by discriminate.
    rewrite (Hget "products"), final_bind_lift_Normal, Hproducts.
    rewrite (is_action_exclusive _ _ "send_message" Haction) by discriminate.
    rewrite (Hget "id"), final_bind_lift_Normal, Hid.
    rewrite (Hget "favorite_id"), final_bind_lift_Normal, Hfav.
    rewrite final_bind_log.
    apply monolith_toggleFavorite_favorites.
Qed.

(** X14. A [send_message] result (no truthy [products], no string [id])
    stores the contact built from [listing_id], [contact] and [message],
    stamped with the current time. The hook handler then shows the messages
    page unless the result also names a [navigate_to], which wins;
    [App.tsx] always shows the messages page. *)
Theorem send_message_opens_conversation
    (env : Environment) (s : AppState) (message : Message) (result : val) :
  JSON_parse (tool_result message) = Some result ->
  truthy (field result "products") = false ->
  is_string (field result "id") = false ->
  is_action (field result "action") "send_message" = true ->
  let contact := {| listingId := field result "listing_id";
                    email := field result "contact";
                    contactTimestamp := now env;
                    initialMessage := field result "message" |} in
  let s' := (step env (toolResponse message) s).1 in
  let m' := (Monolith.step env
               (Monolith.ReceivedExtensionMiddleTierToolResponse message)
               s).1 in
  activeContact s' = Some contact
  /\ page (shopping s')
     = match field result "navigate_to" with
       | JStr destination => destination
       | _ => "messages"
       end
  /\ activeContact m' = Some contact
  /\ page (shopping m') = "messages".
Proof.
  intros Hparse Hproducts Hid Haction contact s' m'. subst contact s' m'.
  assert (exists v, get_prop result "action" = Normal v) as [v Hv].
  { unfold is_action, field in Haction.
    destruct (get_prop result "action"); [eauto|discriminate Haction]. }
  pose proof (get_prop_field _ _ _ Hv) as Hget.
  assert (activeContact
            (step env (toolResponse message) s).1
          = Some {| listingId := field result "listing_id";
                    email := field result "contact";
                    contactTimestamp := now env;
                    initialMessage := field result "message" |}
          /\ page (shopping (step env (toolResponse message) s).1)
             = match field result "navigate_to" with
               | JStr destination => destination
               | _ => "messages"
               end) as Hhooks.
  { rewrite step_final.
    unfold toolResponse, callback, onReceivedExtensionMiddleTierToolResponse.
    cbn [onToolResponse voiceConfig]. unfold handleToolResponse.
    rewrite Hparse. walk.
    rewrite (Hget "products"). walk. rewrite Hproducts.
    rewrite (Hget "id"). walk. rewrite Hid.
    rewrite (Hget "action"). walk.
    rewrite (is_action_exclusive _ _ "update_preferences" Haction)
      by discriminate.
    rewrite Haction.
    cbn [cfg_setActiveContact cfg_navigateTo cfg_toggleFavorite
         toolResponseConfig].
    unfold navigateTo, setActiveContact, setPage.
    rewrite (Hget "listing_id"). walk.
    rewrite (Hget "contact"). walk.
    rewrite (Hget "message"). walk.
    rewrite (Hget "navigate_to"). walk.
    destruct (field result "navigate_to"); walk;
      rewrite (Hget "favorite_id"); walk;
      (destruct (field result "favorite_id");
       [..|walk;
           split;
           [apply (toggleFavorite_preserves activeContact)
           |apply (toggleFavorite_preserves (fun st => page (shopping st)))];
           intros ? ?; reflexivity|idtac|idtac]);
      split; reflexivity. }
  split; [apply Hhooks|]. split; [apply Hhooks|].
  unfold Monolith.step. rewrite step_with_final.
  unfold Monolith.callback, Monolith.onReceivedExtensionMiddleTierToolResponse.
  rewrite Hparse. walk.
  rewrite (Hget "action"). walk.
  rewrite (is_action_exclusive _ _ "update_preferences" Haction)
    by discriminate.
  rewrite (Hget "products"). walk. rewrite Hproducts, Haction.
  unfold setActiveContact, setPage.
  rewrite (Hget "listing_id"). walk.
  rewrite (Hget "contact"). walk.
  rewrite (Hget "message"). walk.
  split; reflexivity.
Qed.

(** ** Virtual try-on *)

Lemma completion_bind_emit {B} (eff : Effect) (k : unit -> M B)
    (s : AppState) :
  completion ((emit eff ≫= k) s) = completion (k tt s).
Proof. run_callback. destruct (k tt s); reflexivity. Qed.

Lemma completion_bind_modify {B} (f : AppState -> AppState)
    (k : unit -> M B) (s : AppState) :
  completion ((modify f ≫= k) s) = completion (k tt (f s)).
Proof. run_callback. destruct (k tt (f s)); reflexivity. Qed.

Lemma final_try_finally {A} (m : M A) (fin : M unit) (s : AppState) :
  final (try_finally m fin s) = final (fin (final (m s))).
Proof.
  unfold try_finally. destruct (m s) as [s1 out1 c]. cbn.
  destruct (fin s1); reflexivity.
Qed.

Lemma completion_try_finally {A} (m : M A) (fin : M unit) (s : AppState) :
  completion (try_finally m fin s) = completion (m s).
Proof.
  unfold try_finally. destruct (m s) as [s1 out1 c]. cbn.
  destruct (fin s1); reflexivity.
Qed.

Lemma completion_try_catch_log_error (m : M unit) (line : string)
    (s : AppState) :
  completion (try_catch m (fun _ => log_error line) s) = Normal tt.
Proof.
  unfold try_catch. destruct (m s) as [s1 out1 [[]|e]]; reflexivity.
Qed.

Lemma uncaught_console (out : list Effect) :
  Forall is_console out -> uncaught out = [].
Proof.
  induction 1 as [|eff out Heff _ IH]; [reflexivity|].
  destruct eff; try contradiction; exact IH.
Qed.

Lemma step_with_uncaught {E} (cb : Environment -> AppState -> E -> M unit)
    (env : Environment) (e : E) (s : AppState) :
  Forall is_console (effects (cb env s e s)) ->
  uncaught (step_with cb env e s).2
  = match completion (cb env s e s) with
    | Normal _ => []
    | Throw exn => [exn]
    end.
Proof.
  unfold step_with. destruct (cb env s e s) as [s1 out [[]|exn]];
    cbn [snd effects completion]; intros Hconsole.
  - apply uncaught_console, Hconsole.
  - unfold uncaught. rewrite omap_app.
    fold (uncaught out). rewrite (uncaught_console _ Hconsole). reflexivity.
Qed.

(** X15. Whatever the backend answers, [handleGenerateTryOn] lets no
    exception escape, ends with the generating flag cleared, and touches
    nothing besides that flag and the try-on result. This holds for
    [useVirtualTryOn] and for [App.tsx]. *)
Theorem generate_try_on_always_settles
    (env : Environment) (s : AppState) (productId personImageBase64 : string)
    (outcome : FetchOutcome) :
  let r := step env (ClickGenerateTryOn productId personImageBase64 outcome)
                s in
  let r' := Monolith.step env
              (Monolith.ClickGenerateTryOn productId personImageBase64
                 outcome) s in
  (uncaught r.2 = []
   /\ isGeneratingTryOn (tryOn r.1) = false
   /\ around_try_on_result r.1 = around_try_on_result s)
  /\ (uncaught r'.2 = []
      /\ isGeneratingTryOn (tryOn r'.1) = false
      /\ around_try_on_result r'.1 = around_try_on_result s).
Proof.
  intros r r'. subst r r'. split.
  - split; [|split].
    + unfold step. rewrite step_with_uncaught.
      2:{ cbn [callback].
          refine ((_ : emits_only is_console _) s).
          unfold handleGenerateTryOn. quiet. }
      cbn [callback]. unfold handleGenerateTryOn, log, setIsGeneratingTryOn.
      rewrite !completion_bind_emit, completion_bind_modify.
      rewrite completion_try_finally.
      fold (log_error "Virtual try-on failed:").
      rewrite completion_try_catch_log_error. reflexivity.
    + rewrite step_final. cbn [callback].
      unfold handleGenerateTryOn.
      rewrite !final_bind_log. unfold setIsGeneratingTryOn.
      rewrite final_bind_modify, final_try_finally. reflexivity.
    + rewrite step_final. cbn [callback]. unfold handleGenerateTryOn.
      by_frame.
  - split; [|split].
    + unfold Monolith.step. rewrite step_with_uncaught.
      2:{ cbn [Monolith.callback].
          refine ((_ : emits_only is_console _) s).
          unfold Monolith.handleGenerateTryOn. quiet. }
      cbn [Monolith.callback].
      unfold Monolith.handleGenerateTryOn, log, setIsGeneratingTryOn.
      rewrite !completion_bind_emit, completion_bind_modify.
      rewrite completion_try_finally.
      fold (log_error "Virtual try-on failed:").
      rewrite completion_try_catch_log_error. reflexivity.
    + unfold Monolith.step. rewrite step_with_final.
      cbn [Monolith.callback]. unfold Monolith.handleGenerateTryOn.
      rewrite !final_bind_log. unfold setIsGeneratingTryOn.
      rewrite final_bind_modify, final_try_finally. reflexivity.
    + unfold Monolith.step. rewrite step_with_final.
      cbn [Monolith.callback]. unfold Monolith.handleGenerateTryOn.
      by_frame.
Qed.

(** Unfolds the whole callback, down to the tests that are still open. *)
Ltac crunch :=
  cbv beta iota zeta delta
    [mbind M_bind mret M_ret bind ret throw lift modify emit log log_error
     try_catch try_finally final effects completion fst snd].

(** X16. When the backend answers with a base64 image under
    [tryon_image], [useVirtualTryOn] shows it as a [data:] URL, whether or
    not the answer also carries an [image_url]. *)
Theorem base64_answer_becomes_data_url
    (env : Environment) (s : AppState) (productId personImageBase64 : string)
    (status : N) (body : val) (base64 : string) :
  field body "tryon_image" = JStr base64 ->
  base64 <> "" ->
  let r := step env
             (ClickGenerateTryOn productId personImageBase64
                (FetchResponse true status (Some body))) s in
  tryOnResult (tryOn r.1)
  = Some {| imageUrl := JStr ("data:image/png;base64," +:+ base64);
            timestamp := now env |}.
Proof.
  intros Himage Hnonempty r. subst r.
  assert (get_prop body "tryon_image" = Normal (JStr base64)) as Hget.
  { unfold field in Himage. destruct (get_prop body "tryon_image");
      congruence. }
  unfold step, step_with, callback, handleGenerateTryOn,
    setIsGeneratingTryOn, setTryOnResult.
  crunch. rewrite Hget. crunch. cbn [truthy].
  rewrite bool_decide_eq_false_2 by exact Hnonempty.
  reflexivity.
Qed.

Lemma readable_get_prop (v : val) (k : string) :
  readable v = true -> get_prop v k = Normal (field v k).
Proof.
  unfold field. destruct v; cbn; intros Hv; try discriminate; reflexivity.
Qed.

(** X17. When the backend answers with an [image_url] (and no
    [tryon_image]), the URL shown always starts with [http]: an absolute
    URL is kept, any other is prefixed with the address of the backend.
    This holds for [useVirtualTryOn] and for [App.tsx]. *)
Theorem url_answer_is_made_absolute
    (env : Environment) (s : AppState) (productId personImageBase64 : string)
    (status : N) (body : val) (url : string) :
  truthy (field body "tryon_image") = false ->
  field body "image_url" = JStr url ->
  url <> "" ->
  let answer := FetchResponse true status (Some body) in
  let r := step env (ClickGenerateTryOn productId personImageBase64 answer)
                s in
  let r' := Monolith.step env
              (Monolith.ClickGenerateTryOn productId personImageBase64
                 answer) s in
  let shown := if String.prefix "http" url then url
               else "http://localhost:8765" +:+ url in
  tryOnResult (tryOn r.1)
  = Some {| imageUrl := JStr shown; timestamp := now env |}
  /\ tryOnResult (tryOn r'.1)
     = Some {| imageUrl := JStr shown; timestamp := now env |}
  /\ String.prefix "http" shown = true.
Proof.
  intros Himage Hurl Hnonempty answer r r' shown. subst answer r r' shown.
  assert (readable body = true) as Hbody.
  { destruct body; try reflexivity; discriminate Hurl. }
  pose proof (readable_get_prop body "tryon_image" Hbody) as Hget1.
  pose proof (readable_get_prop body "image_url" Hbody) as Hget2.
  unfold step, Monolith.step, step_with, callback, Monolith.callback,
    handleGenerateTryOn, Monolith.handleGenerateTryOn,
    setIsGeneratingTryOn, setTryOnResult.
  crunch. rewrite Hget1, Hget2. crunch. rewrite Himage, Hurl. crunch.
  cbn [truthy startsWith interpolate].
  rewrite bool_decide_eq_false_2 by exact Hnonempty. crunch.
  cbn [tryOnResult tryOn with_tryOn negb].
  destruct (String.prefix "http" url) eqn:Hprefix; repeat split.
  exact Hprefix.
Qed.

(** X18. An [ok] answer that carries neither a truthy [tryon_image] nor a
    truthy [image_url] is dropped in silence: the try-on result on display
    stays as it was and only [console.log] lines are written. This holds
    for [useVirtualTryOn] and for [App.tsx]. *)
Theorem answer_without_image_is_dropped
    (env : Environment) (s : AppState) (productId personImageBase64 : string)
    (status : N) (body : val) :
  readable body = true ->
  truthy (field body "tryon_image") = false ->
  truthy (field body "image_url") = false ->
  let answer := FetchResponse true status (Some body) in
  let r := step env (ClickGenerateTryOn productId personImageBase64 answer)
                s in
  let r' := Monolith.step env
              (Monolith.ClickGenerateTryOn productId personImageBase64
                 answer) s in
  (tryOnResult (tryOn r.1) = tryOnResult (tryOn s)
   /\ Forall is_plain_log r.2)
  /\ (tryOnResult (tryOn r'.1) = tryOnResult (tryOn s)
      /\ Forall is_plain_log r'.2).
Proof.
  intros Hbody Himage Hurl answer r r'. subst answer r r'.
  pose proof (readable_get_prop body "tryon_image" Hbody) as Hget1.
  pose proof (readable_get_prop body "image_url" Hbody) as Hget2.
  unfold step, Monolith.step, step_with, callback, Monolith.callback,
    handleGenerateTryOn, Monolith.handleGenerateTryOn,
    setIsGeneratingTryOn, setTryOnResult.
  crunch. rewrite Hget1, Hget2. crunch. rewrite Himage, Hurl. crunch.
  repeat split; repeat constructor.
Qed.

(** X19. [App.tsx] does not know the base64 answer: when the backend
    sends a [tryon_image] and no [image_url], the image is not shown; the
    try-on result stays as it was and only [console.log] lines are
    written. *)
Theorem monolith_ignores_base64_answer
    (env : Environment) (s : AppState) (productId personImageBase64 : string)
    (status : N) (body : val) (base64 : string) :
  field body "tryon_image" = JStr base64 ->
  truthy (field body "image_url") = false ->
  let r' := Monolith.step env
              (Monolith.ClickGenerateTryOn productId personImageBase64
                 (FetchResponse true status (Some body))) s in
  tryOnResult (tryOn r'.1) = tryOnResult (tryOn s)
  /\ Forall is_plain_log r'.2.
Proof.
  intros Himage Hurl r'. subst r'.
  assert (readable body = true) as Hbody.
  { destruct body; try reflexivity; discriminate Himage. }
  pose proof (readable_get_prop body "image_url" Hbody) as Hget.
  unfold Monolith.step, step_with, Monolith.callback,
    Monolith.handleGenerateTryOn, setIsGeneratingTryOn, setTryOnResult.
  crunch. rewrite Hget. crunch. rewrite Hurl. crunch.
  repeat split; repeat constructor.
Qed.

Lemma find_listing_passes (id : string) (record : val) :
  other_record id record ->
  get_prop record "id" = Normal (field record "id")
  /\ strict_eq (field record "id") (JStr id) = false.
Proof.
  intros [Hreadable Hother]. split; [apply readable_get_prop, Hreadable|].
  destruct (strict_eq _ _) eqn:Heq; [|reflexivity].
  apply strict_eq_JStr in Heq. contradiction.
Qed.

Lemma find_listing_found (id : string) (before after : list val)
    (record : val) :
  Forall (other_record id) before ->
  field record "id" = JStr id ->
  find_listing (JStr id) (JArr (before ++ record :: after)) = Normal record.
Proof.
  intros Hbefore Hid. unfold find_listing. cbn [array_find].
  induction Hbefore as [|x before Hx _ IH]; cbn [app find_first].
  - assert (readable record = true) as Hreadable
      by (destruct record; try reflexivity; discriminate Hid).
    rewrite (readable_get_prop _ _ Hreadable), Hid. cbn [strict_eq].
    rewrite bool_decide_eq_true_2 by reflexivity. reflexivity.
  - destruct (find_listing_passes id x Hx) as [-> ->]. exact IH.
Qed.

Lemma find_listing_absent (id : string) (items : list val) :
  Forall (other_record id) items ->
  find_listing (JStr id) (JArr items) = Normal JUndefined.
Proof.
  intros Hitems. unfold find_listing. cbn [array_find].
  induction Hitems as [|x items Hx _ IH]; cbn [find_first]; [reflexivity|].
  destruct (find_listing_passes id x Hx) as [-> ->]. exact IH.
Qed.

(** X20. Asking to try on a listing that is on display opens the modal on
    the first listing with that [id] and clears the previous try-on
    result; nothing else changes. This holds for [useVirtualTryOn] and for
    [App.tsx]. *)
Theorem try_on_opens_first_match
    (env : Environment) (s : AppState) (id : string)
    (before after : list val) (record : val) :
  listings (product s) = JArr (before ++ record :: after) ->
  Forall (other_record id) before ->
  field record "id" = JStr id ->
  let opened := with_tryOn (fun t =>
                  {| showTryOnModal := true;
                     tryOnProduct := record;
                     isGeneratingTryOn := isGeneratingTryOn t;
                     tryOnResult := None |}) s in
  (step env (ClickTryOn id) s).1 = opened
  /\ (Monolith.step env (Monolith.ClickTryOn id) s).1 = opened.
Proof.
  intros Hlistings Hbefore Hid opened. subst opened.
  pose proof (find_listing_found id before after record Hbefore Hid)
    as Hfound.
  assert (truthy record = true) as Htruthy.
  { destruct record; try reflexivity; discriminate Hid. }
  unfold step, Monolith.step, step_with, callback, Monolith.callback,
    handleTryOn, Monolith.handleTryOn, setTryOnProduct, setShowTryOnModal,
    setTryOnResult.
  rewrite Hlistings, Hfound. crunch. rewrite Htruthy. crunch.
  destruct s as [sp ss [] sc sr]. split; reflexivity.
Qed.

(** X21. Asking to try on an [id] that none of the listings on display
    carries does nothing: no state changes and nothing is reported, in
    [useVirtualTryOn] and in [App.tsx]. *)
Theorem try_on_unknown_id_does_nothing
    (env : Environment) (s : AppState) (id : string) (items : list val) :
  listings (product s) = JArr items ->
  Forall (other_record id) items ->
  step env (ClickTryOn id) s = (s, [])
  /\ Monolith.step env (Monolith.ClickTryOn id) s = (s, []).
Proof.
  intros Hlistings Hitems.
  pose proof (find_listing_absent id items Hitems) as Habsent.
  unfold step, Monolith.step, step_with, callback, Monolith.callback,
    handleTryOn, Monolith.handleTryOn.
  rewrite Hlistings, Habsent. crunch. split; reflexivity.
Qed.

(** ** Invariants of the shopping state *)

Section Maintains.
Context (I : AppState -> Prop).

Lemma maintains_ret {A} (a : A) : maintains I (mret a).
Proof. intros s Hs. exact Hs. Qed.

Lemma maintains_throw {A} (e : Exn) : maintains I (throw (A := A) e).
Proof. intros s Hs. exact Hs. Qed.

Lemma maintains_lift {A} (c : Completion A) : maintains I (lift c).
Proof. intros s Hs. destruct c; exact Hs. Qed.

Lemma maintains_emit (eff : Effect) : maintains I (emit eff).
Proof. intros s Hs. exact Hs. Qed.

Lemma maintains_call (fails : Call -> bool) (c : Call) :
  maintains I (call fails c).
Proof.
  intros s Hs. unfold call. run_callback. destruct (fails c); exact Hs.
Qed.

Lemma maintains_bind {A B} (m : M A) (k : A -> M B) :
  maintains I m -> (forall a, maintains I (k a)) -> maintains I (m ≫= k).
Proof.
  intros Hm Hk s Hs. specialize (Hm s Hs). unfold mbind, M_bind, bind.
  destruct (m s) as [s1 out1 [a|e]]; cbn in *; [|assumption].
  specialize (Hk a s1 Hm). destruct (k a s1) as [s2 out2 c]. exact Hk.
Qed.

Lemma maintains_try_catch {A} (m : M A) (handler : Exn -> M A) :
  maintains I m -> (forall e, maintains I (handler e)) ->
  maintains I (try_catch m handler).
Proof.
  intros Hm Hh s Hs. specialize (Hm s Hs). unfold try_catch.
  destruct (m s) as [s1 out1 [a|e]]; cbn in *; [assumption|].
  specialize (Hh e s1 Hm). destruct (handler e s1) as [s2 out2 c]. exact Hh.
Qed.

Lemma maintains_try_finally {A} (m : M A) (fin : M unit) :
  maintains I m -> maintains I fin -> maintains I (try_finally m fin).
Proof.
  intros Hm Hf s Hs. specialize (Hm s Hs). unfold try_finally.
  destruct (m s) as [s1 out1 c]; cbn in *.
  specialize (Hf s1 Hm). destruct (fin s1) as [s2 out2 c2]. exact Hf.
Qed.

End Maintains.

Lemma toggledFavorites_NoDup (listingId : string) (favs : list string) :
  NoDup favs -> NoDup (toggledFavorites listingId favs).
Proof.
  intros Hfavs. unfold toggledFavorites. case_bool_decide as Hin.
  - apply NoDup_filter, Hfavs.
  - apply NoDup_app. split; [exact Hfavs|]. split.
    + intros x Hx Hx'. apply list_elem_of_singleton in Hx'. subst x.
      contradiction.
    + apply NoDup_singleton.
Qed.

Lemma setFavorites_unique (f : list string -> list string) :
  (forall favs, NoDup favs -> NoDup (f favs)) ->
  maintains favorites_unique (setFavorites f).
Proof. intros Hf s Hs. apply Hf, Hs. Qed.

Lemma toggleFavorite_unique (listingId : string) :
  maintains favorites_unique (toggleFavorite listingId).
Proof.
  intros s Hs. unfold favorites_unique.
  rewrite toggleFavorite_favorites. apply toggledFavorites_NoDup, Hs.
Qed.

Lemma monolith_toggleFavorite_unique (listingId : string) :
  maintains favorites_unique (Monolith.toggleFavorite listingId).
Proof.
  intros s Hs. unfold favorites_unique.
  rewrite monolith_toggleFavorite_favorites.
  apply toggledFavorites_NoDup, Hs.
Qed.

(** Decomposes a goal about the uniqueness of the favourites. *)
Ltac keep_step :=
  match goal with
  | |- maintains _ (mret _) => apply maintains_ret
  | |- maintains _ (throw _) => apply maintains_throw
  | |- maintains _ (lift _) => apply maintains_lift
  | |- maintains _ (log _) => apply maintains_emit
  | |- maintains _ (log_error _) => apply maintains_emit
  | |- maintains _ (call _ _) => apply maintains_call
  | |- maintains _ (_ ≫= _) => apply maintains_bind; [|intros ?]
  | |- maintains _ (try_catch _ _) => apply maintains_try_catch; [|intros ?]
  | |- maintains _ (try_finally _ _) => apply maintains_try_finally
  | |- maintains _ (if ?b then _ else _) => destruct b
  | |- maintains _ (match ?v with _ => _ end) => destruct v
  | |- maintains _ (toggleFavorite _) => apply toggleFavorite_unique
  | |- maintains _ (Monolith.toggleFavorite _) =>
      apply monolith_toggleFavorite_unique
  | |- maintains _ (setFavorites _) =>
      apply setFavorites_unique; intros ? ?
  | |- maintains _ (setListings _) => intros ? Hs; exact Hs
  | |- maintains _ (setHighlightedListingId _) => intros ? Hs; exact Hs
  | |- maintains _ (setCartItems _) => intros ? Hs; exact Hs
  | |- maintains _ (setPage _) => intros ? Hs; exact Hs
  | |- maintains _ (setShowTryOnModal _) => intros ? Hs; exact Hs
  | |- maintains _ (setTryOnProduct _) => intros ? Hs; exact Hs
  | |- maintains _ (setIsGeneratingTryOn _) => intros ? Hs; exact Hs
  | |- maintains _ (setTryOnResult _) => intros ? Hs; exact Hs
  | |- maintains _ (setActiveContact _) => intros ? Hs; exact Hs
  | |- maintains _ (setIsRecording _) => intros ? Hs; exact Hs
  end.

Ltac keep := repeat keep_step.

Lemma callback_keeps_favorites_unique
    (env : Environment) (render : AppState) (e : Event) :
  maintains favorites_unique (callback env render e).
Proof.
  destruct e; cbn [callback];
    unfold onReceivedResponseAudioDelta,
      onReceivedInputAudioBufferSpeechStarted,
      onReceivedExtensionMiddleTierToolResponse, onAudioRecorded,
      onToggleListening, navigateTo, handleAddToCart, removeFromCart,
      handleTryOn, handleGenerateTryOn, handleCloseTryOnModal;
    cbn [onToolResponse voiceConfig]; unfold handleToolResponse;
    cbn [cfg_setListings cfg_setHighlightedListingId cfg_listings
         cfg_handleAddToCart cfg_toggleFavorite cfg_navigateTo
         cfg_handleTryOnRequest cfg_handleVoiceTryOnModal
         cfg_handleTryOnResult cfg_handleTryOnError cfg_setActiveContact
         toolResponseConfig];
    unfold updateListings, highlightProduct, handleAddToCart, navigateTo,
      handleTryOnRequest, handleVoiceTryOnModal, handleTryOnResult,
      handleTryOnError;
    keep.
Qed.

Lemma monolith_callback_keeps_favorites_unique
    (env : Environment) (render : AppState) (e : Monolith.Event) :
  maintains favorites_unique (Monolith.callback env render e).
Proof.
  destruct e; cbn [Monolith.callback];
    unfold Monolith.onReceivedResponseAudioDelta,
      Monolith.onReceivedInputAudioBufferSpeechStarted,
      Monolith.onReceivedExtensionMiddleTierToolResponse, onAudioRecorded,
      Monolith.onToggleListening, Monolith.handleAddToCart,
      Monolith.handleTryOn, Monolith.handleGenerateTryOn,
      Monolith.handleCloseTryOnModal, updateListings;
    keep; try apply NoDup_nil_2; try (apply NoDup_filter; assumption).
Qed.

Lemma run_with_maintains {E} (cb : Environment -> AppState -> E -> M unit)
    (I : AppState -> Prop) (env : Environment) (events : list E)
    (s : AppState) :
  (forall render e, maintains I (cb env render e)) ->
  I s -> I (run_with cb env events s).1.
Proof.
  intros Hcb. revert s.
  induction events as [|e events IH]; intros s Hs; [exact Hs|].
  rewrite run_with_cons. cbn [fst]. apply IH.
  rewrite step_with_final. apply Hcb, Hs.
Qed.

(** X22. The favourites never list an id twice: if they do not at some
    point, they do not after any run of the client, whatever frames arrive
    and whatever the user clicks. This holds for the hooks and for
    [App.tsx]; in particular it holds of every state reached from the
    initial one. *)
Theorem favorites_never_duplicate
    (env : Environment) (events : list Event)
    (events' : list Monolith.Event) (s : AppState) :
  NoDup (favorites (shopping s)) ->
  NoDup (favorites (shopping (run env events s).1))
  /\ NoDup (favorites (shopping (Monolith.run env events' s).1)).
Proof.
  intros Hs. split.
  - apply (run_with_maintains callback favorites_unique); [|exact Hs].
    intros render e. apply callback_keeps_favorites_unique.
  - apply (run_with_maintains Monolith.callback favorites_unique);
      [|exact Hs].
    intros render e. apply monolith_callback_keeps_favorites_unique.
Qed.

Lemma strict_eq_sym (a b : val) : strict_eq a b = strict_eq b a.
Proof.
  destruct a, b; cbn; try reflexivity;
    apply bool_decide_ext; split; congruence.
Qed.

Lemma includes_filter (f : val -> bool) (items : list val) (x : val) :
  includes items x = false -> includes (List.filter f items) x = false.
Proof.
  unfold includes. induction items as [|y items IH]; [reflexivity|].
  cbn. rewrite orb_false_iff. intros [Hy Hitems].
  destruct (f y); cbn; rewrite ?Hy; apply IH, Hitems.
Qed.

Lemma distinct_filter (f : val -> bool) (items : list val) :
  distinct items -> distinct (List.filter f items).
Proof.
  induction items as [|y items IH]; [exact id|].
  cbn. intros [Hy Hitems]. destruct (f y); [|apply IH, Hitems].
  split; [apply includes_filter, Hy|apply IH, Hitems].
Qed.

Lemma distinct_snoc (items : list val) (x : val) :
  distinct items -> includes items x = false -> distinct (items ++ [x]).
Proof.
  induction items as [|y items IH]; cbn.
  - intros _ _. split; [reflexivity|exact I].
  - intros [Hy Hitems]. rewrite orb_false_iff. intros [Hyx Hx].
    split; [|apply IH; assumption].
    rewrite includes_app, Hy. cbn.
    rewrite strict_eq_sym, Hyx. reflexivity.
Qed.

Lemma distinct_cart_with (listingId : val) (items : list val) :
  distinct items -> distinct (cart_with listingId items).
Proof.
  intros Hitems. unfold cart_with.
  destruct (includes items listingId) eqn:Hin; [exact Hitems|].
  apply distinct_snoc; assumption.
Qed.

Lemma unparsed_keeps_state (env : Environment) (s : AppState)
    (message : Message) :
  JSON_parse (tool_result message) = None ->
  (step env (toolResponse message) s).1 = s
  /\ (Monolith.step env
        (Monolith.ReceivedExtensionMiddleTierToolResponse message) s).1 = s.
Proof.
  intros Hparse.
  unfold step, Monolith.step, step_with, toolResponse, callback,
    Monolith.callback, onReceivedExtensionMiddleTierToolResponse,
    Monolith.onReceivedExtensionMiddleTierToolResponse, voiceConfig,
    onToolResponse, handleToolResponse.
  rewrite Hparse. run_callback. split; reflexivity.
Qed.

Lemma step_keeps_cart_distinct (env : Environment) (e : Event)
    (s : AppState) :
  distinct (cart s) -> distinct (cart (step env e s).1).
Proof.
  intros Hs.
  destruct e;
    try (rewrite step_final; cbn [callback];
         unfold onReceivedResponseAudioDelta,
           onReceivedInputAudioBufferSpeechStarted, onAudioRecorded,
           onToggleListening, navigateTo, handleTryOn, handleGenerateTryOn,
           handleCloseTryOnModal;
         match goal with
         | |- distinct (cart (final (?m s))) =>
             replace (cart (final (m s))) with (cart s);
             [exact Hs|symmetry; by_frame]
         end; fail).
  - destruct (JSON_parse (tool_result message)) as [result|] eqn:Hparse.
    + fold (toolResponse message).
      rewrite (toolResponse_cart env s message result Hparse).
      destruct (reaches_add_to_cart result);
        [apply distinct_cart_with|]; exact Hs.
    + fold (toolResponse message).
      rewrite (proj1 (unparsed_keeps_state env s message Hparse)). exact Hs.
  - rewrite step_final. cbn [callback]. rewrite handleAddToCart_cart.
    apply distinct_cart_with, Hs.
  - rewrite step_final. cbn [callback]. unfold removeFromCart, setCartItems.
    rewrite final_bind_modify. apply distinct_filter, Hs.
Qed.

Lemma monolith_step_keeps_cart_distinct (env : Environment)
    (e : Monolith.Event) (s : AppState) :
  distinct (cart s) -> distinct (cart (Monolith.step env e s).1).
Proof.
  intros Hs. unfold Monolith.step.
  destruct e;
    try (rewrite step_with_final; cbn [Monolith.callback];
         unfold Monolith.onReceivedResponseAudioDelta,
           Monolith.onReceivedInputAudioBufferSpeechStarted, onAudioRecorded,
           Monolith.onToggleListening, Monolith.handleTryOn,
           Monolith.handleGenerateTryOn, Monolith.handleCloseTryOnModal;
         match goal with
         | |- distinct (cart (final (?m s))) =>
             replace (cart (final (m s))) with (cart s);
             [exact Hs|symmetry; by_frame]
         end; fail).
  - destruct (JSON_parse (tool_result message)) as [result|] eqn:Hparse.
    + fold (@Monolith.step H).
      rewrite (monolith_toolResponse_cart env s message result Hparse).
      destruct (monolith_reaches_add_to_cart result);
        [apply distinct_cart_with|]; exact Hs.
    + fold (@Monolith.step H).
      rewrite (proj2 (unparsed_keeps_state env s message Hparse)). exact Hs.
  - rewrite step_with_final. exact I.
  - rewrite step_with_final. apply distinct_filter, Hs.
  - rewrite step_with_final. cbn [Monolith.callback].
    rewrite monolith_handleAddToCart_cart. apply distinct_cart_with, Hs.
Qed.

(** X23. No two entries of the cart are ever [===] to each other: if that
    holds at some point, it holds after any run of the client, whatever
    frames arrive and whatever the user clicks (a rendering taking place
    between two events). This holds for the hooks and for [App.tsx]; in
    particular no product id is in the cart twice in a state reached from
    the initial one. *)
Theorem cart_entries_stay_distinct
    (env : Environment) (events : list Event)
    (events' : list Monolith.Event) (s : AppState) :
  distinct (cart s) ->
  distinct (cart (run env events s).1)
  /\ distinct (cart (Monolith.run env events' s).1).
Proof.
  intros Hs. split.
  - revert s Hs. induction events as [|e events IH]; intros s Hs;
      [exact Hs|].
    rewrite run_cons. cbn [fst]. apply IH, step_keeps_cart_distinct, Hs.
  - revert s Hs. unfold Monolith.run.
    induction events' as [|e events' IH]; intros s Hs; [exact Hs|].
    rewrite run_with_cons. cbn [fst].
    apply IH, (monolith_step_keeps_cart_distinct env e s Hs).
Qed.

Lemma filter_other_than_absent (items : list val) (x : val) :
  includes items x = false -> List.filter (other_than x) items = items.
Proof.
  unfold includes, other_than.
  induction items as [|y items IH]; [reflexivity|].
  cbn. rewrite orb_false_iff. intros [-> Hitems]. cbn.
  rewrite IH by exact Hitems. reflexivity.
Qed.

Lemma filter_other_than_snoc (items : list val) (x : string) :
  List.filter (other_than (JStr x)) (items ++ [JStr x])
  = List.filter (other_than (JStr x)) items.
Proof.
  rewrite List.filter_app. cbn. unfold other_than at 2. cbn.
  rewrite bool_decide_eq_true_2 by reflexivity. cbn. apply app_nil_r.
Qed.

(** X24. Putting a product in the cart and taking it out again restores
    the cart of a client that did not hold the product, entry for entry
    and in order. This holds for the buttons of the hooks and for those of
    [App.tsx]. *)
Theorem add_then_remove_restores_cart
    (env : Environment) (s : AppState) (id : string) :
  includes (cart s) (JStr id) = false ->
  let r := run env [ClickAddToCart id; ClickRemoveFromCart id] s in
  let r' := Monolith.run env
              [Monolith.ClickAddToCart id; Monolith.ClickRemoveFromCart id]
              s in
  cart r.1 = cart s /\ cart r'.1 = cart s.
Proof.
  intros Habsent r r'. subst r r'. split.
  - rewrite !run_cons. cbn [run run_with fst].
    rewrite step_final. cbn [callback]. unfold removeFromCart, setCartItems.
    rewrite final_bind_modify. cbn [log emit final with_shopping].
    change (List.filter (other_than (JStr id))
              (cart (step env (ClickAddToCart id) s).1) = cart s).
    rewrite step_final. cbn [callback]. rewrite handleAddToCart_cart.
    unfold cart_with. rewrite Habsent, filter_other_than_snoc.
    apply filter_other_than_absent, Habsent.
  - unfold Monolith.run. rewrite !run_with_cons. cbn [run_with fst].
    rewrite step_with_final. cbn [Monolith.callback]. unfold setCartItems.
    change (List.filter (other_than (JStr id))
              (cart (Monolith.step env (Monolith.ClickAddToCart id) s).1)
            = cart s).
    unfold Monolith.step. rewrite step_with_final. cbn [Monolith.callback].
    rewrite monolith_handleAddToCart_cart.
    unfold cart_with. rewrite Habsent, filter_other_than_snoc.
    apply filter_other_than_absent, Habsent.
Qed.

Lemma filter_favorites_spec (favs : list string) (items : list val) :
  filter_favorites favs items
  = if forallb readable items
    then Normal (List.filter (is_favorite favs) items)
    else Throw TypeError.
Proof.
  induction items as [|l items IH]; [reflexivity|].
  cbn [filter_favorites forallb List.filter]. rewrite IH.
  unfold is_favorite, field.
  destruct l; cbn; try reflexivity;
    destruct (forallb readable items); try reflexivity.
  destruct (default JUndefined (fields !! "id")); reflexivity.
Qed.

(** X25. On the favourites page the catalogue shows the listings whose
    [id] is a string among the favourites, in the order of the listings.
    If one record of the listings is [null], computing what to show throws
    a [TypeError], whatever the favourites are. *)
Theorem favorites_page_shows_favorites (s : AppState) (items : list val) :
  page (shopping s) = "favorites" ->
  listings (product s) = JArr items ->
  displayedListings s
  = if forallb readable items
    then Normal (JArr (List.filter (is_favorite (favorites (shopping s)))
                         items))
    else Throw TypeError.
Proof.
  intros Hpage Hlistings. unfold displayedListings.
  rewrite Hpage, Hlistings, bool_decide_eq_true_2 by reflexivity.
  rewrite filter_favorites_spec.
  destruct (forallb readable items); reflexivity.
Qed.

(** X26. A try-on result that arrives as a tool result clears the
    generating flag and, if it carries a truthy [image_url], shows that
    value as it was sent: unlike the answer to the button, it is not made
    absolute, and a [tryon_image] is not looked at. Without a truthy
    [image_url] the result on display stays. *)
Theorem voice_try_on_result_shown_as_sent
    (env : Environment) (s : AppState) (message : Message) (result : val) :
  JSON_parse (tool_result message) = Some result ->
  truthy (field result "products") = false ->
  is_string (field result "id") = false ->
  is_action (field result "action") "virtual_try_on_result" = true ->
  let s' := (step env (toolResponse message) s).1 in
  isGeneratingTryOn (tryOn s') = false
  /\ tryOnResult (tryOn s')
     = if truthy (field result "image_url")
       then Some {| imageUrl := field result "image_url";
                    timestamp := now env |}
       else tryOnResult (tryOn s).
Proof.
  intros Hparse Hproducts Hid Haction s'. subst s'.
  assert (exists v, get_prop result "action" = Normal v) as [v Hv].
  { unfold is_action, field in Haction.
    destruct (get_prop result "action"); [eauto|discriminate Haction]. }
  pose proof (get_prop_field _ _ _ Hv) as Hget.
  rewrite step_final.
  unfold toolResponse, callback, onReceivedExtensionMiddleTierToolResponse.
  cbn [onToolResponse voiceConfig]. unfold handleToolResponse.
  rewrite Hparse.
  rewrite !final_bind_log, final_bind_ret, final_bind_log.
  rewrite (Hget "products"), final_bind_lift_Normal, Hproducts.
  rewrite (Hget "id"), final_bind_lift_Normal, Hid.
  rewrite (Hget "action"), final_bind_lift_Normal.
  rewrite (is_action_exclusive _ _ "update_preferences" Haction)
    by discriminate.
  rewrite (is_action_exclusive _ _ "send_message" Haction) by discriminate.
  rewrite (is_action_exclusive _ _ "add_to_cart" Haction) by discriminate.
  rewrite (is_action_exclusive _ _ "virtual_try_on_request" Haction)
    by discriminate.
  rewrite (is_action_exclusive _ _ "open_virtual_try_on_modal" Haction)
    by discriminate.
  rewrite Haction.
  cbn [cfg_handleTryOnResult cfg_navigateTo cfg_toggleFavorite
       toolResponseConfig].
  unfold handleTryOnResult, navigateTo, setIsGeneratingTryOn, setTryOnResult,
    setPage.
  walk. rewrite (Hget "image_url"). walk.
  destruct (truthy (field result "image_url")); walk;
    rewrite (Hget "navigate_to"); walk;
    destruct (field result "navigate_to"); walk;
    rewrite (Hget "favorite_id"); walk;
    destruct (field result "favorite_id"); walk;
    try (split; reflexivity);
    rewrite (toggleFavorite_preserves tryOn _ (fun f s => eq_refl));
    split; reflexivity.
Qed.

(** X27. Asking for a try-on by voice does what the try-on button does: a
    [virtual_try_on_request] or [open_virtual_try_on_modal] result that
    names a [product_id] (and no page, no favourite) leaves the client in
    the state a press of the button of that product would, whatever the
    listings on display are. *)
Theorem voice_try_on_agrees_with_button
    (env : Environment) (s : AppState) (message : Message) (result : val)
    (id : string) :
  JSON_parse (tool_result message) = Some result ->
  truthy (field result "products") = false ->
  is_string (field result "id") = false ->
  is_action (field result "action") "virtual_try_on_request" = true
  \/ is_action (field result "action") "open_virtual_try_on_modal" = true ->
  field result "product_id" = JStr id ->
  is_string (field result "navigate_to") = false ->
  is_string (field result "favorite_id") = false ->
  (step env (toolResponse message) s).1 = (step env (ClickTryOn id) s).1.
Proof.
  intros Hparse Hproducts Hid Haction Hproduct Hnavigate Hfavorite.
  assert (exists v, get_prop result "product_id" = Normal v) as [v Hv].
  { unfold field in Hproduct.
    destruct (get_prop result "product_id"); [eauto|discriminate Hproduct]. }
  pose proof (get_prop_field _ _ _ Hv) as Hget.
  rewrite !step_final.
  unfold toolResponse, callback, onReceivedExtensionMiddleTierToolResponse.
  cbn [onToolResponse voiceConfig]. unfold handleToolResponse.
  rewrite Hparse.
  rewrite !final_bind_log, final_bind_ret, final_bind_log.
  rewrite (Hget "products"), final_bind_lift_Normal, Hproducts.
  rewrite (Hget "id"), final_bind_lift_Normal, Hid.
  rewrite (Hget "action"), final_bind_lift_Normal.
  destruct Haction as [Haction|Haction];
    rewrite (is_action_exclusive _ _ "update_preferences" Haction)
      by discriminate;
    rewrite (is_action_exclusive _ _ "send_message" Haction) by discriminate;
    rewrite (is_action_exclusive _ _ "add_to_cart" Haction) by discriminate;
    rewrite ?(is_action_exclusive _ _ "virtual_try_on_request" Haction)
      by discriminate;
    rewrite Haction;
    cbn [cfg_handleTryOnRequest cfg_handleVoiceTryOnModal cfg_listings
         cfg_navigateTo cfg_toggleFavorite toolResponseConfig];
    unfold handleTryOnRequest, handleVoiceTryOnModal, handleTryOn,
      setTryOnProduct, setShowTryOnModal, setTryOnResult;
    walk; rewrite (Hget "product_id"), Hproduct; walk;
    (destruct (find_listing (JStr id) (listings (product s)))
       as [found|exn]; [|reflexivity]);
    walk; destruct (truthy found); walk;
    rewrite (Hget "navigate_to"); walk;
    destruct (field result "navigate_to"); try discriminate Hnavigate; walk;
    rewrite (Hget "favorite_id"); walk;
    destruct (field result "favorite_id"); try discriminate Hfavorite;
    reflexivity.
Qed.

End Properties.

(** ** The properties on sample frames *)

Section OnSamples.
#[local] Existing Instance sample_runtime.

(** C3 on a search result of two records. *)
Lemma products_array_replaces_listings_sample :
  let s' := (step quiet_world (toolResponse (frame "search" search_text))
                  initialState).1 in
  listings (product s') = JArr search_items
  /\ (page (shopping initialState) <> "favorites" ->
      displayedListings s' = Normal (JArr search_items)).
Proof.
  apply (products_array_replaces_listings (H := sample_runtime) quiet_world
           initialState
           (frame "search" search_text) search_result search_items);
    vm_compute; reflexivity.
Defined.

(** C1 on three deltas around a speech-started event. *)
Lemma delta_after_speech_started_is_played_sample :
  let out := (run quiet_world
                [ ReceivedResponseAudioDelta "AAAA";
                  ReceivedResponseAudioDelta "BBBB";
                  ReceivedInputAudioBufferSpeechStarted;
                  ReceivedResponseAudioDelta "CCCC" ] listening).2 in
  let out' := (Monolith.run quiet_world
                 [ Monolith.ReceivedResponseAudioDelta "AAAA";
                   Monolith.ReceivedResponseAudioDelta "BBBB";
                   Monolith.ReceivedInputAudioBufferSpeechStarted;
                   Monolith.ReceivedResponseAudioDelta "CCCC" ]
                 listening).2 in
  calls out = [ PlayAudio "AAAA"; PlayAudio "BBBB"; StopAudioPlayer;
                PlayAudio "CCCC" ]
  /\ played out = ["AAAA"; "BBBB"; "CCCC"]
  /\ calls out' = [ PlayAudio "AAAA"; PlayAudio "BBBB"; StopAudioPlayer;
                    PlayAudio "CCCC" ]
  /\ played out' = ["AAAA"; "BBBB"; "CCCC"].
Proof.
  apply (delta_after_speech_started_is_played (H := sample_runtime)
           quiet_world listening "AAAA" "BBBB" "CCCC").
  reflexivity.
Defined.

(** C1 as claimed fails: what is played is not just the first two
    deltas. *)
Lemma third_delta_reaches_playback :
  played (run quiet_world
            [ ReceivedResponseAudioDelta "AAAA";
              ReceivedResponseAudioDelta "BBBB";
              ReceivedInputAudioBufferSpeechStarted;
              ReceivedResponseAudioDelta "CCCC" ] listening).2
  <> ["AAAA"; "BBBB"].
Proof. vm_compute. discriminate. Qed.

(** C2 as claimed fails: after a speech-started event the next chunk of
    the recorder goes upstream and no clear has been issued. *)
Lemma append_follows_speech_started_without_clear :
  let out := (run quiet_world
                [ ReceivedInputAudioBufferSpeechStarted;
                  AudioRecorded "AAAA" ] listening).2 in
  calls out = [StopAudioPlayer; AddUserAudio "AAAA"]
  /\ cleared_before_append (calls out) = false.
Proof. vm_compute. split; reflexivity. Qed.

(** C4 on a rejected [fetch]. *)
Lemma failed_try_on_shows_placeholder_sample :
  let r := step quiet_world (ClickGenerateTryOn "CLO001" "AAAA" FetchRejected)
                initialState in
  let r' := Monolith.step quiet_world
              (Monolith.ClickGenerateTryOn "CLO001" "AAAA" FetchRejected)
              initialState in
  let shown := with_tryOn (fun t =>
                 {| showTryOnModal := showTryOnModal t;
                    tryOnProduct := tryOnProduct t;
                    isGeneratingTryOn := false;
                    tryOnResult := Some (placeholder (now quiet_world)) |})
                 initialState in
  r.1 = shown /\ Forall is_plain_log r.2
  /\ r'.1 = shown /\ Forall is_plain_log r'.2.
Proof.
  apply (failed_try_on_shows_placeholder (H := sample_runtime) quiet_world
           initialState "CLO001" "AAAA" FetchRejected).
  reflexivity.
Defined.

(** C4 as claimed fails: after a backend error (status 500) the user is
    shown the placeholder as the try-on result, and no error is reported,
    not even on the console. *)
Lemma backend_error_presented_as_result :
  let r := step quiet_world
             (ClickGenerateTryOn "CLO001" "AAAA" (FetchResponse false 500 None))
             initialState in
  tryOnResult (tryOn r.1)
  = Some {| imageUrl := JStr "/api/placeholder/400/600"; timestamp := noon |}
  /\ isGeneratingTryOn (tryOn r.1) = false
  /\ ConsoleError "Virtual try-on failed:" ∉ r.2.
Proof.
  vm_compute. repeat split.
  intros Hin. repeat (apply elem_of_cons in Hin as [Hin|Hin];
                      [discriminate Hin|]).
  apply elem_of_nil in Hin. exact Hin.
Qed.

(** C5 on an [add_to_cart] result. *)
Lemma cart_after_two_deliveries_sample :
  let s1 := (step quiet_world (toolResponse (frame "add_to_cart"
               add_to_cart_text)) initialState).1 in
  let s2 := (step quiet_world (toolResponse (frame "add_to_cart"
               add_to_cart_text)) s1).1 in
  let m1 := (Monolith.step quiet_world
               (Monolith.ReceivedExtensionMiddleTierToolResponse
                  (frame "add_to_cart" add_to_cart_text)) initialState).1 in
  let m2 := (Monolith.step quiet_world
               (Monolith.ReceivedExtensionMiddleTierToolResponse
                  (frame "add_to_cart" add_to_cart_text)) m1).1 in
  cartItems (shopping s2) = cartItems (shopping s1)
  /\ cartItems (shopping m2) = cartItems (shopping m1).
Proof.
  apply (cart_after_two_deliveries (H := sample_runtime) quiet_world
           quiet_world initialState (frame "add_to_cart" add_to_cart_text)
           add_to_cart_result);
    vm_compute; reflexivity.
Defined.

(** C5 as claimed fails: the same wishlist result delivered twice changes
    the favourites twice; the second delivery is not recognised as a
    duplicate. *)
Lemma duplicate_favorite_result_toggles_back :
  let s1 := (step quiet_world (toolResponse (frame "manage_wishlist"
               favorite_text)) initialState).1 in
  let s2 := (step quiet_world (toolResponse (frame "manage_wishlist"
               favorite_text)) s1).1 in
  favorites (shopping s1) = ["CLO001"]
  /\ favorites (shopping s2) = []
  /\ s2 <> s1.
Proof. vm_compute. repeat split. discriminate. Qed.

(** C6 on a result that carries none of the expected properties. *)
Lemma unrecognized_result_logged_and_dropped_sample :
  step quiet_world (toolResponse (frame "get_status" status_text))
       initialState
  = (initialState,
     [ ConsoleLog "Voice: Tool response received:";
       ConsoleLog "TOOL RESPONSE:";
       ConsoleLog "PARSED RESULT:";
       ConsoleLog "Unknown tool response action:" ])
  /\ Monolith.step quiet_world
       (Monolith.ReceivedExtensionMiddleTierToolResponse
          (frame "get_status" status_text)) initialState
  = (initialState,
     [ ConsoleLog "TOOL RESPONSE:"; ConsoleLog "PARSED RESULT:" ]).
Proof.
  apply (unrecognized_result_logged_and_dropped (H := sample_runtime)
           quiet_world initialState (frame "get_status" status_text)
           status_result);
    vm_compute; reflexivity.
Defined.



(** C9, amended, on a search result. *)
Lemma truthy_products_returns_early_sample :
  let s' := (step quiet_world (toolResponse (frame "search" search_text))
                  initialState).1 in
  listings (product s') = field search_result "products"
  /\ shopping s' = shopping initialState
  /\ tryOn s' = tryOn initialState
  /\ activeContact s' = activeContact initialState
  /\ isRecording s' = isRecording initialState.
Proof.
  apply (truthy_products_returns_early (H := sample_runtime) quiet_world
           initialState (frame "search" search_text) search_result);
    vm_compute; reflexivity.
Defined.

(** C9 as claimed fails: a result that has a [products] property, holding
    [null], is not taken for a search result; its [navigate_to] is obeyed
    and the page changes. *)
Lemma null_products_field_does_not_return_early :
  let s' := (step quiet_world (toolResponse (frame "search"
               null_products_text)) initialState).1 in
  JSON_parse (tool_result (frame "search" null_products_text))
  = Some (JObj {[ "products" := JNull; "navigate_to" := JStr "cart" ]})
  /\ page (shopping initialState) = "main"
  /\ page (shopping s') = "cart".
Proof. vm_compute. repeat split. Qed.

(** C10 as claimed fails: toggling twice an id that is in the list moves
    it to the end. *)
Lemma toggling_twice_reorders :
  let s1 := final (toggleFavorite "CLO001" two_favorites) in
  let s2 := final (toggleFavorite "CLO001" s1) in
  favorites (shopping two_favorites) = ["CLO001"; "CLO002"]
  /\ favorites (shopping s2) = ["CLO002"; "CLO001"]
  /\ favorites (shopping s2) <> favorites (shopping two_favorites).
Proof. vm_compute. repeat split. discriminate. Qed.

End OnSamples.

(** ** Further properties on sample sessions *)

Section OnPayloads.
#[local] Existing Instance payload_runtime.

(** X1 on a client with listings on display. *)
Lemma listening_round_trip_sample :
  let r := run quiet_world [ClickToggleListening; ClickToggleListening]
               on_display in
  let r' := Monolith.run quiet_world
              [Monolith.ClickToggleListening; Monolith.ClickToggleListening]
              on_display in
  let calls_made := [ StartSession; StartAudioRecording; ResetAudioPlayer;
                      StopAudioRecording; StopAudioPlayer;
                      InputAudioBufferClear ] in
  r.1 = on_display /\ calls r.2 = calls_made /\ uncaught r.2 = []
  /\ r'.1 = on_display /\ calls r'.2 = calls_made /\ uncaught r'.2 = [].
Proof.
  apply (listening_round_trip (H := payload_runtime) quiet_world on_display);
    [reflexivity|intros c; reflexivity].
Defined.

(** X3 when the player cannot be stopped. *)
Lemma monolith_toggle_failure_escapes_sample :
  let r := Monolith.step player_stuck Monolith.ClickToggleListening
             (with_isRecording true on_display) in
  r.1 = with_isRecording true on_display
  /\ length (uncaught r.2) = 1
  /\ calls r.2 = [StopAudioRecording; StopAudioPlayer].
Proof.
  apply (monolith_toggle_failure_escapes (H := payload_runtime) player_stuck
           (with_isRecording true on_display)).
  reflexivity.
Defined.

(** X4 on the sample session without the listening button. *)
Lemma deltas_played_in_order_while_recording_sample :
  let r := run quiet_world hands_free (with_isRecording true on_display) in
  isRecording r.1 = true /\ played r.2 = ["BBBB"; "DDDD"].
Proof.
  apply (deltas_played_in_order_while_recording (H := payload_runtime)
           quiet_world hands_free (with_isRecording true on_display)).
  intros Hin. unfold hands_free, session in Hin. cbn [List.filter] in Hin.
  repeat (apply elem_of_cons in Hin as [Hin|Hin]; [discriminate Hin|]).
  apply elem_of_nil in Hin. exact Hin.
Defined.

(** X6 on a conversation. *)
Lemma hooks_and_monolith_agree_on_voice_sample :
  let r := run quiet_world (hook_event <$> conversation) on_display in
  let r' := Monolith.run quiet_world (monolith_event <$> conversation)
              on_display in
  r.1 = r'.1 /\ calls r.2 = calls r'.2.
Proof.
  apply (hooks_and_monolith_agree_on_voice (H := payload_runtime) quiet_world
           conversation on_display).
  intros c. reflexivity.
Defined.

(** X7 on a truncated text and on [null]. *)
Lemma unreadable_result_throws_sample :
  (let r := step quiet_world (toolResponse (frame "search" truncated_text))
              on_display in
   let r' := Monolith.step quiet_world
               (Monolith.ReceivedExtensionMiddleTierToolResponse
                  (frame "search" truncated_text)) on_display in
   r.1 = on_display /\ uncaught r.2 = [SyntaxError]
   /\ r'.1 = on_display /\ uncaught r'.2 = [SyntaxError])
  /\ (let r := step quiet_world (toolResponse (frame "search" null_text))
                 on_display in
      let r' := Monolith.step quiet_world
                  (Monolith.ReceivedExtensionMiddleTierToolResponse
                     (frame "search" null_text)) on_display in
      r.1 = on_display /\ uncaught r.2 = [TypeError]
      /\ r'.1 = on_display /\ uncaught r'.2 = [TypeError]).
Proof.
  split.
  - apply (unreadable_result_throws (H := payload_runtime) quiet_world
             on_display (frame "search" truncated_text) SyntaxError).
    left. split; vm_compute; reflexivity.
  - apply (unreadable_result_throws (H := payload_runtime) quiet_world
             on_display (frame "search" null_text) TypeError).
    right. split; vm_compute; reflexivity.
Defined.

(** X8 on a result that names an [id], a page and a favourite. *)
Lemma string_id_only_highlights_sample :
  step quiet_world (toolResponse (frame "get_product" highlight_text))
       initialState
  = (with_product (fun p =>
       {| listings := listings p; highlightedListingId := JStr "CLO002" |})
       initialState,
     [ ConsoleLog "Voice: Tool response received:";
       ConsoleLog "TOOL RESPONSE:";
       ConsoleLog "PARSED RESULT:";
       ConsoleLog "HIGHLIGHTING PRODUCT:" ]).
Proof.
  apply (string_id_only_highlights (H := payload_runtime) quiet_world
           initialState (frame "get_product" highlight_text) highlight_result
           "CLO002");
    vm_compute; reflexivity.
Defined.

(** X9 on the search result that is on display. *)
Lemma repeated_search_result_keeps_state_sample :
  step quiet_world (toolResponse (frame "search" search_text)) on_display
  = (on_display, [ ConsoleLog "Voice: Tool response received:";
                   ConsoleLog "TOOL RESPONSE:";
                   ConsoleLog "PARSED RESULT:" ]).
Proof.
  apply (repeated_search_result_keeps_state (H := payload_runtime)
           quiet_world on_display (frame "search" search_text)
           search_result);
    vm_compute; reflexivity.
Defined.

(** X10 on a first search result. *)
Lemma new_search_result_highlights_first_sample :
  (step quiet_world (toolResponse (frame "search" search_text))
        initialState).1
  = with_product (fun _ =>
      {| listings := JArr search_items;
         highlightedListingId := JStr "CLO001" |}) initialState.
Proof.
  apply (new_search_result_highlights_first (H := payload_runtime)
           quiet_world initialState (frame "search" search_text)
           search_result search_items).
  - vm_compute; reflexivity.
  - vm_compute; reflexivity.
  - vm_compute. intros Heq. discriminate Heq.
  - repeat constructor.
Defined.

(** X11 on a search result whose first record is [null]. *)
Lemma null_first_record_breaks_highlight_sample :
  let r := step quiet_world
             (toolResponse (frame "search" broken_search_text))
             on_display in
  r.1 = with_product (fun p =>
          {| listings := JArr [JNull; JObj {[ "id" := JStr "CLO002" ]}];
             highlightedListingId := JStr "CLO002" |}) on_display
  /\ uncaught r.2 = [TypeError].
Proof.
  apply (null_first_record_breaks_highlight (H := payload_runtime)
           quiet_world on_display (frame "search" broken_search_text)
           broken_search_result [JObj {[ "id" := JStr "CLO002" ]}]).
  - vm_compute; reflexivity.
  - vm_compute; reflexivity.
  - vm_compute. intros Heq. discriminate Heq.
Defined.

(** X13 on a result that adds to the cart and names a favourite. *)
Lemma add_to_cart_with_favorite_sample :
  let s' := (step quiet_world
               (toolResponse (frame "add_to_cart" cart_and_favorite_text))
               initialState).1 in
  let m' := (Monolith.step quiet_world
               (Monolith.ReceivedExtensionMiddleTierToolResponse
                  (frame "add_to_cart" cart_and_favorite_text))
               initialState).1 in
  cart s' = [JStr "CLO001"]
  /\ favorites (shopping s') = ["CLO002"]
  /\ cart m' = []
  /\ favorites (shopping m') = ["CLO002"].
Proof.
  apply (add_to_cart_with_favorite (H := payload_runtime) quiet_world
           initialState (frame "add_to_cart" cart_and_favorite_text)
           cart_and_favorite_result "CLO002");
    vm_compute; reflexivity.
Defined.

(** X14 on a [send_message] result that also names a page. *)
Lemma send_message_opens_conversation_sample :
  let contact := {| listingId := JStr "CLO001";
                    email := JStr "seller@example.com";
                    contactTimestamp := noon;
                    initialMessage := JStr "Is it available?" |} in
  let s' := (step quiet_world
               (toolResponse (frame "send_message" send_message_text))
               initialState).1 in
  let m' := (Monolith.step quiet_world
               (Monolith.ReceivedExtensionMiddleTierToolResponse
                  (frame "send_message" send_message_text))
               initialState).1 in
  activeContact s' = Some contact
  /\ page (shopping s') = "cart"
  /\ activeContact m' = Some contact
  /\ page (shopping m') = "messages".
Proof.
  apply (send_message_opens_conversation (H := payload_runtime) quiet_world
           initialState (frame "send_message" send_message_text)
           send_message_result);
    vm_compute; reflexivity.
Defined.

(** X16 on an answer that carries both a base64 image and a URL. *)
Lemma base64_answer_becomes_data_url_sample :
  let r := step quiet_world
             (ClickGenerateTryOn "CLO001" "AAAA"
                (FetchResponse true 200 (Some base64_answer))) on_display in
  tryOnResult (tryOn r.1)
  = Some {| imageUrl := JStr "data:image/png;base64,iVBORw0KGgo=";
            timestamp := noon |}.
Proof.
  apply (base64_answer_becomes_data_url (H := payload_runtime) quiet_world
           on_display "CLO001" "AAAA" 200%N base64_answer "iVBORw0KGgo=").
  - vm_compute; reflexivity.
  - intros Heq. discriminate Heq.
Defined.

(** X17 on a relative URL. *)
Lemma url_answer_is_made_absolute_sample :
  let answer := FetchResponse true 200 (Some relative_url_answer) in
  let r := step quiet_world (ClickGenerateTryOn "CLO001" "AAAA" answer)
                on_display in
  let r' := Monolith.step quiet_world
              (Monolith.ClickGenerateTryOn "CLO001" "AAAA" answer)
              on_display in
  let shown := "http://localhost:8765/static/tryon/1.png" in
  tryOnResult (tryOn r.1)
  = Some {| imageUrl := JStr shown; timestamp := noon |}
  /\ tryOnResult (tryOn r'.1)
     = Some {| imageUrl := JStr shown; timestamp := noon |}
  /\ String.prefix "http" shown = true.
Proof.
  apply (url_answer_is_made_absolute (H := payload_runtime) quiet_world
           on_display "CLO001" "AAAA" 200%N relative_url_answer
           "/static/tryon/1.png").
  - vm_compute; reflexivity.
  - vm_compute; reflexivity.
  - intros Heq. discriminate Heq.
Defined.

(** X18 on an answer without an image. *)
Lemma answer_without_image_is_dropped_sample :
  let answer := FetchResponse true 200 (Some empty_answer) in
  let r := step quiet_world (ClickGenerateTryOn "CLO001" "AAAA" answer)
                on_display in
  let r' := Monolith.step quiet_world
              (Monolith.ClickGenerateTryOn "CLO001" "AAAA" answer)
              on_display in
  (tryOnResult (tryOn r.1) = None /\ Forall is_plain_log r.2)
  /\ (tryOnResult (tryOn r'.1) = None /\ Forall is_plain_log r'.2).
Proof.
  apply (answer_without_image_is_dropped (H := payload_runtime) quiet_world
           on_display "CLO001" "AAAA" 200%N empty_answer);
    vm_compute; reflexivity.
Defined.

(** X19 on an answer that carries only a base64 image. *)
Lemma monolith_ignores_base64_answer_sample :
  let r' := Monolith.step quiet_world
              (Monolith.ClickGenerateTryOn "CLO001" "AAAA"
                 (FetchResponse true 200 (Some base64_only_answer)))
              on_display in
  tryOnResult (tryOn r'.1) = None /\ Forall is_plain_log r'.2.
Proof.
  apply (monolith_ignores_base64_answer (H := payload_runtime) quiet_world
           on_display "CLO001" "AAAA" 200%N base64_only_answer
           "iVBORw0KGgo=");
    vm_compute; reflexivity.
Defined.

(** X20 on the second of the two listings on display. *)
Lemma try_on_opens_first_match_sample :
  let opened := with_tryOn (fun t =>
                  {| showTryOnModal := true;
                     tryOnProduct := JObj {[ "id" := JStr "CLO002" ]};
                     isGeneratingTryOn := false;
                     tryOnResult := None |}) on_display in
  (step quiet_world (ClickTryOn "CLO002") on_display).1 = opened
  /\ (Monolith.step quiet_world (Monolith.ClickTryOn "CLO002")
        on_display).1 = opened.
Proof.
  apply (try_on_opens_first_match (H := payload_runtime) quiet_world
           on_display "CLO002" [JObj {[ "id" := JStr "CLO001" ]}] []
           (JObj {[ "id" := JStr "CLO002" ]})).
  - vm_compute; reflexivity.
  - repeat constructor. vm_compute. intros Heq. discriminate Heq.
  - vm_compute; reflexivity.
Defined.

(** X21 on an id that is not on display. *)
Lemma try_on_unknown_id_does_nothing_sample :
  step quiet_world (ClickTryOn "CLO009") on_display = (on_display, [])
  /\ Monolith.step quiet_world (Monolith.ClickTryOn "CLO009") on_display
     = (on_display, []).
Proof.
  apply (try_on_unknown_id_does_nothing (H := payload_runtime) quiet_world
           on_display "CLO009" search_items).
  - vm_compute; reflexivity.
  - repeat constructor; vm_compute; intros Heq; discriminate Heq.
Defined.

(** X22 on the sample sessions, from the initial state. *)
Lemma favorites_never_duplicate_sample :
  NoDup (favorites (shopping (run quiet_world session initialState).1))
  /\ NoDup (favorites (shopping
              (Monolith.run quiet_world monolith_session initialState).1)).
Proof.
  apply (favorites_never_duplicate (H := payload_runtime) quiet_world
           session monolith_session initialState).
  apply NoDup_nil_2.
Defined.

(** X23 on the sample sessions, from the initial state. *)
Lemma cart_entries_stay_distinct_sample :
  distinct (cart (run quiet_world session initialState).1)
  /\ distinct (cart
       (Monolith.run quiet_world monolith_session initialState).1).
Proof.
  apply (cart_entries_stay_distinct (H := payload_runtime) quiet_world
           session monolith_session initialState).
  exact I.
Defined.

(** X24 on a cart that holds another product. *)
Lemma add_then_remove_restores_cart_sample :
  let s := (step quiet_world (ClickAddToCart "CLO001") on_display).1 in
  let r := run quiet_world [ClickAddToCart "CLO002";
                            ClickRemoveFromCart "CLO002"] s in
  let r' := Monolith.run quiet_world
              [Monolith.ClickAddToCart "CLO002";
               Monolith.ClickRemoveFromCart "CLO002"] s in
  cart r.1 = cart s /\ cart r'.1 = cart s.
Proof.
  apply (add_then_remove_restores_cart (H := payload_runtime) quiet_world
           (step quiet_world (ClickAddToCart "CLO001") on_display).1
           "CLO002").
  vm_compute; reflexivity.
Defined.

(** X25 on the favourites page. *)
Lemma favorites_page_shows_favorites_sample :
  displayedListings favorites_page
  = Normal (JArr [JObj {[ "id" := JStr "CLO002" ]}]).
Proof.
  apply (favorites_page_shows_favorites (H := payload_runtime) favorites_page
           search_items);
    vm_compute; reflexivity.
Defined.

(** X26 on a result with a relative URL. *)
Lemma voice_try_on_result_shown_as_sent_sample :
  let s' := (step quiet_world
               (toolResponse (frame "virtual_try_on" try_on_result_text))
               on_display).1 in
  isGeneratingTryOn (tryOn s') = false
  /\ tryOnResult (tryOn s')
     = Some {| imageUrl := JStr "/static/tryon/1.png"; timestamp := noon |}.
Proof.
  apply (voice_try_on_result_shown_as_sent (H := payload_runtime) quiet_world
           on_display (frame "virtual_try_on" try_on_result_text)
           try_on_result);
    vm_compute; reflexivity.
Defined.

(** X27 on a request for the second listing on display. *)
Lemma voice_try_on_agrees_with_button_sample :
  (step quiet_world
     (toolResponse (frame "virtual_try_on" try_on_request_text))
     on_display).1
  = (step quiet_world (ClickTryOn "CLO002") on_display).1.
Proof.
  apply (voice_try_on_agrees_with_button (H := payload_runtime) quiet_world
           on_display (frame "virtual_try_on" try_on_request_text)
           try_on_request "CLO002");
    try (left; vm_compute; reflexivity);
    vm_compute; reflexivity.
Defined.

End OnPayloads.
